(** * KAST Neural Wallet: the quantitative core, embedded and verified

    The development follows the TypeScript sources of the repository:
    the time-series store ([marketHistory]), the risk engine
    ([riskMetrics]), the forecast engine ([forecastEngine]), the cashflow
    forecast ([cashflowEngine]), the portfolio allocator
    ([portfolioOptimizer]) and the decision engine ([decisionEngine]),
    with the price oracle ([pyth]) and the policy engine ([policyEngine])
    beside them.

    Every function keeps the name it has in the source.  How the
    embedding reads the program:
    - a JS number is a finite real, an infinity or NaN (section
      "JavaScript numbers"); arithmetic on finite values is exact;
    - module-level state (the [marketHistory] map) and the clock
      ([Date.now()]) are explicit arguments; timestamps and day counts are
      integers;
    - a [for] loop over an array is a fold, with the loop variables as
      the state; the one loop that counts up to a bound on numbers
      (the candidates of the allocator) runs on fuel and is proved to end
      within it;
    - [null] and [undefined] are [None];
    - a read of an identifier that nothing declares throws, and the
      functions on its way return a [completion] (section "Exceptions");
    - the conversion of a string into a number ([Number(s)]) is an
      argument of the functions that call it;
    - texts that only render numbers (descriptions, reasoning traces,
      formatted reports) are left out. *)

From Stdlib Require Import Reals Lra Lia ZArith List Ascii String Bool.
From stdpp Require Import base gmap strings.
Import ListNotations.

Open Scope R_scope.

(** ** JavaScript numbers

    A JS [number] is either a finite value, one of the two infinities, or
    NaN.  The finite values are taken with exact real arithmetic: rounding
    to binary64 and overflow are not modelled, and there is one zero (the
    positive one).  The special values follow IEEE-754 as JS does: a
    comparison with NaN is false, [x / 0] is an infinity or NaN, and
    [inf - inf] and [0 * inf] are NaN. *)

Inductive number : Type :=
| Fin (r : R)
| PInf
| NInf
| NaN.

Coercion Fin : R >-> number.

Declare Scope num_scope.
Delimit Scope num_scope with J.
Bind Scope num_scope with number.

Definition Rltb (a b : R) : bool := if Rlt_dec a b then true else false.
Definition Reqb (a b : R) : bool := if Req_dec_T a b then true else false.

Module Num.

Definition neg (x : number) : number :=
  match x with
  | Fin a => Fin (- a)
  | PInf => NInf
  | NInf => PInf
  | NaN => NaN
  end.

Definition add (x y : number) : number :=
  match x, y with
  | NaN, _ | _, NaN => NaN
  | Fin a, Fin b => Fin (a + b)
  | PInf, NInf | NInf, PInf => NaN
  | PInf, _ | _, PInf => PInf
  | NInf, _ | _, NInf => NInf
  end.

Definition sub (x y : number) : number := add x (neg y).

(** The sign of a finite value: the sign of zero is positive. *)
Definition scale_inf (pos : bool) (a : R) : number :=
  if Reqb a 0 then NaN
  else if Rltb 0 a then (if pos then PInf else NInf)
       else (if pos then NInf else PInf).

Definition mul (x y : number) : number :=
  match x, y with
  | NaN, _ | _, NaN => NaN
  | Fin a, Fin b => Fin (a * b)
  | Fin a, PInf | PInf, Fin a => scale_inf true a
  | Fin a, NInf | NInf, Fin a => scale_inf false a
  | PInf, PInf | NInf, NInf => PInf
  | PInf, NInf | NInf, PInf => NInf
  end.

Definition div (x y : number) : number :=
  match x, y with
  | NaN, _ | _, NaN => NaN
  | Fin a, Fin b =>
      if Reqb b 0 then
        (if Reqb a 0 then NaN else if Rltb 0 a then PInf else NInf)
      else Fin (a / b)
  | Fin _, PInf | Fin _, NInf => Fin 0
  | PInf, Fin b => if Rltb b 0 then NInf else PInf
  | NInf, Fin b => if Rltb b 0 then PInf else NInf
  | _, _ => NaN
  end.

(** [x < y]; false as soon as one side is NaN. *)
Definition ltb (x y : number) : bool :=
  match x, y with
  | NaN, _ | _, NaN => false
  | Fin a, Fin b => Rltb a b
  | NInf, NInf => false
  | NInf, _ => true
  | _, NInf => false
  | PInf, _ => false
  | Fin _, PInf => true
  end.

(** [x === y] *)
Definition eqb (x y : number) : bool :=
  match x, y with
  | Fin a, Fin b => Reqb a b
  | PInf, PInf | NInf, NInf => true
  | _, _ => false
  end.

Definition gtb (x y : number) : bool := ltb y x.
Definition leb (x y : number) : bool := ltb x y || eqb x y.
Definition geb (x y : number) : bool := leb y x.

(** [x !== y] *)
Definition neqb (x y : number) : bool := negb (eqb x y).

Definition is_nan (x : number) : bool :=
  match x with NaN => true | _ => false end.

(** A finite number, as opposed to NaN and the infinities
    ([Number.isFinite]). *)
Definition is_finite (x : number) : bool :=
  match x with Fin _ => true | _ => false end.

(** Truthiness of a number in a condition or under [||]: [0] and NaN
    are falsy. *)
Definition truthy (x : number) : bool :=
  match x with
  | Fin a => negb (Reqb a 0)
  | NaN => false
  | _ => true
  end.

End Num.

Notation "x + y" := (Num.add x y) : num_scope.
Notation "x - y" := (Num.sub x y) : num_scope.
Notation "x * y" := (Num.mul x y) : num_scope.
Notation "x / y" := (Num.div x y) : num_scope.
Notation "- x" := (Num.neg x) : num_scope.
Notation "x <? y" := (Num.ltb x y) : num_scope.
Notation "x >? y" := (Num.gtb x y) : num_scope.
Notation "x <=? y" := (Num.leb x y) : num_scope.
Notation "x >=? y" := (Num.geb x y) : num_scope.
Notation "x === y" := (Num.eqb x y) (at level 70, no associativity) : num_scope.
Notation "x !== y" := (Num.neqb x y) (at level 70, no associativity) : num_scope.

(** The [Math] object. *)
Module Math.

(** [Math.max(a, b)] and [Math.min(a, b)]: NaN if an argument is NaN. *)
Definition max (x y : number) : number :=
  if Num.is_nan x || Num.is_nan y then NaN
  else if Num.ltb x y then y else x.

Definition min (x y : number) : number :=
  if Num.is_nan x || Num.is_nan y then NaN
  else if Num.ltb y x then y else x.

(** [Math.max(...l)] and [Math.min(...l)]; the empty spread gives
    [-Infinity] and [Infinity]. *)
Definition max_list (l : list number) : number := fold_left max l NInf.
Definition min_list (l : list number) : number := fold_left min l PInf.

Definition abs (x : number) : number :=
  match x with
  | Fin a => Fin (Rabs a)
  | PInf | NInf => PInf
  | NaN => NaN
  end.

Definition sqrt (x : number) : number :=
  match x with
  | Fin a => if Rltb a 0 then NaN else Fin (R_sqrt.sqrt a)
  | PInf => PInf
  | NInf | NaN => NaN
  end.

Definition log (x : number) : number :=
  match x with
  | Fin a => if Rltb a 0 then NaN else if Reqb a 0 then NInf else Fin (ln a)
  | PInf => PInf
  | NInf | NaN => NaN
  end.

Definition exp (x : number) : number :=
  match x with
  | Fin a => Fin (Rtrigo_def.exp a)
  | PInf => PInf
  | NInf => Fin 0
  | NaN => NaN
  end.

Definition floor (x : number) : number :=
  match x with
  | Fin a => Fin (IZR (Int_part a))
  | _ => x
  end.

(** [Math.round] rounds half-way cases up: [floor (x + 0.5)]. *)
Definition round (x : number) : number :=
  match x with
  | Fin a => Fin (IZR (Int_part (a + 1 / 2)))
  | _ => x
  end.

End Math.

(** [x || d] on numbers. *)
Definition or_default (x d : number) : number :=
  if Num.truthy x then x else d.

(** [x || d] where [x] is an optional field ([undefined] is falsy). *)
Definition opt_or_default (x : option number) (d : number) : number :=
  match x with
  | Some v => or_default v d
  | None => d
  end.

(** The length of an array, as a number. *)
Definition len {A : Type} (l : list A) : number := Fin (INR (List.length l)).

Open Scope num_scope.

(** ** The [simple-statistics] package

    The package is a dependency of the repository; its functions are
    modelled here from what the sources and the specification use them
    for.  On the empty array [mean], [variance], [min] and [max] throw;
    every call in the sources below is behind a length guard, and the
    model gives NaN there. *)
Module SimpleStatistics.

(** Modelled from the spec: [sum] of [simple-statistics], the sum of the
    values ([0] for none).  The package adds with a compensation term,
    which is zero in exact arithmetic. *)
Definition sum (x : list number) : number := fold_left Num.add x (Fin 0).

(** Modelled from the spec: [mean] of [simple-statistics], the sum over
    the length. *)
Definition mean (x : list number) : number :=
  match x with
  | [] => NaN
  | _ => sum x / len x
  end.

(** Modelled from the spec: [sumNthPowerDeviations(x, 2)] of
    [simple-statistics], the sum of the squared deviations from the
    mean. *)
Definition sumNthPowerDeviations2 (x : list number) : number :=
  let meanValue := mean x in
  fold_left (fun s xi => let tempValue := xi - meanValue in
                         s + tempValue * tempValue) x (Fin 0).

(** Modelled from the spec: [variance] of [simple-statistics], the
    population variance. *)
Definition variance (x : list number) : number :=
  match x with
  | [] => NaN
  | _ => sumNthPowerDeviations2 x / len x
  end.

(** Modelled from the spec: [standardDeviation] of [simple-statistics],
    the square root of the population variance, [0] for a single value. *)
Definition standardDeviation (x : list number) : number :=
  match x with
  | [_] => Fin 0
  | _ => Math.sqrt (variance x)
  end.

(** Modelled from the spec: [min] of [simple-statistics], a scan that
    keeps the smaller value. *)
Definition min (x : list number) : number :=
  match x with
  | [] => NaN
  | x0 :: rest => fold_left (fun value xi => if xi <? value then xi else value) rest x0
  end.

(** Modelled from the spec: [max] of [simple-statistics], a scan that
    keeps the larger value. *)
Definition max (x : list number) : number :=
  match x with
  | [] => NaN
  | x0 :: rest => fold_left (fun value xi => if xi >? value then xi else value) rest x0
  end.

End SimpleStatistics.

(** ** The time-series store ([marketHistory])

    The module-level [Map<string, AssetTimeSeries>] is the explicit
    argument [mh]; timestamps are Unix milliseconds.  In
    [SeriesStatistics] the fields [symbol], [mean], [variance], [min] and
    [max] carry the prefix [stat_], their names being taken. *)
Module marketHistory.
Import SimpleStatistics.

Record PricePoint : Type := {
  price : number;
  timestamp : Z;
  confidence : option number;
}.

Record AssetTimeSeries : Type := {
  symbol : string;
  prices : list PricePoint;
  maxWindowSize : nat;
}.

Record SeriesStatistics : Type := {
  stat_symbol : string;
  count : number;
  stat_mean : number;
  stat_variance : number;
  stdDev : number;
  stat_min : number;
  stat_max : number;
  range : number;
  latestPrice : number;
  latestTimestamp : option Z;
  totalReturn : number;
  annualizedVolatility : number;
  maxDrawdown : number;
  currentDrawdown : number;
}.

Definition DEFAULT_WINDOW_SIZE : nat := 50.
Definition EXTENDED_WINDOW_SIZE : nat := 100.

Definition initializeSeries (mh : gmap string AssetTimeSeries)
    (sym : string) (maxWindowSize : nat)
  : gmap string AssetTimeSeries * AssetTimeSeries :=
  let series := {| symbol := sym; prices := []; maxWindowSize := maxWindowSize |} in
  (<[sym := series]> mh, series).

(** [push] then, past the window size, [shift]. *)
Definition addPrice (mh : gmap string AssetTimeSeries)
    (sym : string) (p : number) (ts : Z) (conf : option number)
  : gmap string AssetTimeSeries * AssetTimeSeries :=
  let '(mh, series) :=
    match mh !! sym with
    | Some series => (mh, series)
    | None => initializeSeries mh sym DEFAULT_WINDOW_SIZE
    end in
  let pushed := prices series ++ [{| price := p; timestamp := ts; confidence := conf |}] in
  let kept := if (maxWindowSize series <? List.length pushed)%nat then tl pushed else pushed in
  let series := {| symbol := symbol series; prices := kept;
                   maxWindowSize := maxWindowSize series |} in
  (<[sym := series]> mh, series).

Definition getPriceArray (mh : gmap string AssetTimeSeries) (sym : string)
  : list number :=
  match mh !! sym with
  | Some series => map price (prices series)
  | None => []
  end.

Definition getTimestampArray (mh : gmap string AssetTimeSeries) (sym : string)
  : list Z :=
  match mh !! sym with
  | Some series => map timestamp (prices series)
  | None => []
  end.

(** The log returns [Math.log(p[i] / p[i-1])] for [i = 1 .. length-1]. *)
Fixpoint logReturns (ps : list number) : list number :=
  match ps with
  | prev :: (curr :: _) as rest => Math.log (curr / prev) :: logReturns rest
  | _ => []
  end.

Definition estimateDataFrequency (series : AssetTimeSeries) : number :=
  match prices series with
  | [] | [_] => Fin 1
  | first :: _ =>
      let firstTime := timestamp first in
      let lastTime := timestamp (List.last (prices series) first) in
      let timeSpanMs := (lastTime - firstTime)%Z in
      let timeSpanDays := Fin (IZR timeSpanMs) / Fin (1000 * 60 * 60 * 24) in
      if timeSpanDays <=? 0 then Fin 1
      else len (prices series) / timeSpanDays
  end.

Definition getVolatility (mh : gmap string AssetTimeSeries) (sym : string)
  : number :=
  match mh !! sym with
  | None => Fin 0
  | Some series =>
      if (List.length (prices series) <? 2)%nat then Fin 0
      else
        let returns := logReturns (map price (prices series)) in
        if (List.length returns <? 2)%nat then Fin 0
        else
          let returnStdDev := standardDeviation returns in
          let dataPointsPerDay := estimateDataFrequency series in
          let annualizationFactor := Math.sqrt (365 * dataPointsPerDay) in
          returnStdDev * annualizationFactor
  end.

(** One step of the drawdown pass: the state is
    [(peak, maxDrawdown, drawdown of this price)]. *)
Definition drawdownStep (st : number * number * number) (p : number)
  : number * number * number :=
  let '(peak, maxDd, _) := st in
  let peak := if p >? peak then p else peak in
  let drawdown := (peak - p) / peak in
  let maxDd := if drawdown >? maxDd then drawdown else maxDd in
  (peak, maxDd, drawdown).

(** [{max, current}] as a pair. *)
Definition getDrawdown (mh : gmap string AssetTimeSeries) (sym : string)
  : number * number :=
  match mh !! sym with
  | None => (Fin 0, Fin 0)
  | Some series =>
      match map price (prices series) with
      | [] | [_] => (Fin 0, Fin 0)
      | (p0 :: _) as ps =>
          let '(_, maxDd, current) := fold_left drawdownStep ps (p0, Fin 0, Fin 0) in
          (maxDd, current)
      end
  end.

Definition getStatistics (mh : gmap string AssetTimeSeries) (sym : string)
  : option SeriesStatistics :=
  match mh !! sym with
  | None => None
  | Some series =>
      match map price (prices series) with
      | [] | [_] => None
      | (firstPrice :: _) as ps =>
          let timestamps := map timestamp (prices series) in
          let priceMean := mean ps in
          let priceVariance := variance ps in
          let priceStdDev := standardDeviation ps in
          let priceMin := min ps in
          let priceMax := max ps in
          let lastPrice := List.last ps firstPrice in
          let totalReturn := (lastPrice - firstPrice) / firstPrice in
          let annualizedVol := getVolatility mh sym in
          let drawdown := getDrawdown mh sym in
          Some {| stat_symbol := sym;
                  count := len ps;
                  stat_mean := priceMean;
                  stat_variance := priceVariance;
                  stdDev := priceStdDev;
                  stat_min := priceMin;
                  stat_max := priceMax;
                  range := priceMax - priceMin;
                  latestPrice := lastPrice;
                  latestTimestamp := List.last (map Some timestamps) None;
                  totalReturn := totalReturn;
                  annualizedVolatility := annualizedVol;
                  maxDrawdown := fst drawdown;
                  currentDrawdown := snd drawdown |}
      end
  end.

End marketHistory.

(** ** Arrays *)

(** [a[i]] for a number [i]: [undefined] ([None]) unless [i] is an
    integer within the bounds. *)
Definition array_get {A : Type} (a : list A) (i : number) : option A :=
  match i with
  | Fin r =>
      if Rltb r 0 then None
      else if Reqb (IZR (Int_part r)) r then nth_error a (Z.to_nat (Int_part r))
      else None
  | _ => None
  end.

(** [[...a].sort((x, y) => x - y)]: ascending order.  (On an array that
    holds NaN the comparator is inconsistent and the order depends on the
    engine; the insertion below is one such order.) *)
Fixpoint sort_insert (x : number) (l : list number) : list number :=
  match l with
  | [] => [x]
  | y :: l' => if y - x >? 0 then x :: l else y :: sort_insert x l'
  end.

Definition sortAscending (a : list number) : list number :=
  fold_right sort_insert [] a.

(** ** The risk engine ([riskMetrics]) *)
Module riskMetrics.
Import SimpleStatistics.
Import marketHistory.

Record RiskMetrics : Type := {
  volatility : number;
  volatilityDaily : number;
  var95 : number;
  var99 : number;
  cvar95 : number;
  cvar99 : number;
  maxDrawdown : number;
  currentDrawdown : number;
  relativeUncertainty : number;
  totalValue : number;
  atRiskAmount : number;
}.

Record VaR : Type := { varRelative : number; varAbsolute : number }.
Record CVaR : Type := { cvarRelative : number; cvarAbsolute : number }.
Record Volatility : Type := {
  daily : number; annualized : number; weekly : number; monthly : number;
}.

(** [zScores[confidenceLevel] || 1.645] *)
Definition getZScore (confidenceLevel : number) : number :=
  if confidenceLevel === 0.8 then Fin 0.842
  else if confidenceLevel === 0.9 then Fin 1.282
  else if confidenceLevel === 0.95 then Fin 1.645
  else if confidenceLevel === 0.99 then Fin 2.326
  else if confidenceLevel === 0.999 then Fin 3.090
  else Fin 1.645.

Definition calculateVaRHistorical (mh : gmap string AssetTimeSeries)
    (sym : string) (confidenceLevel positionValue : number) : VaR :=
  let prices := getPriceArray mh sym in
  if (List.length prices <? 10)%nat then
    {| varRelative := Fin 0; varAbsolute := Fin 0 |}
  else
    let returns := logReturns prices in
    let sortedReturns := sortAscending returns in
    let percentileIndex := Math.floor ((1 - confidenceLevel) * len sortedReturns) in
    let varRelative :=
      match array_get sortedReturns (Math.max 0 percentileIndex) with
      | Some varReturn => Math.abs varReturn
      | None => NaN
      end in
    {| varRelative := varRelative; varAbsolute := varRelative * positionValue |}.

Definition calculateVaRParametric (mh : gmap string AssetTimeSeries)
    (sym : string) (confidenceLevel positionValue timeHorizon : number) : VaR :=
  let prices := getPriceArray mh sym in
  if (List.length prices <? 10)%nat then
    {| varRelative := Fin 0; varAbsolute := Fin 0 |}
  else
    let returns := logReturns prices in
    let mu := mean returns in
    let sigma := standardDeviation returns in
    let zScore := getZScore confidenceLevel in
    let horizonScale := Math.sqrt timeHorizon in
    let varReturn := - (mu - zScore * sigma * horizonScale) in
    let varRelative := Math.max 0 varReturn in
    {| varRelative := varRelative; varAbsolute := varRelative * positionValue |}.

Definition calculateCVaR (mh : gmap string AssetTimeSeries)
    (sym : string) (confidenceLevel positionValue : number) : CVaR :=
  let prices := getPriceArray mh sym in
  if (List.length prices <? 10)%nat then
    {| cvarRelative := Fin 0; cvarAbsolute := Fin 0 |}
  else
    let returns := logReturns prices in
    let varRelative := varRelative (calculateVaRHistorical mh sym confidenceLevel 1) in
    let varThreshold := - varRelative in
    let tailReturns := List.filter (fun r => r <? varThreshold) returns in
    match tailReturns with
    | [] => {| cvarRelative := varRelative; cvarAbsolute := varRelative * positionValue |}
    | _ =>
        let cvarReturn := mean tailReturns in
        let cvarRelative := Math.abs cvarReturn in
        {| cvarRelative := cvarRelative; cvarAbsolute := cvarRelative * positionValue |}
    end.

Definition calculateVolatility (mh : gmap string AssetTimeSeries) (sym : string)
  : Volatility :=
  let prices := getPriceArray mh sym in
  if (List.length prices <? 2)%nat then
    {| daily := Fin 0; annualized := Fin 0; weekly := Fin 0; monthly := Fin 0 |}
  else
    let returns := logReturns prices in
    let dailyVol := standardDeviation returns in
    {| daily := dailyVol;
       annualized := dailyVol * Math.sqrt 365;
       weekly := dailyVol * Math.sqrt 7;
       monthly := dailyVol * Math.sqrt 30 |}.

Definition calculateRiskMetrics (mh : gmap string AssetTimeSeries)
    (sym : string) (positionValue relativeUncertainty : number) : RiskMetrics :=
  let stats := getStatistics mh sym in
  let vol := calculateVolatility mh sym in
  let var95 := calculateVaRParametric mh sym 0.95 positionValue 1 in
  let var99 := calculateVaRParametric mh sym 0.99 positionValue 1 in
  let cvar95 := calculateCVaR mh sym 0.95 positionValue in
  let cvar99 := calculateCVaR mh sym 0.99 positionValue in
  let drawdown :=
    match stats with
    | Some stats => (marketHistory.maxDrawdown stats, marketHistory.currentDrawdown stats)
    | None => (Fin 0, Fin 0)
    end in
  {| volatility := annualized vol;
     volatilityDaily := daily vol;
     var95 := varRelative var95;
     var99 := varRelative var99;
     cvar95 := cvarRelative cvar95;
     cvar99 := cvarRelative cvar99;
     maxDrawdown := fst drawdown;
     currentDrawdown := snd drawdown;
     relativeUncertainty := relativeUncertainty;
     totalValue := positionValue;
     atRiskAmount := varAbsolute var95 |}.

Record Position : Type := { pos_symbol : string; value : number }.

Record PortfolioRisk : Type := {
  metrics : RiskMetrics;
  diversification : number;
}.

(** One turn of the loop over the positions; the state is
    [(weightedVar95, weightedVol, weightedUncertainty)]. *)
Definition portfolioStep (mh : gmap string AssetTimeSeries) (totalValue : number)
    (acc : number * number * number) (position : Position)
  : number * number * number :=
  let '(weightedVar95, weightedVol, weightedUncertainty) := acc in
  let weight := value position / totalValue in
  let metrics := calculateRiskMetrics mh (pos_symbol position) (value position) 0 in
  (weightedVar95 + var95 metrics * weight,
   weightedVol + volatility metrics * weight,
   weightedUncertainty + relativeUncertainty metrics * weight).

Definition calculatePortfolioRisk (mh : gmap string AssetTimeSeries)
    (positions : list Position) : PortfolioRisk :=
  let totalValue := sum (map value positions) in
  if (totalValue === 0) || (List.length positions =? 0)%nat then
    {| metrics := {| volatility := Fin 0; volatilityDaily := Fin 0;
                     var95 := Fin 0; var99 := Fin 0;
                     cvar95 := Fin 0; cvar99 := Fin 0;
                     maxDrawdown := Fin 0; currentDrawdown := Fin 0;
                     relativeUncertainty := Fin 0;
                     totalValue := Fin 0; atRiskAmount := Fin 0 |};
       diversification := Fin 0 |}
  else
    let '(weightedVar95, weightedVol, weightedUncertainty) :=
      fold_left (portfolioStep mh totalValue) positions (Fin 0, Fin 0, Fin 0) in
    let diversification := if (1 <? List.length positions)%nat then Fin 0.85 else Fin 1.0 in
    {| metrics := {| volatility := weightedVol * diversification;
                     volatilityDaily := weightedVol * diversification / Math.sqrt 365;
                     var95 := weightedVar95 * diversification;
                     var99 := weightedVar95 * 1.5 * diversification;
                     cvar95 := weightedVar95 * 1.2 * diversification;
                     cvar99 := weightedVar95 * 1.8 * diversification;
                     maxDrawdown := weightedVar95 * 2;
                     currentDrawdown := Fin 0;
                     relativeUncertainty := weightedUncertainty;
                     totalValue := totalValue;
                     atRiskAmount := weightedVar95 * totalValue * diversification |};
       diversification := diversification |}.

End riskMetrics.

(** ** The forecast engine ([forecastEngine]) *)
Module forecastEngine.
Import SimpleStatistics.
Import marketHistory.

Record ForecastResult : Type := {
  expectedValue : number;
  lowerBound : number;
  upperBound : number;
  errorMargin : number;
  confidenceLevel : number;
  model : string;
  modelParams : list (string * number);
  inputDataPoints : number;
  forecastHorizon : number;
  rSquared : option number;
  rmse : option number;
}.

(** [Math.pow(x, 2)] *)
Definition pow2 (x : number) : number := x * x.

(** [zTable[level] || 1.96] with the level rounded to two decimals. *)
Definition getZValue (confidenceLevel : number) : number :=
  let level := Math.round (confidenceLevel * 100) / 100 in
  if level === 0.8 then Fin 1.282
  else if level === 0.9 then Fin 1.645
  else if level === 0.95 then Fin 1.960
  else if level === 0.99 then Fin 2.576
  else if level === 0.999 then Fin 3.291
  else Fin 1.96.

(** The row of [tTable] for a level, as values at 5, 10, 20 and 30
    degrees of freedom. *)
Definition tTable (level : number) : option (number * number * number * number) :=
  if level === 0.9 then Some (Fin 2.015, Fin 1.812, Fin 1.725, Fin 1.697)
  else if level === 0.95 then Some (Fin 2.571, Fin 2.228, Fin 2.086, Fin 2.042)
  else if level === 0.99 then Some (Fin 4.032, Fin 3.169, Fin 2.845, Fin 2.750)
  else None.

Definition getTValue (confidenceLevel df : number) : number :=
  if df >? 30 then getZValue confidenceLevel
  else
    let level := Math.round (confidenceLevel * 100) / 100 in
    match tTable level with
    | None => getZValue confidenceLevel
    | Some (t5, t10, t20, t30) =>
        (* [dfs.find(d => d >= df) || dfs[dfs.length - 1]], then the
           entry of the row *)
        if 5 >=? df then t5
        else if 10 >=? df then t10
        else if 20 >=? df then t20
        else t30
    end.

(** Modelled from the spec: [linearRegression] of the [simple-statistics]
    package, ordinary least squares on [(x, y)] pairs, as [(m, b)]. *)
Definition linearRegression (data : list (number * number)) : number * number :=
  match data with
  | [(_, y)] => (Fin 0, y)
  | _ =>
      let '(sumX, sumY, sumXX, sumXY) :=
        fold_left (fun acc point =>
                     let '(sumX, sumY, sumXX, sumXY) := acc in
                     let '(x, y) := point in
                     (sumX + x, sumY + y, sumXX + x * x, sumXY + x * y))
                  data (Fin 0, Fin 0, Fin 0, Fin 0) in
      let dataLength := len data in
      let m := (dataLength * sumXY - sumX * sumY) / (dataLength * sumXX - sumX * sumX) in
      let b := sumY / dataLength - (m * sumX) / dataLength in
      (m, b)
  end.

(** Modelled from the spec: [linearRegressionLine] of the
    [simple-statistics] package, the line [x => b + m * x]. *)
Definition linearRegressionLine (mb : number * number) (x : number) : number :=
  snd mb + fst mb * x.

Definition forecastRollingRegression (mh : gmap string AssetTimeSeries)
    (sym : string) (horizon confidenceLevel : number) : option ForecastResult :=
  let prices := getPriceArray mh sym in
  let timestamps := getTimestampArray mh sym in
  if (List.length prices <? 10)%nat then None
  else
    let startTime := hd 0%Z timestamps in
    let timeIndex :=
      map (fun t => Fin (IZR (t - startTime)) / Fin (1000 * 60 * 60 * 24)) timestamps in
    let data := combine timeIndex prices in
    let regression := linearRegression data in
    let regressionFn := linearRegressionLine regression in
    let yMean := mean prices in
    let ssTotal := fold_left (fun sum y => sum + pow2 (y - yMean)) prices (Fin 0) in
    let ssResidual :=
      fold_left (fun sum ty => let predicted := regressionFn (fst ty) in
                               sum + pow2 (snd ty - predicted))
                data (Fin 0) in
    let rSquared := 1 - (ssResidual / ssTotal) in
    let rmse := Math.sqrt (ssResidual / len prices) in
    let lastTime := List.last timeIndex NaN in
    let forecastTime := lastTime + horizon in
    let expectedValue := regressionFn forecastTime in
    let n := len prices in
    let timeMean := mean timeIndex in
    let sxx := fold_left (fun sum t => sum + pow2 (t - timeMean)) timeIndex (Fin 0) in
    let timeDistance := pow2 (forecastTime - timeMean) / sxx in
    let seForecast := rmse * Math.sqrt (1 + 1 / n + timeDistance) in
    let tValue := getTValue confidenceLevel (n - 2) in
    let marginOfError := tValue * seForecast in
    Some {| expectedValue := expectedValue;
            lowerBound := Math.max 0 (expectedValue - marginOfError);
            upperBound := expectedValue + marginOfError;
            errorMargin := marginOfError;
            confidenceLevel := confidenceLevel;
            model := "rolling_regression";
            modelParams :=
              [("alpha"%string, snd regression); ("beta"%string, fst regression);
               ("rSquared"%string, rSquared); ("rmse"%string, rmse)];
            inputDataPoints := len prices;
            forecastHorizon := horizon;
            rSquared := Some rSquared;
            rmse := Some rmse |}.

(** One turn of Holt's recursion on [(level, trend)]. *)
Definition holtStep (alpha beta : number) (st : number * number) (p : number)
  : number * number :=
  let '(level, trend) := st in
  let prevLevel := level in
  let level := alpha * p + (1 - alpha) * (level + trend) in
  let trend := beta * (level - prevLevel) + (1 - beta) * trend in
  (level, trend).

(** The second pass: the one-step-ahead residuals, in order. *)
Fixpoint holtResiduals (alpha beta : number) (st : number * number)
    (ps : list number) : list number :=
  match ps with
  | [] => []
  | p :: rest =>
      let forecast := fst st + snd st in
      let residual := p - forecast in
      residual :: holtResiduals alpha beta (holtStep alpha beta st p) rest
  end.

Definition forecastExponentialSmoothing (mh : gmap string AssetTimeSeries)
    (sym : string) (horizon alpha beta confidenceLevel : number) : option ForecastResult :=
  let prices := getPriceArray mh sym in
  if (List.length prices <? 10)%nat then None
  else
    let p0 := nth 0 prices NaN in
    let p1 := nth 1 prices NaN in
    let '(level, trend) := fold_left (holtStep alpha beta) (tl prices) (p0, p1 - p0) in
    let expectedValue := level + horizon * trend in
    let residuals := holtResiduals alpha beta (p0, p1 - p0) (tl prices) in
    let residualStdDev := standardDeviation residuals in
    let zValue := getZValue confidenceLevel in
    let horizonScale := Math.sqrt horizon in
    let marginOfError := zValue * residualStdDev * horizonScale in
    Some {| expectedValue := expectedValue;
            lowerBound := Math.max 0 (expectedValue - marginOfError);
            upperBound := expectedValue + marginOfError;
            errorMargin := marginOfError;
            confidenceLevel := confidenceLevel;
            model := "exponential_smoothing";
            modelParams :=
              [("alpha"%string, alpha); ("beta"%string, beta);
               ("finalLevel"%string, level); ("finalTrend"%string, trend);
               ("residualStdDev"%string, residualStdDev)];
            inputDataPoints := len prices;
            forecastHorizon := horizon;
            rSquared := None;
            rmse := Some (Math.sqrt (mean (map (fun r => r * r) residuals))) |}.

(** The first differences [p[i] - p[i-1]]. *)
Fixpoint differences (ps : list number) : list number :=
  match ps with
  | prev :: (curr :: _) as rest => (curr - prev) :: differences rest
  | _ => []
  end.

Definition forecastMeanReversion (mh : gmap string AssetTimeSeries)
    (sym : string) (horizon confidenceLevel : number) : option ForecastResult :=
  let prices := getPriceArray mh sym in
  if (List.length prices <? 20)%nat then None
  else
    let longTermMean := mean prices in
    let returns := differences prices in
    let y := tl returns in
    let x := removelast returns in
    let xMean := mean x in
    let yMean := mean y in
    let '(numerator, denominator) :=
      fold_left (fun acc xy =>
                   (fst acc + (fst xy - xMean) * (snd xy - yMean),
                    snd acc + pow2 (fst xy - xMean)))
                (combine x y) (Fin 0, Fin 0) in
    let phi := if denominator !== 0 then numerator / denominator else Fin 0 in
    let theta := Math.max 0.01 (- Math.log (Math.abs phi)) in
    let returnStdDev := standardDeviation returns in
    let currentPrice := List.last prices NaN in
    let deviation := currentPrice - longTermMean in
    let decayFactor := Math.exp (- theta * horizon) in
    let expectedValue := longTermMean + deviation * decayFactor in
    let variance :=
      (returnStdDev * returnStdDev) / (2 * theta) * (1 - Math.exp (-2 * theta * horizon)) in
    let stdDev := Math.sqrt variance in
    let zValue := getZValue confidenceLevel in
    let marginOfError := zValue * stdDev in
    Some {| expectedValue := expectedValue;
            lowerBound := Math.max 0 (expectedValue - marginOfError);
            upperBound := expectedValue + marginOfError;
            errorMargin := marginOfError;
            confidenceLevel := confidenceLevel;
            model := "mean_reversion";
            modelParams :=
              [("longTermMean"%string, longTermMean); ("theta"%string, theta);
               ("sigma"%string, returnStdDev); ("currentDeviation"%string, deviation);
               ("halfLife"%string, Math.log 2 / theta)];
            inputDataPoints := len prices;
            forecastHorizon := horizon;
            rSquared := None;
            rmse := Some returnStdDev |}.

(** [if (x) forecasts.push(x)] *)
Definition pushIf {A : Type} (x : option A) : list A :=
  match x with Some v => [v] | None => [] end.

(** The forecasts of the models that succeeded, in the order they are
    pushed. *)
Definition ensembleForecasts (mh : gmap string AssetTimeSeries)
    (sym : string) (horizon confidenceLevel : number) : list ForecastResult :=
  let regression := forecastRollingRegression mh sym horizon confidenceLevel in
  let smoothing := forecastExponentialSmoothing mh sym horizon 0.3 0.1 confidenceLevel in
  let meanRev := forecastMeanReversion mh sym horizon confidenceLevel in
  pushIf regression ++ pushIf smoothing ++ pushIf meanRev.

Definition forecastEnsemble (mh : gmap string AssetTimeSeries)
    (sym : string) (horizon confidenceLevel : number) : option ForecastResult :=
  let forecasts := ensembleForecasts mh sym horizon confidenceLevel in
  match forecasts with
  | [] => None
  | [only] => Some only
  | _ =>
      let weights :=
        map (fun f => let rmse := opt_or_default (rmse f) 1 in 1 / (rmse * rmse))
            forecasts in
      let totalWeight := fold_left (fun sum w => sum + w) weights (Fin 0) in
      let normalizedWeights := map (fun w => w / totalWeight) weights in
      let expectedValue :=
        fold_left (fun sum fw => sum + expectedValue (fst fw) * snd fw)
                  (combine forecasts normalizedWeights) (Fin 0) in
      let lowerBounds := map lowerBound forecasts in
      let upperBounds := map upperBound forecasts in
      let lowerBound := Math.min_list lowerBounds in
      let upperBound := Math.max_list upperBounds in
      let errorMargin := (upperBound - lowerBound) / 2 in
      let ensembleRmse :=
        fold_left (fun sum fw => sum + opt_or_default (rmse (fst fw)) 1 * snd fw)
                  (combine forecasts normalizedWeights) (Fin 0) in
      Some {| expectedValue := expectedValue;
              lowerBound := lowerBound;
              upperBound := upperBound;
              errorMargin := errorMargin;
              confidenceLevel := confidenceLevel;
              model := "ensemble";
              modelParams :=
                [("modelsUsed"%string, len forecasts);
                 ("weights"%string, hd (Fin 0) normalizedWeights);
                 ("individualForecasts"%string, len forecasts)];
              inputDataPoints := Math.max_list (map inputDataPoints forecasts);
              forecastHorizon := horizon;
              rSquared := None;
              rmse := Some ensembleRmse |}
  end.

End forecastEngine.

(** ** The cashflow forecast ([cashflowEngine]) *)
Module cashflowEngine.
Import SimpleStatistics.

Record CashflowEvent : Type := {
  timestamp : Z;
  amount : number;
  category : option string;
  description : option string;
}.

Record CashflowForecastResult : Type := {
  horizonDays : number;
  confidenceLevel : number;
  startingBalance : number;
  expectedEndingBalance : number;
  lowerBound : number;
  upperBound : number;
  errorMargin : number;
  inputDays : nat;
  meanDailyNet : number;
  stdDailyNet : number;
  probabilityOfOverdraft : number;
  assumptions : list string;
}.

Definition dayMs : Z := 24 * 60 * 60 * 1000.

(** [buckets[idx] += amount]; an index outside the array leaves the
    array as it is. *)
Definition addAt (buckets : list number) (idx : Z) (amount : number) : list number :=
  if (idx <? 0)%Z then buckets
  else alter (fun b => b + amount) (Z.to_nat idx) buckets.

(** [now] is [Date.now()]. *)
Definition toDailyNetFlows (now : Z) (events : list CashflowEvent) (days : nat)
  : list number :=
  let start := (now - Z.of_nat days * dayMs)%Z in
  fold_left
    (fun buckets e =>
       if (timestamp e <? start)%Z || (now <? timestamp e)%Z then buckets
       else
         let idx := Z.min (Z.of_nat days - 1)
                          (Z.max 0 ((timestamp e - start) / dayMs)) in
         addAt buckets idx (amount e))
    events (repeat (Fin 0) days).

Definition getZValue (confidenceLevel : number) : number :=
  if confidenceLevel >=? 0.99 then Fin 2.576
  else if confidenceLevel >=? 0.95 then Fin 1.96
  else if confidenceLevel >=? 0.90 then Fin 1.645
  else Fin 1.28.

(** Standard normal CDF, Abramowitz and Stegun. *)
Definition normalCdf (z : number) : number :=
  let t := 1 / (1 + 0.2316419 * Math.abs z) in
  let d := 0.3989423 * Math.exp (- z * z / 2) in
  let p := d * t * (0.3193815 + t * (-0.3565638 + t * (1.781478 + t * (-1.821256 + t * 1.330274)))) in
  if z >? 0 then 1 - p else p.

Definition forecastCashflow (now : Z) (startingBalance : number)
    (events : list CashflowEvent) (horizonDays : number) (lookbackDays : nat)
    (confidenceLevel : number) : option CashflowForecastResult :=
  let daily := toDailyNetFlows now events lookbackDays in
  let nonZero := existsb (fun v => v !== 0) daily in
  if negb nonZero then None
  else
    let mu := mean daily in
    let sigma := if (2 <=? List.length daily)%nat then standardDeviation daily else Fin 0 in
    let expectedEnding := startingBalance + horizonDays * mu in
    let z := getZValue confidenceLevel in
    let err := z * sigma * Math.sqrt horizonDays in
    let denom := sigma * Math.sqrt horizonDays in
    let pOverdraft :=
      if denom >? 0 then normalCdf ((0 - expectedEnding) / denom)
      else (if expectedEnding <? 0 then Fin 1 else Fin 0) in
    Some {| horizonDays := horizonDays;
            confidenceLevel := confidenceLevel;
            startingBalance := startingBalance;
            expectedEndingBalance := expectedEnding;
            lowerBound := expectedEnding - err;
            upperBound := expectedEnding + err;
            errorMargin := err;
            inputDays := lookbackDays;
            meanDailyNet := mu;
            stdDailyNet := sigma;
            probabilityOfOverdraft := pOverdraft;
            assumptions :=
              ["Daily net cashflow is approximately stationary over the lookback window."%string;
               "Aggregate net flow uncertainty scales with sqrt(time)."%string;
               "Overdraft probability assumes a normal distribution for aggregate net flow."%string] |}.

End cashflowEngine.

(** [+x.toFixed(4)]: the nearest multiple of [1e-4], the larger one in a
    tie, computed on the magnitude. *)
Definition toFixed4 (x : number) : number :=
  match x with
  | Fin a =>
      if Rltb a 0
      then Fin (- (IZR (Int_part (- a * 10000 + 1 / 2)) / 10000))
      else Fin (IZR (Int_part (a * 10000 + 1 / 2)) / 10000)
  | _ => x
  end.

(** ** Exceptions

    A piece of code completes normally, with a value, or abruptly, by
    throwing; a thrown error ends every loop and every function around
    it, none of the sources below catching any. *)
Inductive JsError : Type :=
| ReferenceError (name : string).

Inductive completion (A : Type) : Type :=
| Normal (value : A)
| Throw (error : JsError).

Arguments Normal {A} value.
Arguments Throw {A} error.

(** [c] and then [k] on its value. *)
Definition bind {A B : Type} (c : completion A) (k : A -> completion B) : completion B :=
  match c with
  | Normal value => k value
  | Throw error => Throw error
  end.

(** The value of an identifier that no enclosing scope declares: reading
    it throws a [ReferenceError]. *)
Definition undeclared {A : Type} (name : string) : completion A :=
  Throw (ReferenceError name).

(** ** The portfolio allocator ([portfolioOptimizer])

    The [reasoning] texts of a plan are renderings of its numbers and are
    not part of the embedding. *)
Module portfolioOptimizer.
Import riskMetrics.

Record AllocationInputs : Type := {
  totalUSD : number;
  stableEarnApy : number;
  solStakingApy : number;
  solRisk : RiskMetrics;
  maxVar95LossPct : number;
  maxUncertainty : number;
  currentRelativeUncertainty : number;
  horizonDays : number;
  stepPct : option number;
}.

Record Allocations : Type := {
  CASH : number;
  STABLE_EARN : number;
  SOL_STAKING : number;
}.

Record AllocationPlan : Type := {
  plan_horizonDays : number;
  allocations : Allocations;
  expectedReturnUSD : number;
  worstCaseLossUSD : number;
  worstCaseLossPct : number;
  objectiveScore : number;
}.

Definition expectedReturnOverHorizon (totalUSD apy horizonDays : number) : number :=
  let daily := apy / 365 in
  totalUSD * daily * horizonDays.

Definition worstCaseLossSol (solUSD : number) (solRisk : RiskMetrics) : number :=
  let lossFrac := Math.abs (cvar95 solRisk) in
  solUSD * lossFrac.

(** [for (let x = 0; x <= 1 + 1e-9; x += step) candidates.push(...)],
    started at [x]; [None] when the fuel runs out before the loop
    exits. *)
Fixpoint candidatesFrom (fuel : nat) (x step : number) : option (list number) :=
  match fuel with
  | O => None
  | S fuel =>
      if x <=? 1 + 1e-9 then
        match candidatesFrom fuel (x + step) step with
        | Some rest => Some (Math.min 1 (Math.max 0 (toFixed4 x)) :: rest)
        | None => None
        end
      else Some []
  end.

(** The body of the inner loop for one [(solPct, stablePct)], up to the
    plan; [Normal None] is where the source says [continue].

    The object literal of the plan has the shorthand property
    [worstCaseLossPct], which reads an identifier of that name.  The loop
    body declares [worstLossPct]; neither the function nor the module
    declares [worstCaseLossPct], so that the read is of an undeclared
    identifier. *)
Definition candidatePlan (input : AllocationInputs) (solPct stablePct : number)
  : completion (option AllocationPlan) :=
  let cashPct := 1 - solPct - stablePct in
  if cashPct <? - 1e-9 then Normal None
  else
    let cash := Math.max 0 cashPct in
    let solUSD := totalUSD input * solPct in
    let varLossPct := Math.abs (var95 (solRisk input)) in
    let varLossUSD := solUSD * varLossPct in
    let maxAllowedVarUSD := solUSD * maxVar95LossPct input in
    if varLossUSD >? maxAllowedVarUSD + 1e-9 then Normal None
    else
      let expectedStable :=
        expectedReturnOverHorizon (totalUSD input * stablePct) (stableEarnApy input)
                                  (horizonDays input) in
      let expectedSol :=
        expectedReturnOverHorizon solUSD (solStakingApy input) (horizonDays input) in
      let expectedCash := Fin 0 in
      let expectedReturn := expectedStable + expectedSol + expectedCash in
      let worstLoss := worstCaseLossSol solUSD (solRisk input) in
      let worstLossPct := if totalUSD input >? 0 then worstLoss / totalUSD input else Fin 0 in
      let lambda := Fin 0.35 in
      let score := expectedReturn - lambda * worstLoss in
      bind (undeclared "worstCaseLossPct") (fun worstCaseLossPct_read =>
      Normal (Some {| plan_horizonDays := horizonDays input;
                      allocations :=
                        {| CASH := cash; STABLE_EARN := stablePct; SOL_STAKING := solPct |};
                      expectedReturnUSD := expectedReturn;
                      worstCaseLossUSD := worstLoss;
                      worstCaseLossPct := worstCaseLossPct_read;
                      objectiveScore := score |})).

(** [if (!best || plan.objectiveScore > best.objectiveScore) best = plan] *)
Definition keepBest (best : option AllocationPlan) (plan : AllocationPlan)
  : option AllocationPlan :=
  match best with
  | None => Some plan
  | Some b => if objectiveScore plan >? objectiveScore b then Some plan else best
  end.

(** The loop over [stablePct], with [best] as its state. *)
Definition innerLoop (input : AllocationInputs) (candidates : list number)
    (solPct : number) (best : option AllocationPlan) : completion (option AllocationPlan) :=
  fold_left
    (fun state stablePct =>
       bind state (fun best =>
       bind (candidatePlan input solPct stablePct) (fun plan =>
       match plan with
       | Some plan => Normal (keepBest best plan)
       | None => Normal best
       end)))
    candidates (Normal best).

(** The loop over [solPct], started with [best = null]. *)
Definition outerLoop (input : AllocationInputs) (uncertaintyTooHigh : bool)
    (candidates : list number) : completion (option AllocationPlan) :=
  fold_left
    (fun state solPct =>
       bind state (fun best =>
       if uncertaintyTooHigh && (solPct >? 0) then Normal best
       else innerLoop input candidates solPct best))
    candidates (Normal None).

(** More turns than the candidate loop can take: it adds at least
    [0.01] per turn and stops past [1 + 1e-9]. *)
Definition candidateFuel : nat := 128.

(** [None] only if the candidate loop were to outrun its fuel; otherwise
    how the call completes. *)
Definition optimizeAllocation (input : AllocationInputs)
  : option (completion AllocationPlan) :=
  let stepPct :=
    Math.max 1 (Math.min 20 (match stepPct input with Some s => s | None => Fin 5 end)) in
  let step := stepPct / 100 in
  let uncertaintyTooHigh := currentRelativeUncertainty input >? maxUncertainty input in
  match candidatesFrom candidateFuel 0 step with
  | None => None
  | Some candidates =>
      Some
        (bind (outerLoop input uncertaintyTooHigh candidates) (fun best =>
         match best with
         | Some best => Normal best
         | None =>
             Normal
               {| plan_horizonDays := horizonDays input;
                  allocations :=
                    {| CASH := Fin 0; STABLE_EARN := Fin 1; SOL_STAKING := Fin 0 |};
                  expectedReturnUSD :=
                    expectedReturnOverHorizon (totalUSD input) (stableEarnApy input)
                                              (horizonDays input);
                  worstCaseLossUSD := Fin 0;
                  worstCaseLossPct := Fin 0;
                  objectiveScore := Fin 0 |}
         end))
  end.

End portfolioOptimizer.

(** ** Price data of the oracle ([types/MarketData]) *)
Module MarketData.
Record ProcessedPriceData : Type := {
  symbol : string;
  price : number;
  confidence : number;
  publishTime : Z;
  expo : number;
  relativeUncertainty : number;
  dataFreshnessMs : number;
  isStale : bool;
  isValid : bool;
}.
End MarketData.

(** ** The decision engine ([decisionEngine])

    The [description] and [reasoning] texts of a recommendation are
    renderings of its numbers and are not part of the embedding. *)
Module decisionEngine.
Import forecastEngine.
Import riskMetrics.

Inductive DecisionType : Type :=
| hold
| reduce_exposure
| increase_stable
| take_profit
| add_collateral.

Inductive Urgency : Type := low | medium | high | critical.

Record Justification : Type := {
  forecastExpected : number;
  forecastLower : number;
  forecastUpper : number;
  just_volatility : number;
  just_var95 : number;
  just_maxDrawdown : number;
  dataQuality : number;
}.

Record RiskAssessment : Type := {
  worstCaseLoss : number;
  worstCaseLossPct : number;
  probabilityOfLoss : number;
  recommendedMaxPosition : number;
}.

Record SuggestedAction : Type := {
  action_type : string;
  action_amount : number;
  targetAsset : option string;
}.

Record Alternative : Type := {
  alt_type : DecisionType;
  alt_description : string;
  alt_confidenceScore : number;
}.

Record DecisionRecommendation : Type := {
  type : DecisionType;
  title : string;
  confidenceScore : number;
  urgency : Urgency;
  justification : Justification;
  riskAssessment : RiskAssessment;
  suggestedAction : SuggestedAction;
  alternatives : list Alternative;
  generatedAt : Z;
}.

Definition determineDecisionType (forecast : ForecastResult) (risk : RiskMetrics)
    (_positionValue : number) : DecisionType :=
  if (volatility risk >? 0.5) && (expectedValue forecast <? lowerBound forecast * 1.1)
  then reduce_exposure
  else if var95 risk >? 0.1 then add_collateral
  else if currentDrawdown risk >? 0.15 then reduce_exposure
  else if relativeUncertainty risk >? 0.02 then increase_stable
  else if (expectedValue forecast >? lowerBound forecast * 1.05) && (var95 risk <? 0.05)
  then take_profit
  else hold.

(** Standard normal CDF through an approximation of the error
    function. *)
Definition normalCDF (x : number) : number :=
  let a1 := Fin 0.254829592 in
  let a2 := Fin (-0.284496736) in
  let a3 := Fin 1.421413741 in
  let a4 := Fin (-1.453152027) in
  let a5 := Fin 1.061405429 in
  let p := Fin 0.3275911 in
  let sign := if x <? 0 then Fin (-1) else Fin 1 in
  let x := Math.abs x / Math.sqrt 2 in
  let t := 1 / (1 + p * x) in
  let y := 1 - (((((a5 * t + a4) * t) + a3) * t + a2) * t + a1) * t * Math.exp (- x * x) in
  0.5 * (1 + sign * y).

Definition calculateProbabilityOfLoss (forecast : ForecastResult)
    (positionValue : number) : number :=
  if positionValue === 0 then Fin 0
  else
    let sigma := errorMargin forecast / 1.96 in
    if sigma === 0 then (if expectedValue forecast <? 0 then Fin 1 else Fin 0)
    else
      let z := (0 - expectedValue forecast) / sigma in
      normalCDF z.

Definition calculateDataQuality (forecast : ForecastResult) (risk : RiskMetrics)
    (priceData : MarketData.ProcessedPriceData) : number :=
  let score := Fin 100 in
  let score := if MarketData.isStale priceData then score - 30 else score in
  let score := score - Math.min 30 (MarketData.relativeUncertainty priceData * 3000) in
  let score := score - Math.min 20 (volatility risk * 40) in
  let score := if inputDataPoints forecast <? 20 then score - 20 else score in
  Math.max 0 score.

Definition determineUrgency (risk : RiskMetrics) (probLoss : number) : Urgency :=
  if (var95 risk >? 0.15) || (probLoss >? 0.3) then critical
  else if (var95 risk >? 0.1) || (probLoss >? 0.2) then high
  else if (var95 risk >? 0.05) || (probLoss >? 0.1) then medium
  else low.

Definition calculateConfidenceScore (dataQuality : number)
    (forecast : ForecastResult) (risk : RiskMetrics) : number :=
  let score := dataQuality in
  let errorPct := errorMargin forecast / expectedValue forecast in
  let score := score - Math.min 20 (errorPct * 100) in
  let score := score - Math.min 20 (volatility risk * 40) in
  Math.max 0 (Math.min 100 (Math.round score)).

Definition buildSuggestedAction (type : DecisionType) (positionValue : number)
    (risk : RiskMetrics) (_forecast : ForecastResult) : SuggestedAction :=
  match type with
  | reduce_exposure =>
      {| action_type := "sell"; action_amount := positionValue * 0.2; targetAsset := None |}
  | increase_stable =>
      {| action_type := "swap"; action_amount := positionValue * 0.3;
         targetAsset := Some "USDC"%string |}
  | add_collateral =>
      {| action_type := "deposit"; action_amount := positionValue * var95 risk * 1.5;
         targetAsset := None |}
  | take_profit =>
      {| action_type := "sell"; action_amount := positionValue * 0.1; targetAsset := None |}
  | hold =>
      {| action_type := "hold"; action_amount := Fin 0; targetAsset := None |}
  end.

Definition isType (a b : DecisionType) : bool :=
  match a, b with
  | hold, hold | reduce_exposure, reduce_exposure | increase_stable, increase_stable
  | take_profit, take_profit | add_collateral, add_collateral => true
  | _, _ => false
  end.

Definition generateAlternatives (currentType : DecisionType) (_forecast : ForecastResult)
    (risk : RiskMetrics) (_positionValue : number) : list Alternative :=
  (if negb (isType currentType hold)
   then [{| alt_type := hold;
            alt_description := "Maintain current position and monitor";
            alt_confidenceScore := Fin 60 |}]
   else [])
  ++ (if negb (isType currentType reduce_exposure) && (var95 risk >? 0.05)
      then [{| alt_type := reduce_exposure;
               alt_description := "Reduce position size by 10%";
               alt_confidenceScore := Fin 70 |}]
      else [])
  ++ (if negb (isType currentType increase_stable) && (volatility risk >? 0.3)
      then [{| alt_type := increase_stable;
               alt_description := "Convert 50% to USDC";
               alt_confidenceScore := Fin 65 |}]
      else []).

Definition getDecisionTitle (type : DecisionType) : string :=
  match type with
  | hold => "Hold Position"
  | reduce_exposure => "Reduce Exposure"
  | increase_stable => "Increase Stablecoin Allocation"
  | take_profit => "Take Partial Profits"
  | add_collateral => "Add Collateral"
  end.

(** [now] is [Date.now()]. *)
Definition generateDecision (now : Z) (_symbol : string) (forecast : ForecastResult)
    (risk : RiskMetrics) (positionValue : number)
    (priceData : MarketData.ProcessedPriceData) : DecisionRecommendation :=
  let dataQuality := calculateDataQuality forecast risk priceData in
  let decisionType := determineDecisionType forecast risk positionValue in
  let probLoss := calculateProbabilityOfLoss forecast positionValue in
  let worstCaseLoss := positionValue * cvar95 risk in
  let worstCaseLossPct := cvar95 risk in
  let maxAcceptableLoss := positionValue * 0.05 in
  let recommendedMaxPosition := maxAcceptableLoss / var95 risk in
  let justification :=
    {| forecastExpected := expectedValue forecast;
       forecastLower := lowerBound forecast;
       forecastUpper := upperBound forecast;
       just_volatility := volatility risk;
       just_var95 := var95 risk;
       just_maxDrawdown := maxDrawdown risk;
       dataQuality := dataQuality |} in
  let urgency := determineUrgency risk probLoss in
  let confidenceScore := calculateConfidenceScore dataQuality forecast risk in
  let suggestedAction := buildSuggestedAction decisionType positionValue risk forecast in
  let alternatives := generateAlternatives decisionType forecast risk positionValue in
  {| type := decisionType;
     title := getDecisionTitle decisionType;
     confidenceScore := confidenceScore;
     urgency := urgency;
     justification := justification;
     riskAssessment :=
       {| worstCaseLoss := worstCaseLoss;
          worstCaseLossPct := worstCaseLossPct;
          probabilityOfLoss := probLoss;
          recommendedMaxPosition := recommendedMaxPosition |};
     suggestedAction := suggestedAction;
     alternatives := alternatives;
     generatedAt := now |}.

End decisionEngine.

(** ** The price oracle ([pyth])

    [Number(s)], the conversion of a string of the feed into a number, is
    the argument [toNumber]; the clock [Date.now()] is [now].  The
    [reason] text of the safety check is a rendering and is left out. *)
Module pyth.
Import MarketData.

Record PythPrice : Type := {
  feed_price : string;
  feed_conf : string;
  feed_expo : number;
  feed_publishTime : Z;
}.

Record PythPriceFeed : Type := {
  feed_id : string;
  feed_data : PythPrice;
}.

Record TokenConfig : Type := {
  token_symbol : string;
  pythFeedId : string;
  decimals : number;
  displayName : string;
}.

Definition SUPPORTED_TOKENS : list TokenConfig :=
  [ {| token_symbol := "BTC";
       pythFeedId := "e62df6c8b4a85fe1a67db44dc12de5db330f7ac66b72dc658afedf0f4a415b43";
       decimals := Fin 8; displayName := "Bitcoin" |};
    {| token_symbol := "ETH";
       pythFeedId := "ff61491a931112ddf1bd8147cd1b641375f79f5825126d665480874634fd0ace";
       decimals := Fin 8; displayName := "Ethereum" |};
    {| token_symbol := "SOL";
       pythFeedId := "ef0d8b6fda2ceba41da15d4095d1da392a0d2f8ed0c6c7bc0f4cfac8c280b56d";
       decimals := Fin 8; displayName := "Solana" |};
    {| token_symbol := "USDC";
       pythFeedId := "eaa020c61cc479712813461ce153894a96a6c00b21ed0cfc2798d1f9a9e9c94a";
       decimals := Fin 6; displayName := "USD Coin" |};
    {| token_symbol := "USDT";
       pythFeedId := "2b89b9dc8fdf9f34709a5b106b472f0f39bb6ca9ce04b0fd7f2e971688e2e53b";
       decimals := Fin 6; displayName := "Tether" |} ].

Definition STALE_THRESHOLD_MS : number := Fin 60000.
Definition MAX_ACCEPTABLE_UNCERTAINTY : number := Fin 0.01.

(** [Math.pow(10, e)] *)
Definition pow10 (e : number) : number :=
  match e with
  | Fin a => Fin (Rpower 10 a)
  | PInf => PInf
  | NInf => Fin 0
  | NaN => NaN
  end.

(** [None] where the source throws "Unsupported token". *)
Definition getFeedIdForSymbol (sym : string) : option string :=
  match List.find (fun t => String.eqb (token_symbol t) sym) SUPPORTED_TOKENS with
  | Some token => Some (pythFeedId token)
  | None => None
  end.

Definition getSymbolForFeedId (feedId : string) : string :=
  match List.find (fun t => String.eqb (pythFeedId t) feedId) SUPPORTED_TOKENS with
  | Some token => if String.eqb (token_symbol token) "" then "UNKNOWN" else token_symbol token
  | None => "UNKNOWN"
  end.

Definition processPriceFeed (toNumber : string -> number) (now : Z)
    (feed : PythPriceFeed) : ProcessedPriceData :=
  let price := feed_price (feed_data feed) in
  let conf := feed_conf (feed_data feed) in
  let expo := feed_expo (feed_data feed) in
  let publishTime := feed_publishTime (feed_data feed) in
  let priceValue := toNumber price * pow10 expo in
  let confidenceValue := toNumber conf * pow10 expo in
  let relativeUncertainty :=
    if priceValue !== 0 then confidenceValue / Math.abs priceValue else PInf in
  let publishTimeMs := (publishTime * 1000)%Z in
  let dataFreshnessMs := Fin (IZR (now - publishTimeMs)) in
  let isStale := dataFreshnessMs >? STALE_THRESHOLD_MS in
  let isValid := negb isStale && (relativeUncertainty <=? MAX_ACCEPTABLE_UNCERTAINTY) in
  let symbol := getSymbolForFeedId (feed_id feed) in
  {| symbol := symbol;
     price := priceValue;
     confidence := confidenceValue;
     publishTime := publishTimeMs;
     expo := expo;
     relativeUncertainty := relativeUncertainty;
     dataFreshnessMs := dataFreshnessMs;
     isStale := isStale;
     isValid := isValid |}.

(** The [safe] field of the result. *)
Definition isPriceDataSafe (data : ProcessedPriceData) : bool :=
  if isStale data then false
  else if relativeUncertainty data >? MAX_ACCEPTABLE_UNCERTAINTY then false
  else true.

End pyth.

(** ** The policy engine ([policyEngine])

    A parameter bag [Record<string, number | string | boolean>] is a map
    from names to values of the three kinds; a missing name reads as
    [undefined].  The casts of the source ([as number], [as string]) do
    nothing at run time, so a value of another kind is converted as JS
    converts it.  [Number(s)] is the argument [toNumber], the local hour
    [new Date().getHours()] is [hour], and [Date.now()] is [now].  Calling
    [split] on a number or a boolean throws a [TypeError]: the result is
    [None] there. *)
Module policyEngine.

Inductive ParamValue : Type :=
| PNum (n : number)
| PStr (s : string)
| PBool (b : bool).

Inductive ConditionType : Type :=
| amount_threshold
| token_restriction
| time_restriction
| uncertainty_threshold
| other_condition (name : string).

Inductive ActionType : Type := require_approval | block | allow | notify.

Record PolicyCondition : Type := {
  cond_type : ConditionType;
  params : gmap string ParamValue;
}.

Record PolicyAction : Type := {
  act_type : ActionType;
  message : option string;
}.

Record PolicyRule : Type := {
  id : string;
  name : string;
  condition : PolicyCondition;
  action : PolicyAction;
  isActive : bool;
  createdAt : Z;
}.

Record Context : Type := {
  amount : number;
  token : string;
  uncertainty : number;
  dailySpent : number;
}.

(** The number that a comparison with a number makes of a value. *)
Definition toNumeric (toNumber : string -> number) (v : option ParamValue) : number :=
  match v with
  | Some (PNum n) => n
  | Some (PStr s) => toNumber s
  | Some (PBool true) => Fin 1
  | Some (PBool false) => Fin 0
  | None => NaN
  end.

(** Truthiness of a value in a condition. *)
Definition truthyValue (v : option ParamValue) : bool :=
  match v with
  | Some (PNum n) => Num.truthy n
  | Some (PStr s) => negb (String.eqb s "")
  | Some (PBool b) => b
  | None => false
  end.

(** [operator === name] *)
Definition isOperator (operator : option ParamValue) (name : string) : bool :=
  match operator with
  | Some (PStr s) => String.eqb s name
  | _ => false
  end.

Definition compareValues (toNumber : string -> number) (a : number)
    (b operator : option ParamValue) : bool :=
  if isOperator operator "gt" then a >? toNumeric toNumber b
  else if isOperator operator "lt" then a <? toNumeric toNumber b
  else if isOperator operator "eq" then
    match b with Some (PNum n) => a === n | _ => false end
  else if isOperator operator "gte" then a >=? toNumeric toNumber b
  else if isOperator operator "lte" then a <=? toNumeric toNumber b
  else false.

(** [s.split(',')] *)
Fixpoint splitComma (s : string) : list string :=
  match s with
  | EmptyString => [EmptyString]
  | String c rest =>
      if Ascii.eqb c ","%char then EmptyString :: splitComma rest
      else match splitComma rest with
           | piece :: pieces => String c piece :: pieces
           | [] => [String c EmptyString]
           end
  end.

(** [v ? v.split(',') : undefined]: [None] for the [TypeError] of a
    truthy value that is not a string, [Some None] for [undefined]. *)
Definition splitParam (v : option ParamValue) : option (option (list string)) :=
  if truthyValue v then
    match v with
    | Some (PStr s) => Some (Some (splitComma s))
    | _ => None
    end
  else Some None.

Definition includes (l : list string) (s : string) : bool :=
  existsb (String.eqb s) l.

Definition evaluateCondition (toNumber : string -> number) (hour : number)
    (condition : PolicyCondition) (context : Context) : option bool :=
  match cond_type condition with
  | amount_threshold =>
      let threshold := params condition !! "threshold"%string in
      let operator := params condition !! "operator"%string in
      Some (compareValues toNumber (amount context) threshold operator)
  | token_restriction =>
      let allowedParam := params condition !! "allowed"%string in
      let blockedParam := params condition !! "blocked"%string in
      match splitParam allowedParam with
      | None => None
      | Some allowedTokens =>
          match splitParam blockedParam with
          | None => None
          | Some blockedTokens =>
              if match blockedTokens with
                 | Some blocked => includes blocked (token context)
                 | None => false
                 end
              then Some false
              else if match allowedTokens with
                      | Some allowed => negb (includes allowed (token context))
                      | None => false
                      end
                   then Some false
                   else Some true
          end
      end
  | time_restriction =>
      let allowedHoursStr := params condition !! "allowedHours"%string in
      match splitParam allowedHoursStr with
      | None => None
      | Some None => Some true
      | Some (Some pieces) =>
          let allowedHours := map toNumber pieces in
          Some ((hour >=? nth 0 allowedHours NaN) && (hour <=? nth 1 allowedHours NaN))
      end
  | uncertainty_threshold =>
      let maxUncertainty := params condition !! "max"%string in
      Some (uncertainty context <=? toNumeric toNumber maxUncertainty)
  | other_condition _ => Some true
  end.

Definition defaultAction : PolicyAction :=
  {| act_type := require_approval;
     message := Some "No matching policy. Manual approval required."%string |}.

(** The loop over the active policies, in order; the first argument of
    the source, [_scenario], is not used and is left out. *)
Fixpoint firstApplicable (toNumber : string -> number) (hour : number)
    (policies : list PolicyRule) (context : Context) : option PolicyAction :=
  match policies with
  | [] => Some defaultAction
  | policy :: rest =>
      match evaluateCondition toNumber hour (condition policy) context with
      | None => None
      | Some conditionMet =>
          if conditionMet then Some (action policy)
          else firstApplicable toNumber hour rest context
      end
  end.

Definition applyPolicies (toNumber : string -> number) (hour : number)
    (policies : list PolicyRule) (context : Context) : option PolicyAction :=
  firstApplicable toNumber hour (List.filter isActive policies) context.

Definition createDefaultPolicies (now : Z) : list PolicyRule :=
  [ {| id := "block-high-uncertainty";
       name := "Block High Uncertainty";
       condition := {| cond_type := uncertainty_threshold;
                       params := {[ "max"%string := PNum (Fin 0.05) ]} |};
       action := {| act_type := block;
                    message := Some "Transaction blocked: Price uncertainty exceeds 5%"%string |};
       isActive := true;
       createdAt := now |};
    {| id := "require-approval-large";
       name := "Require Approval for Large Transactions";
       condition := {| cond_type := amount_threshold;
                       params := {[ "threshold"%string := PNum (Fin 100);
                                    "operator"%string := PStr "gte" ]} |};
       action := {| act_type := require_approval;
                    message := Some "Transaction requires manual approval (>$100)"%string |};
       isActive := true;
       createdAt := now |};
    {| id := "stablecoin-only";
       name := "Stablecoin Only";
       condition := {| cond_type := token_restriction;
                       params := {[ "allowed"%string := PStr "USDC,USDT" ]} |};
       action := {| act_type := require_approval;
                    message := Some "Non-stablecoin transaction requires approval"%string |};
       isActive := false;
       createdAt := now |} ].

End policyEngine.

(** * Specification-side definitions *)

(** ** The rule table of the decision engine *)
Module DecisionRules.
Import forecastEngine riskMetrics decisionEngine.

(** A rule table is read top-down; the first rule whose condition
    holds gives the outcome, the default is for when none holds. *)
Fixpoint firstMatch {A : Type} (rules : list (bool * A)) (default : A) : A :=
  match rules with
  | [] => default
  | (cond, outcome) :: rest => if cond then outcome else firstMatch rest default
  end.

(** The rule table as the specification words it. *)
Definition specRules (forecast : ForecastResult) (risk : RiskMetrics)
  : list (bool * DecisionType) :=
  [ ((volatility risk >? 0.5) && (expectedValue forecast <? 1.1 * lowerBound forecast),
     reduce_exposure);
    (var95 risk >? 0.10, add_collateral);
    (currentDrawdown risk >? 0.15, reduce_exposure);
    (relativeUncertainty risk >? 0.02, increase_stable);
    ((expectedValue forecast >? 1.05 * lowerBound forecast) && (var95 risk <? 0.05),
     take_profit) ].
End DecisionRules.

(** ** Allocation fractions *)
Module AllocationSpec.

(** A fraction: a finite number between 0 and 1. *)
Definition isFraction (c : number) : Prop :=
  exists r : R, c = Fin r /\ (0 <= r <= 1)%R.

End AllocationSpec.

(** ** Forecast intervals *)
Module EnsembleSpec.
Import forecastEngine.



End EnsembleSpec.

(** ** Portfolio averages *)
Module PortfolioSpec.
Import SimpleStatistics riskMetrics.

(** The value-weighted average of a metric: the metric of each
    position on its own, times the share of the position in the total
    value, summed over the positions. *)
Definition weightedAverage (mh : gmap string marketHistory.AssetTimeSeries)
    (positions : list Position) (metric : RiskMetrics -> number) : number :=
  let totalValue := sum (map value positions) in
  fold_left Num.add
    (map (fun p => metric (calculateRiskMetrics mh (pos_symbol p) (value p) 0)
                   * (value p / totalValue))
         positions)
    (Fin 0).

(** The diversification discount: 0.85 with more than one position. *)
Definition discount (positions : list Position) : number :=
  if (1 <? List.length positions)%nat then Fin 0.85 else Fin 1.0.

(** The risk metrics of a [RiskMetrics] record. *)
Definition riskMetricFields : list (RiskMetrics -> number) :=
  [volatility; volatilityDaily; var95; var99; cvar95; cvar99;
   maxDrawdown; currentDrawdown; relativeUncertainty].

(** Every risk metric of the portfolio is the discounted weighted
    average of that metric over the positions. *)
Definition averagesEveryMetric (mh : gmap string marketHistory.AssetTimeSeries)
    (positions : list Position) : Prop :=
  Forall (fun metric =>
            metric (metrics (calculatePortfolioRisk mh positions))
            = weightedAverage mh positions metric * discount positions)
         riskMetricFields.

End PortfolioSpec.

(** ** Feeding the store *)
Module StoreSpec.
Import marketHistory.

(** One price update as it reaches [addPrice]. *)
Record Tick : Type := {
  tick_symbol : string;
  tick_price : number;
  tick_timestamp : Z;
  tick_confidence : option number;
}.

(** The store after the updates have been added one after the other. *)
Definition replay (ticks : list Tick) (mh : gmap string AssetTimeSeries)
  : gmap string AssetTimeSeries :=
  fold_left
    (fun mh t =>
       fst (addPrice mh (tick_symbol t) (tick_price t) (tick_timestamp t)
                     (tick_confidence t)))
    ticks mh.

(** No series holds more points than its window allows. *)
Definition windowBounded (mh : gmap string AssetTimeSeries) : Prop :=
  forall (sym : string) (series : AssetTimeSeries),
    mh !! sym = Some series ->
    (List.length (prices series) <= maxWindowSize series)%nat.

(** The window of a symbol: that of its series, or the default one of the
    series that [addPrice] would create. *)
Definition windowOf (mh : gmap string AssetTimeSeries) (sym : string) : nat :=
  match mh !! sym with
  | Some series => maxWindowSize series
  | None => DEFAULT_WINDOW_SIZE
  end.

End StoreSpec.

(** ** Ranges of the figures *)
Module RiskSpec.

(** A figure that is not negative: NaN, [+Infinity], or a finite value
    of at least 0. *)
Definition nanOrNotNegative (x : number) : bool := Num.is_nan x || (0 <=? x).

(** A probability, or NaN: NaN or a value from 0 to 1. *)
Definition probabilityOrNaN (x : number) : bool :=
  Num.is_nan x || ((0 <=? x) && (x <=? 1)).

(** A score in percent, or NaN: NaN or a value from 0 to 100. *)
Definition percentOrNaN (x : number) : bool :=
  Num.is_nan x || ((0 <=? x) && (x <=? 100)).

(** [nanOrNotNegative] as a proposition, with the finite value at hand. *)
Definition deviationShape (x : number) : Prop :=
  x = NaN \/ x = PInf \/ exists v : R, x = Fin v /\ (0 <= v)%R.

End RiskSpec.

(** ** The window of the cashflow forecast *)
Module CashflowSpec.
Import cashflowEngine.

(** The event is dated within the lookback window
    [[now - days, now]]. *)
Definition inWindow (now : Z) (days : nat) (e : CashflowEvent) : bool :=
  negb ((timestamp e <? now - Z.of_nat days * dayMs)%Z || (now <? timestamp e)%Z).

End CashflowSpec.

(** ** The search of the allocator *)
Module SearchSpec.
Import riskMetrics portfolioOptimizer.

(** The candidate fractions that [optimizeAllocation] walks through. *)
Definition searchCandidates (input : AllocationInputs) : option (list number) :=
  candidatesFrom candidateFuel 0
    (Math.max 1 (Math.min 20 (match stepPct input with Some s => s | None => Fin 5 end))
     / 100).

End SearchSpec.

(** ** Recommendations *)
Module DecisionSpec.
Import decisionEngine.

(** The urgency levels in rising order. *)
Definition urgencyRank (u : Urgency) : nat :=
  match u with
  | low => 0
  | medium => 1
  | high => 2
  | critical => 3
  end.

(** The types offered by a list of alternatives. *)
Definition offered (alternatives : list Alternative) : list DecisionType :=
  map alt_type alternatives.

End DecisionSpec.

(** * Sample inputs *)

Module Samples.
Import forecastEngine riskMetrics.

(** A forecast of 100 with the interval [95, 105]. *)
Definition forecast100 : ForecastResult :=
  {| expectedValue := Fin 100; lowerBound := Fin 95; upperBound := Fin 105;
     errorMargin := Fin 5; confidenceLevel := Fin 0.95;
     model := "exponential_smoothing"; modelParams := [];
     inputDataPoints := Fin 30; forecastHorizon := Fin 7;
     rSquared := None; rmse := Some (Fin 2) |}.

(** Metrics that meet the conditions of the first four rules at once. *)
Definition stressedRisk : RiskMetrics :=
  {| volatility := Fin 0.6; volatilityDaily := Fin 0.03;
     var95 := Fin 0.2; var99 := Fin 0.3; cvar95 := Fin 0.25; cvar99 := Fin 0.35;
     maxDrawdown := Fin 0.4; currentDrawdown := Fin 0.3;
     relativeUncertainty := Fin 0.05;
     totalValue := Fin 1000; atRiskAmount := Fin 200 |}.

(** A forecast that expects a loss with no error margin. *)
Definition certainLoss : ForecastResult :=
  {| expectedValue := Fin (-5); lowerBound := Fin 0; upperBound := Fin (-5);
     errorMargin := Fin 0; confidenceLevel := Fin 0.95;
     model := "exponential_smoothing"; modelParams := [];
     inputDataPoints := Fin 30; forecastHorizon := Fin 7;
     rSquared := None; rmse := Some (Fin 0) |}.

(** The forecast of a flat series at price zero: no trend, no residual. *)
Definition flatZero : ForecastResult :=
  {| expectedValue := Fin 0; lowerBound := Fin 0; upperBound := Fin 0;
     errorMargin := Fin 0; confidenceLevel := Fin 0.95;
     model := "exponential_smoothing"; modelParams := [];
     inputDataPoints := Fin 30; forecastHorizon := Fin 7;
     rSquared := None; rmse := Some (Fin 0) |}.

Definition freshPrice : MarketData.ProcessedPriceData :=
  {| MarketData.symbol := "SOL"; MarketData.price := Fin 100;
     MarketData.confidence := Fin 0.05; MarketData.publishTime := 0%Z;
     MarketData.expo := Fin (-8); MarketData.relativeUncertainty := Fin 0.0005;
     MarketData.dataFreshnessMs := Fin 1000; MarketData.isStale := false;
     MarketData.isValid := true |}.

(** A store with no series at all. *)
Definition emptyHistory : gmap string marketHistory.AssetTimeSeries := ∅.

Definition point (p : R) (day : Z) : marketHistory.PricePoint :=
  {| marketHistory.price := Fin p; marketHistory.timestamp := (day * 86400000)%Z;
     marketHistory.confidence := None |}.

Definition seriesOf (sym : string) (ps : list marketHistory.PricePoint)
  : marketHistory.AssetTimeSeries :=
  {| marketHistory.symbol := sym; marketHistory.prices := ps;
     marketHistory.maxWindowSize := marketHistory.DEFAULT_WINDOW_SIZE |}.

(** Ten daily prices of a rising, oscillating series. *)
Definition tenPrices : list R :=
  [100; 102; 101; 105; 103; 108; 104; 110; 107; 112]%R.

Definition tenDayHistory : gmap string marketHistory.AssetTimeSeries :=
  {[ "SOL"%string :=
       seriesOf "SOL" (map (fun pd => point (fst pd) (snd pd))
                           (combine tenPrices (map Z.of_nat (seq 0 10)))) ]}.

(** A price that halves from one day to the next. *)
Definition halvedHistory : gmap string marketHistory.AssetTimeSeries :=
  {[ "SOL"%string := seriesOf "SOL" [point 100 0; point 50 1] ]}.

Definition onlySol : list riskMetrics.Position :=
  [{| riskMetrics.pos_symbol := "SOL"; riskMetrics.value := Fin 1000 |}].

Definition solAndEth : list riskMetrics.Position :=
  [{| riskMetrics.pos_symbol := "SOL"; riskMetrics.value := Fin 600 |};
   {| riskMetrics.pos_symbol := "ETH"; riskMetrics.value := Fin 400 |}].

(** A series that starts at price zero. *)
Definition fromZeroHistory : gmap string marketHistory.AssetTimeSeries :=
  {[ "SOL"%string := seriesOf "SOL" [point 0 0; point 1 1] ]}.

(** An input with the reading 0.02 above the ceiling 0.01, searched in
    steps of 20%. *)
Definition gatedInput : portfolioOptimizer.AllocationInputs :=
  {| portfolioOptimizer.totalUSD := Fin 10000;
     portfolioOptimizer.stableEarnApy := Fin 0.06;
     portfolioOptimizer.solStakingApy := Fin 0.07;
     portfolioOptimizer.solRisk := stressedRisk;
     portfolioOptimizer.maxVar95LossPct := Fin 0.10;
     portfolioOptimizer.maxUncertainty := Fin 0.01;
     portfolioOptimizer.currentRelativeUncertainty := Fin 0.02;
     portfolioOptimizer.horizonDays := Fin 7;
     portfolioOptimizer.stepPct := Some (Fin 20) |}.

Definition clockNow : Z := 1700000000000.

(** One expense of 20 on each of the last 30 days, an hour before the
    end of the day's bucket. *)
Definition dailyExpenses : list cashflowEngine.CashflowEvent :=
  map (fun i : nat =>
         {| cashflowEngine.timestamp :=
              (clockNow - Z.of_nat i * cashflowEngine.dayMs - 3600000)%Z;
            cashflowEngine.amount := Fin (-20);
            cashflowEngine.category := Some "rent"%string;
            cashflowEngine.description := None |})
      (seq 0 30).

End Samples.

(** ** More sample inputs *)
Module Scenarios.

(** A series of window size 3 that holds three prices. *)
Definition fullWindow : gmap string marketHistory.AssetTimeSeries :=
  {[ "SOL"%string :=
       {| marketHistory.symbol := "SOL";
          marketHistory.prices := [Samples.point 100 0; Samples.point 101 1; Samples.point 102 2];
          marketHistory.maxWindowSize := 3 |} ]}.

(** Twelve daily prices of 100. *)
Definition flatHistory : gmap string marketHistory.AssetTimeSeries :=
  {[ "SOL"%string :=
       Samples.seriesOf "SOL" (map (fun day => Samples.point 100 day)
                                   (map Z.of_nat (seq 0 12))) ]}.




(** Metrics with a VaR above 10% and a volatility below 50%. *)
Definition leveragedRisk : riskMetrics.RiskMetrics :=
  {| riskMetrics.volatility := Fin 0.3; riskMetrics.volatilityDaily := Fin 0.015;
     riskMetrics.var95 := Fin 0.12; riskMetrics.var99 := Fin 0.18;
     riskMetrics.cvar95 := Fin 0.15; riskMetrics.cvar99 := Fin 0.2;
     riskMetrics.maxDrawdown := Fin 0.1; riskMetrics.currentDrawdown := Fin 0.05;
     riskMetrics.relativeUncertainty := Fin 0.001;
     riskMetrics.totalValue := Fin 1000; riskMetrics.atRiskAmount := Fin 120 |}.

(** A payment of 50 in SOL at a price uncertainty of 1%. *)
Definition smallPayment : policyEngine.Context :=
  {| policyEngine.amount := Fin 50; policyEngine.token := "SOL";
     policyEngine.uncertainty := Fin 0.01; policyEngine.dailySpent := Fin 0 |}.

End Scenarios.

(** * Verification *)

(** ** Comparisons of reals as booleans *)

Lemma Rltb_true (a b : R) : Rltb a b = true <-> (a < b)%R.
Proof. unfold Rltb; destruct (Rlt_dec a b); split; (congruence || lra || auto). Qed.

Lemma Rltb_false (a b : R) : Rltb a b = false <-> (b <= a)%R.
Proof. unfold Rltb; destruct (Rlt_dec a b); split; (congruence || lra || auto). Qed.

Lemma Reqb_true (a b : R) : Reqb a b = true <-> a = b.
Proof. unfold Reqb; destruct (Req_dec_T a b); split; (congruence || auto). Qed.

Lemma Reqb_false (a b : R) : Reqb a b = false <-> a <> b.
Proof. unfold Reqb; destruct (Req_dec_T a b); split; (congruence || auto). Qed.

(** Evaluate a closed expression on numbers: compute, and settle each
    comparison of reals that comes up by linear arithmetic. *)
Ltac num_cbn :=
  cbn [Num.add Num.neg Num.sub Num.mul Num.div Num.ltb Num.eqb Num.gtb Num.leb
       Num.geb Num.neqb Num.is_nan Num.is_finite Num.truthy Num.scale_inf
       Math.abs Math.floor Math.round Math.max Math.min Math.sqrt Math.log Math.exp
       orb andb negb].

Ltac num_eval :=
  repeat (num_cbn; unfold Rltb, Reqb;
          match goal with
          | |- context [Rlt_dec ?a ?b] => destruct (Rlt_dec a b); try lra
          | |- context [Req_dec_T ?a ?b] => destruct (Req_dec_T a b); try lra
          end);
  num_cbn; try reflexivity.

(** Settle a goal on numbers by cases on every comparison of reals in
    it. *)
Ltac num_cases :=
  repeat (unfold Num.leb, Num.geb, Num.gtb, Num.neqb; num_cbn;
          unfold Num.scale_inf, Rltb, Reqb;
          match goal with
          | |- context [Rlt_dec ?a ?b] => destruct (Rlt_dec a b)
          | |- context [Req_dec_T ?a ?b] => destruct (Req_dec_T a b)
          end);
  num_cbn; intros; try reflexivity; try congruence; try lra; try nra.

(** ** Arithmetic and order on numbers *)

Section NumberFacts.

Lemma leb_fin_true (a b : R) : (Fin a <=? Fin b) = true <-> (a <= b)%R.
Proof.
  unfold Num.leb; cbn [Num.ltb Num.eqb]. unfold Rltb, Reqb.
  destruct (Rlt_dec a b), (Req_dec_T a b); cbn; split; (congruence || lra || auto).
Qed.

Lemma leb_fin_false (a b : R) : (Fin a <=? Fin b) = false <-> (b < a)%R.
Proof.
  unfold Num.leb; cbn [Num.ltb Num.eqb]. unfold Rltb, Reqb.
  destruct (Rlt_dec a b), (Req_dec_T a b); cbn; split; (congruence || lra || auto).
Qed.

Lemma mul_comm (x y : number) : x * y = y * x.
Proof.
  destruct x, y; cbn; try reflexivity.
  now rewrite Rmult_comm.
Qed.

Lemma gtb_zero_of_eqb (x : number) : (x === 0) = true -> (x >? 0) = false.
Proof.
  destruct x as [a| | |]; cbn; try discriminate.
  intros H. apply Reqb_true in H. subst. apply Rltb_false. lra.
Qed.

Lemma gtb_zero_not_eqb (x : number) : (x >? 0) = true -> (x === 0) = false.
Proof.
  destruct x as [a| | |]; cbn; try reflexivity.
  intros H. apply Rltb_true in H. apply Reqb_false. lra.
Qed.

Lemma sub_nan_r (x : number) : x - NaN = NaN.
Proof. now destruct x. Qed.

Lemma sub_nan_l (x : number) : NaN - x = NaN.
Proof. now destruct x. Qed.

Lemma min_nan_r (x : number) : Math.min x NaN = NaN.
Proof. unfold Math.min. now rewrite orb_true_r. Qed.


Lemma leb_refl (x : number) : Num.is_nan x = false -> (x <=? x) = true.
Proof.
  destruct x as [a| | |]; cbn; try reflexivity; try discriminate.
  intros _. now apply leb_fin_true, Rle_refl.
Qed.

Lemma leb_trans (x y z : number) :
  (x <=? y) = true -> (y <=? z) = true -> (x <=? z) = true.
Proof.
  destruct x as [a| | |], y as [b| | |], z as [c| | |];
    try (cbn; (reflexivity || discriminate)).
  rewrite !leb_fin_true. lra.
Qed.

Lemma leb_ltb_false (x y : number) : (x <=? y) = true -> (y <? x) = false.
Proof.
  destruct x as [a| | |], y as [b| | |]; try (cbn; (reflexivity || discriminate)).
  rewrite leb_fin_true. intros H. cbn. apply Rltb_false. lra.
Qed.


















(** A square root is NaN, +Infinity or a finite value that is not
    negative. *)
Lemma sqrt_shape (x : number) :
  Math.sqrt x = NaN \/ Math.sqrt x = PInf
  \/ exists s : R, Math.sqrt x = Fin s /\ (0 <= s)%R.
Proof.
  destruct x as [a| | |]; cbn; auto.
  destruct (Rltb a 0); auto.
  right; right. exists (sqrt a). split; [reflexivity | apply sqrt_pos].
Qed.

Lemma Int_part_IZR (z : Z) : Int_part (IZR z) = z.
Proof. symmetry. apply Int_part_spec. lra. Qed.

Lemma array_get_in_range {A : Type} (a : list A) (z : Z) :
  (0 <= z)%Z -> array_get a (Fin (IZR z)) = nth_error a (Z.to_nat z).
Proof.
  intros Hz. unfold array_get. rewrite Int_part_IZR.
  replace (Rltb (IZR z) 0) with false
    by (symmetry; apply Rltb_false; now apply IZR_le).
  now replace (Reqb (IZR z) (IZR z)) with true by (symmetry; now apply Reqb_true).
Qed.

End NumberFacts.

(** ** Lists *)

Section ListFacts.

Lemma fold_left_invariant {A B : Type} (P : A -> Prop) (f : A -> B -> A)
    (l : list B) (a : A) :
  P a -> (forall a b, P a -> In b l -> P (f a b)) -> P (fold_left f l a).
Proof.
  revert a. induction l as [|b l IH]; intros a Ha Hstep; cbn; [exact Ha|].
  apply IH.
  - apply Hstep; [exact Ha | now left].
  - intros a' b' Ha' Hb'. apply Hstep; [exact Ha' | now right].
Qed.

Lemma filter_none {A : Type} (f : A -> bool) (l : list A) :
  (forall x, f x = false) -> List.filter f l = [].
Proof.
  intros Hf. induction l as [|x l IH]; [reflexivity|].
  cbn. now rewrite Hf.
Qed.

Lemma filter_all {A : Type} (f : A -> bool) (l : list A) :
  Forall (fun x => f x = true) (List.filter f l).
Proof.
  induction l as [|x l IH]; cbn; [constructor|].
  destruct (f x) eqn:Hx; [constructor; assumption | assumption].
Qed.

End ListFacts.

(** ** Statistics of a series *)

Section StatisticsFacts.
Import SimpleStatistics marketHistory.

Lemma INR_S_neq_0 (n : nat) : INR (S n) <> 0%R.
Proof. rewrite S_INR. pose proof (pos_INR n). lra. Qed.

Lemma sum_repeat (c a : R) (n : nat) :
  fold_left Num.add (repeat (Fin c) n) (Fin a) = Fin (a + INR n * c).
Proof.
  revert a. induction n as [|n IH]; intros a.
  - cbn. f_equal. lra.
  - cbn [repeat fold_left Num.add]. rewrite IH, S_INR. f_equal. lra.
Qed.

(** The mean of a constant series is the constant. *)
Lemma mean_repeat (c : R) (n : nat) : mean (repeat (Fin c) (S n)) = Fin c.
Proof.
  unfold mean. cbn [repeat].
  change (Fin c :: repeat (Fin c) n) with (repeat (Fin c) (S n)).
  unfold sum, len. rewrite sum_repeat, repeat_length. cbn [Num.div].
  replace (Reqb (INR (S n)) 0) with false
    by (symmetry; apply Reqb_false, INR_S_neq_0).
  f_equal. field. apply INR_S_neq_0.
Qed.

Lemma deviations_repeat (c a : R) (n : nat) :
  fold_left (fun s xi => let tempValue := xi - Fin c in s + tempValue * tempValue)
            (repeat (Fin c) n) (Fin a) = Fin a.
Proof.
  induction n as [|n IH]; [reflexivity|].
  cbn [repeat fold_left Num.add Num.sub Num.neg Num.mul].
  replace (a + (c + - c) * (c + - c))%R with a by lra. exact IH.
Qed.

(** The standard deviation of a constant series is 0. *)
Lemma standardDeviation_repeat (c : R) (n : nat) :
  standardDeviation (repeat (Fin c) (S n)) = Fin 0.
Proof.
  destruct n as [|n]; [reflexivity|].
  unfold standardDeviation. cbn [repeat].
  change (Fin c :: Fin c :: repeat (Fin c) n) with (repeat (Fin c) (S (S n))).
  unfold variance. cbn [repeat].
  change (Fin c :: Fin c :: repeat (Fin c) n) with (repeat (Fin c) (S (S n))).
  unfold sumNthPowerDeviations2. rewrite mean_repeat, deviations_repeat.
  unfold len. rewrite repeat_length. cbn [Num.div].
  replace (Reqb (INR (S (S n))) 0) with false
    by (symmetry; apply Reqb_false, INR_S_neq_0).
  replace (0 / INR (S (S n)))%R with 0%R by (field; apply INR_S_neq_0).
  cbn [Math.sqrt].
  replace (Rltb 0 0) with false by (symmetry; apply Rltb_false; lra).
  now rewrite sqrt_0.
Qed.






Lemma standardDeviation_shape (x : list number) :
  standardDeviation x = NaN \/ standardDeviation x = PInf
  \/ exists s : R, standardDeviation x = Fin s /\ (0 <= s)%R.
Proof.
  unfold standardDeviation. destruct x as [|x0 [|x1 rest]]; try apply sqrt_shape.
  right; right. exists 0%R. split; [reflexivity | lra].
Qed.


(** The sum of values that are all below [t] (finite or -Infinity) is
    -Infinity or a finite value at most the start plus [t] per element. *)
Lemma sum_below (t : R) (l : list number) (acc : number) :
  Forall (fun r => (r <? Fin t) = true) l ->
  (acc = NInf \/ exists a : R, acc = Fin a) ->
  fold_left Num.add l acc = NInf
  \/ exists a S : R,
       acc = Fin a /\ fold_left Num.add l acc = Fin S
       /\ (S <= a + INR (List.length l) * t)%R.
Proof.
  intros Hl. revert acc. induction Hl as [|r l Hr Hl IH]; intros acc Hacc.
  - destruct Hacc as [-> | [a ->]]; [now left|].
    right. exists a, a. cbn. repeat split; lra.
  - cbn [fold_left].
    destruct Hacc as [-> | [a ->]].
    + destruct r as [b| | |]; try discriminate; cbn [Num.add];
        (destruct (IH NInf (or_introl eq_refl)) as [H | (a' & S & Ha' & _)];
         [now left | discriminate]).
    + destruct r as [b| | |]; try discriminate; cbn [Num.add].
      * cbn in Hr. apply Rltb_true in Hr.
        destruct (IH (Fin (a + b)) (or_intror (ex_intro _ _ eq_refl)))
          as [H | (a' & S & [= <-] & HS & Hbound)]; [now left|].
        right. exists a, S. split; [reflexivity | split; [exact HS|]].
        rewrite length_cons, S_INR. lra.
      * destruct (IH NInf (or_introl eq_refl)) as [H | (a' & S & Ha' & _)];
          [now left | discriminate].
Qed.

(** The absolute mean of a non-empty tail below [-v] is at least
    [v]. *)
Lemma tail_mean_above (v : R) (tail : list number) :
  (0 <= v)%R -> tail <> [] ->
  Forall (fun r => (r <? Fin (- v)) = true) tail ->
  (Fin v <=? Math.abs (mean tail)) = true.
Proof.
  intros Hv Hne Htail. unfold mean.
  destruct tail as [|r0 rest] eqn:Heq; [congruence|]. rewrite <- Heq in *.
  assert (Hn : (0 < INR (List.length tail))%R)
    by (rewrite Heq, length_cons; apply lt_0_INR; lia).
  unfold sum, len.
  destruct (sum_below (- v) tail (Fin 0) Htail (or_intror (ex_intro _ _ eq_refl)))
    as [-> | (a & S & [= <-] & -> & HS)].
  - cbn [Num.div]. replace (Rltb (INR (List.length tail)) 0) with false
      by (symmetry; apply Rltb_false; lra).
    reflexivity.
  - cbn [Num.div]. replace (Reqb (INR (List.length tail)) 0) with false
      by (symmetry; apply Reqb_false; lra).
    cbn [Math.abs]. apply leb_fin_true.
    assert (Hq : (S / INR (List.length tail) <= - v)%R).
    { apply (Rmult_le_reg_r (INR (List.length tail))); [exact Hn|].
      unfold Rdiv. rewrite Rmult_assoc, Rinv_l by lra. lra. }
    rewrite Rabs_left1 by lra. lra.
Qed.

End StatisticsFacts.

(** ** The sample history *)

Lemma tenDayHistory_prices :
  marketHistory.getPriceArray Samples.tenDayHistory "SOL" = map Fin Samples.tenPrices.
Proof. reflexivity. Qed.

Lemma tenPrices_positive : Forall (fun p => 0 < p)%R Samples.tenPrices.
Proof. unfold Samples.tenPrices. repeat constructor; lra. Qed.

(** ** The decision engine: rule order *)

Section DecisionTypeProofs.
Import forecastEngine riskMetrics decisionEngine DecisionRules.

Lemma determineDecisionType_firstMatch forecast risk positionValue :
  determineDecisionType forecast risk positionValue
  = firstMatch (specRules forecast risk) hold.
Proof.
  unfold determineDecisionType, specRules, firstMatch.
  rewrite (mul_comm (lowerBound forecast) 1.1).
  rewrite (mul_comm (lowerBound forecast) 1.05).
  replace (Fin 0.10) with (Fin 0.1) by (f_equal; lra).
  reflexivity.
Qed.

(** C1: the decision type is the outcome of the first rule that
    matches, in the order high volatility with a weak forecast
    (reduce_exposure), VaR95 above 0.10 (add_collateral), current
    drawdown above 0.15 (reduce_exposure), relative uncertainty above
    0.02 (increase_stable), forecast above 1.05 times its lower bound
    with VaR95 below 0.05 (take_profit), else hold; and with volatility
    0.6 and an expected value below 1.1 times the lower bound the type
    is reduce_exposure whatever the other metrics are. *)
Theorem C1_decision_type_first_match :
  forall (forecast : ForecastResult) (risk : RiskMetrics) (positionValue : number),
    determineDecisionType forecast risk positionValue
    = firstMatch (specRules forecast risk) hold
    /\ (volatility risk = Fin 0.6 ->
        (expectedValue forecast <? 1.1 * lowerBound forecast) = true ->
        determineDecisionType forecast risk positionValue = reduce_exposure).
Proof.
  intros forecast risk positionValue. split.
  - apply determineDecisionType_firstMatch.
  - intros Hvol Hlt.
    unfold determineDecisionType.
    rewrite (mul_comm (lowerBound forecast) 1.1), Hlt, Hvol.
    replace (Fin 0.6 >? 0.5) with true; [reflexivity|].
    symmetry. num_eval.
Qed.

Lemma C1_decision_type_witness :
  riskMetrics.volatility Samples.stressedRisk = Fin 0.6
  /\ (forecastEngine.expectedValue Samples.forecast100
      <? 1.1 * forecastEngine.lowerBound Samples.forecast100) = true
  /\ decisionEngine.determineDecisionType Samples.forecast100 Samples.stressedRisk (Fin 1000)
     = decisionEngine.reduce_exposure.
Proof.
  assert (Hlt : (forecastEngine.expectedValue Samples.forecast100
                 <? 1.1 * forecastEngine.lowerBound Samples.forecast100) = true)
    by (cbn; apply Rltb_true; lra).
  split; [reflexivity | split; [exact Hlt |]].
  exact (proj2 (C1_decision_type_first_match Samples.forecast100 Samples.stressedRisk (Fin 1000))
               eq_refl Hlt).
Defined.

End DecisionTypeProofs.

(** ** The allocator *)

Section AllocatorProofs.
Import riskMetrics portfolioOptimizer AllocationSpec.

(** The step is NaN or between 0.01 and 0.2. *)
Lemma step_shape (s : number) :
  let step := Math.max 1 (Math.min 20 s) / 100 in
  step = NaN \/ exists st : R, step = Fin st /\ (0.01 <= st <= 0.2)%R.
Proof.
  destruct s as [a| | |]; cbn.
  - right. unfold Math.min, Math.max; cbn. unfold Rltb.
    destruct (Rlt_dec a 20); cbn; unfold Rltb, Reqb.
    + destruct (Rlt_dec 1 a); cbn; unfold Reqb;
        destruct (Req_dec_T 100 0); try lra; eexists; split; try reflexivity; lra.
    + destruct (Rlt_dec 1 20); try lra; cbn; unfold Reqb;
        destruct (Req_dec_T 100 0); try lra; eexists; split; try reflexivity; lra.
  - right. exists (20 / 100)%R. split; [num_eval | lra].
  - right. exists (1 / 100)%R. split; [num_eval | lra].
  - now left.
Qed.

Lemma clamp_fin (v : R) : isFraction (Math.min 1 (Math.max 0 (Fin v))).
Proof.
  unfold Math.max, Math.min; cbn; unfold Rltb.
  destruct (Rlt_dec 0 v); cbn; unfold Rltb.
  - destruct (Rlt_dec v 1); eexists; split; try reflexivity; lra.
  - destruct (Rlt_dec 0 1); try lra; eexists; split; try reflexivity; lra.
Qed.

Lemma clamp_isFraction (x : R) : isFraction (Math.min 1 (Math.max 0 (toFixed4 (Fin x)))).
Proof.
  cbn [toFixed4]. destruct (Rltb x 0); apply clamp_fin.
Qed.

Lemma candidatesFrom_finite_step (n : nat) (x st : R) :
  (0.01 <= st)%R -> (INR n * 0.01 + x > 1 + 1e-9)%R ->
  exists l, candidatesFrom (S n) (Fin x) (Fin st) = Some l /\ Forall isFraction l.
Proof.
  intros Hst. revert x. induction n as [|n IH]; intros x Hx.
  - change (INR 0) with 0%R in Hx. exists []. split; [|constructor].
    cbn [candidatesFrom Num.add].
    replace (Fin x <=? Fin (1 + 1e-9)) with false; [reflexivity|].
    symmetry. apply leb_fin_false. lra.
  - rewrite S_INR in Hx.
    destruct (IH (x + st)%R) as (l & Hl & Hok); [lra|].
    change (candidatesFrom (S (S n)) (Fin x) (Fin st))
      with (if Fin x <=? 1 + 1e-9 then
              match candidatesFrom (S n) (Fin x + Fin st) (Fin st) with
              | Some rest => Some (Math.min 1 (Math.max 0 (toFixed4 (Fin x))) :: rest)
              | None => None
              end
            else Some []).
    destruct (Fin x <=? 1 + 1e-9).
    + change (Fin x + Fin st) with (Fin (x + st)). rewrite Hl.
      eexists; split; [reflexivity|]. constructor; [apply clamp_isFraction | exact Hok].
    + exists []. split; [reflexivity | constructor].
Qed.

Lemma candidatesFrom_nan_step (n : nat) :
  exists l, candidatesFrom (S (S n)) (Fin 0) NaN = Some l /\ Forall isFraction l.
Proof.
  exists [Math.min 1 (Math.max 0 (toFixed4 (Fin 0)))]. split.
  - cbn [candidatesFrom Num.add].
    replace (Fin 0 <=? Fin (1 + 1e-9)) with true by (symmetry; apply leb_fin_true; lra).
    reflexivity.
  - constructor; [apply clamp_isFraction | constructor].
Qed.

(** The candidate loop ends within its fuel, whatever [stepPct] is, and
    every candidate is a fraction. *)
Lemma candidates_total (s : number) :
  exists l, candidatesFrom candidateFuel (Fin 0) (Math.max 1 (Math.min 20 s) / 100) = Some l
            /\ Forall isFraction l.
Proof.
  destruct (step_shape s) as [Hnan | (st & Hst & Hrange)]; rewrite ?Hnan, ?Hst.
  - apply candidatesFrom_nan_step.
  - apply candidatesFrom_finite_step; [lra|].
    replace (INR 127) with 127%R by (cbn; lra). lra.
Qed.

Lemma toFixed4_grid (x : R) (k : Z) :
  (0 <= k)%Z -> x = (IZR k / 10000)%R -> toFixed4 (Fin x) = Fin x.
Proof.
  intros Hk ->. cbn [toFixed4].
  assert (0 <= IZR k)%R by now apply IZR_le.
  replace (Rltb (IZR k / 10000) 0) with false by (symmetry; apply Rltb_false; lra).
  replace (Int_part (IZR k / 10000 * 10000 + 1 / 2)) with k; [reflexivity|].
  apply Int_part_spec. lra.
Qed.

Lemma first_candidate : Math.min 1 (Math.max 0 (toFixed4 (Fin 0))) = Fin 0.
Proof.
  rewrite (toFixed4_grid 0 0) by (lia || lra). num_eval.
Qed.

(** The candidates always start with the fraction 0. *)
Lemma candidates_head (s : number) :
  exists rest,
    candidatesFrom candidateFuel (Fin 0) (Math.max 1 (Math.min 20 s) / 100)
    = Some (Fin 0 :: rest)
    /\ Forall isFraction rest.
Proof.
  destruct (candidates_total s) as (l & Hl & Hok).
  revert Hl. unfold candidateFuel.
  set (step := Math.max 1 _ / 100).
  change (candidatesFrom 128 (Fin 0) step)
    with (if Fin 0 <=? 1 + 1e-9 then
            match candidatesFrom 127 (Fin 0 + step) step with
            | Some rest => Some (Math.min 1 (Math.max 0 (toFixed4 (Fin 0))) :: rest)
            | None => None
            end
          else Some []).
  replace (Fin 0 <=? 1 + 1e-9) with true by (symmetry; apply leb_fin_true; lra).
  destruct (candidatesFrom 127 (Fin 0 + step) step) as [rest|]; [|discriminate].
  intros [= <-]. exists rest. rewrite first_candidate. split; [reflexivity|].
  now inversion Hok.
Qed.

(** With a step of 20% the candidates are the six multiples of 0.2, the
    end point 1 included. *)
Example candidates_step20 :
  candidatesFrom candidateFuel (Fin 0) (Fin 0.2)
  = Some [Fin 0; Fin 0.2; Fin 0.4; Fin 0.6; Fin 0.8; Fin 1].
Proof.
  unfold candidateFuel.
  repeat (cbn [candidatesFrom Num.add];
          match goal with
          | |- context [Fin ?a <=? Fin ?b] =>
              first [ replace (Fin a <=? Fin b) with true
                        by (symmetry; apply leb_fin_true; lra)
                    | replace (Fin a <=? Fin b) with false
                        by (symmetry; apply leb_fin_false; lra) ]
          end).
  rewrite (toFixed4_grid _ 0), (toFixed4_grid _ 2000), (toFixed4_grid _ 4000),
    (toFixed4_grid _ 6000), (toFixed4_grid _ 8000), (toFixed4_grid _ 10000) by (lia || lra).
  unfold Math.max, Math.min. num_eval.
  repeat f_equal; lra.
Qed.

(** *** The first pair of the search *)

(** With nothing in the volatile bucket the VaR limit cannot be
    exceeded, whatever the amount, the VaR and the limit are. *)
Lemma zero_stake_within_limit (t v m : number) :
  (t * 0 * Math.abs v >? t * 0 * m + 1e-9) = false.
Proof.
  destruct t as [a| | |], v as [b| | |], m as [c| | |]; num_cases.
Qed.

(** The pair [(0, 0)] passes both checks of the loop body and reaches the
    plan literal, where the read of [worstCaseLossPct] throws. *)
Lemma candidatePlan_zero (input : AllocationInputs) :
  candidatePlan input 0 0 = Throw (ReferenceError "worstCaseLossPct").
Proof.
  unfold candidatePlan.
  replace (1 - 0 - 0 <? - 1e-9) with false by (symmetry; num_eval).
  rewrite zero_stake_within_limit. reflexivity.
Qed.

(** Once an error is thrown the rest of a loop does not run. *)
Lemma fold_left_thrown {A B : Type} (f : completion A -> B -> completion A)
    (l : list B) (error : JsError) :
  (forall b, f (Throw error) b = Throw error) ->
  fold_left f l (Throw error) = Throw error.
Proof.
  intros Hf. induction l as [|b l IH]; [reflexivity|].
  cbn [fold_left]. now rewrite Hf.
Qed.

Lemma innerLoop_throws (input : AllocationInputs) (rest : list number)
    (best : option AllocationPlan) :
  innerLoop input (Fin 0 :: rest) 0 best = Throw (ReferenceError "worstCaseLossPct").
Proof.
  unfold innerLoop. cbn [fold_left bind]. rewrite candidatePlan_zero. cbn [bind].
  now apply fold_left_thrown.
Qed.

(** The gate does not skip the fraction 0, so the search reaches the
    pair [(0, 0)] first, with the gate closed or open. *)
Lemma outerLoop_throws (input : AllocationInputs) (uncertaintyTooHigh : bool)
    (rest : list number) :
  outerLoop input uncertaintyTooHigh (Fin 0 :: rest)
  = Throw (ReferenceError "worstCaseLossPct").
Proof.
  unfold outerLoop. cbn [fold_left bind].
  replace (uncertaintyTooHigh && (Fin 0 >? 0)) with false
    by (symmetry; apply andb_false_iff; right; apply Rltb_false; lra).
  rewrite innerLoop_throws. now apply fold_left_thrown.
Qed.

(** The allocator throws on every input. *)
Lemma optimizeAllocation_throws (input : AllocationInputs) :
  optimizeAllocation input = Some (Throw (ReferenceError "worstCaseLossPct")).
Proof.
  unfold optimizeAllocation.
  destruct (candidates_head (match stepPct input with Some s => s | None => Fin 5 end))
    as (rest & -> & _).
  now rewrite outerLoop_throws.
Qed.

(** C2: when the current relative uncertainty is above the ceiling, the
    allocator returns no plan at all.  The gate skips the volatile
    fractions above 0 only; the search therefore starts on the pair
    [(0, 0)], which passes both checks, and building its plan throws the
    ReferenceError of the undeclared [worstCaseLossPct], which ends the
    call. *)
Theorem C2_safety_gate_throws :
  forall input : AllocationInputs,
    (currentRelativeUncertainty input >? maxUncertainty input) = true ->
    candidatePlan input 0 0 = Throw (ReferenceError "worstCaseLossPct")
    /\ optimizeAllocation input = Some (Throw (ReferenceError "worstCaseLossPct"))
    /\ forall plan : AllocationPlan, optimizeAllocation input <> Some (Normal plan).
Proof.
  intros input _. split; [apply candidatePlan_zero|].
  rewrite optimizeAllocation_throws. split; [reflexivity | discriminate].
Qed.

Lemma C2_safety_gate_witness :
  (currentRelativeUncertainty Samples.gatedInput >? maxUncertainty Samples.gatedInput) = true
  /\ candidatePlan Samples.gatedInput 0 0 = Throw (ReferenceError "worstCaseLossPct")
  /\ optimizeAllocation Samples.gatedInput = Some (Throw (ReferenceError "worstCaseLossPct"))
  /\ forall plan : AllocationPlan, optimizeAllocation Samples.gatedInput <> Some (Normal plan).
Proof.
  assert (Hgate : (currentRelativeUncertainty Samples.gatedInput
                   >? maxUncertainty Samples.gatedInput) = true)
    by (unfold Samples.gatedInput;
        cbn [currentRelativeUncertainty maxUncertainty]; num_eval).
  split; [exact Hgate | exact (C2_safety_gate_throws Samples.gatedInput Hgate)].
Defined.

(** C5: for every input the call of the allocator ends by throwing the
    ReferenceError of the undeclared [worstCaseLossPct]: no plan comes
    back whose CASH, STABLE_EARN and SOL_STAKING fractions could add up
    to 1. *)
Theorem C5_no_plan_to_sum :
  forall input : AllocationInputs,
    optimizeAllocation input = Some (Throw (ReferenceError "worstCaseLossPct")).
Proof.
  exact optimizeAllocation_throws.
Qed.

End AllocatorProofs.

(** ** The forecast ensemble *)

Section EnsembleProofs.
Import SimpleStatistics marketHistory forecastEngine EnsembleSpec.






Lemma getZValue_positive (confidenceLevel : number) :
  exists z : R, getZValue confidenceLevel = Fin z /\ (0 < z)%R.
Proof.
  unfold getZValue.
  repeat match goal with |- context [if ?c then _ else _] => destruct c end;
    eexists; (split; [reflexivity | lra]).
Qed.










Lemma getTValue_positive (confidenceLevel df : number) :
  exists t : R, getTValue confidenceLevel df = Fin t /\ (0 < t)%R.
Proof.
  unfold getTValue. destruct (df >? 30); [apply getZValue_positive|].
  unfold tTable.
  repeat match goal with
         | |- context [if ?c then _ else _] => destruct c
         end;
    try apply getZValue_positive; eexists; (split; [reflexivity | lra]).
Qed.



















End EnsembleProofs.

(** ** Divisions without a guard *)

Section UnguardedDivisionProofs.
Import forecastEngine riskMetrics decisionEngine.

Lemma var95_short_history (mh : gmap string marketHistory.AssetTimeSeries)
    (sym : string) (positionValue relativeUncertainty : number) :
  (List.length (marketHistory.getPriceArray mh sym) < 10)%nat ->
  var95 (calculateRiskMetrics mh sym positionValue relativeUncertainty) = Fin 0.
Proof.
  intros Hshort. cbn. unfold calculateVaRParametric.
  apply Nat.ltb_lt in Hshort. now rewrite Hshort.
Qed.

(** C4: three quotients are taken without a guard on the divisor.  The
    confidence score of a forecast whose expected value and error margin
    are both zero is NaN; with the risk metrics of a symbol that has no
    history (VaR95 is 0) the recommended maximal position is +Infinity for
    a position of 1000 and NaN for a position of 0; the total return of a
    series that starts at price 0 is +Infinity. *)
Theorem C4_unguarded_divisions :
  (forall (dataQuality : number) (risk : RiskMetrics),
     calculateConfidenceScore dataQuality Samples.flatZero risk = NaN)
  /\ (forall (now : Z) (forecast : ForecastResult) (priceData : MarketData.ProcessedPriceData),
        recommendedMaxPosition
          (riskAssessment
             (generateDecision now "SOL" forecast
                (calculateRiskMetrics Samples.emptyHistory "SOL" (Fin 1000) (Fin 0))
                (Fin 1000) priceData)) = PInf
        /\ recommendedMaxPosition
             (riskAssessment
                (generateDecision now "SOL" forecast
                   (calculateRiskMetrics Samples.emptyHistory "SOL" (Fin 0) (Fin 0))
                   (Fin 0) priceData)) = NaN)
  /\ option_map marketHistory.totalReturn
       (marketHistory.getStatistics Samples.fromZeroHistory "SOL") = Some PInf.
Proof.
  split; [| split].
  - intros dataQuality risk. unfold calculateConfidenceScore.
    replace (errorMargin Samples.flatZero / expectedValue Samples.flatZero) with NaN
      by (symmetry; unfold Samples.flatZero; cbn [errorMargin expectedValue]; num_eval).
    cbn [Num.mul]. rewrite min_nan_r, sub_nan_r, sub_nan_l. reflexivity.
  - intros now forecast priceData.
    unfold generateDecision; cbn [riskAssessment recommendedMaxPosition].
    rewrite !var95_short_history
      by (unfold marketHistory.getPriceArray, Samples.emptyHistory;
          rewrite lookup_empty; cbn; lia).
    split; num_eval.
  - unfold marketHistory.getStatistics, Samples.fromZeroHistory.
    rewrite lookup_singleton_eq. cbn [option_map marketHistory.totalReturn
      map marketHistory.prices Samples.seriesOf Samples.point marketHistory.price List.last].
    f_equal. num_eval.
Qed.

End UnguardedDivisionProofs.

(** ** The cashflow forecast *)

Section CashflowProofs.
Import SimpleStatistics cashflowEngine.

Lemma thirtyDaysOfExpenses :
  toDailyNetFlows Samples.clockNow Samples.dailyExpenses 30
  = repeat (Fin (0 + -20)) 30.
Proof. reflexivity. Qed.

(** C6: when some daily bucket is not zero, the forecast is returned
    and its expected ending balance is the starting balance plus the
    horizon times the mean of the daily buckets; when the standard
    deviation times the square root of the horizon is 0 the overdraft
    probability is 1 for a negative expected ending balance and 0
    otherwise.  With a starting balance of 500, thirty days of a daily net
    of -20 and a horizon of 7 the forecast has an expected ending balance
    of 360, a mean daily net of -20, a standard deviation of 0 and an
    overdraft probability of 0. *)
Theorem C6_cashflow_forecast :
  (forall (now : Z) (startingBalance : number) (events : list CashflowEvent)
          (horizonDays : number) (lookbackDays : nat) (confidenceLevel : number),
     let daily := toDailyNetFlows now events lookbackDays in
     existsb (fun v => v !== 0) daily = true ->
     exists r,
       forecastCashflow now startingBalance events horizonDays lookbackDays confidenceLevel
       = Some r
       /\ expectedEndingBalance r = startingBalance + horizonDays * mean daily
       /\ meanDailyNet r = mean daily
       /\ ((stdDailyNet r * Math.sqrt horizonDays === 0) = true ->
           probabilityOfOverdraft r
           = if expectedEndingBalance r <? 0 then Fin 1 else Fin 0))
  /\ (exists r,
        forecastCashflow Samples.clockNow (Fin 500) Samples.dailyExpenses (Fin 7) 30 (Fin 0.95)
        = Some r
        /\ expectedEndingBalance r = Fin 360
        /\ meanDailyNet r = Fin (-20)
        /\ stdDailyNet r = Fin 0
        /\ probabilityOfOverdraft r = Fin 0).
Proof.
  split.
  - intros now startingBalance events horizonDays lookbackDays confidenceLevel daily Hsome.
    unfold forecastCashflow. fold daily. rewrite Hsome. cbn [negb].
    eexists. split; [reflexivity|].
    cbn [expectedEndingBalance meanDailyNet stdDailyNet probabilityOfOverdraft].
    repeat split.
    intros Hzero. now rewrite (gtb_zero_of_eqb _ Hzero).
  - unfold forecastCashflow. rewrite thirtyDaysOfExpenses.
    replace (existsb (fun v => v !== 0) (repeat (Fin (0 + -20)) 30)) with true
      by (symmetry; cbn [repeat existsb]; apply orb_true_iff; left;
          cbn [Num.neqb Num.eqb]; apply negb_true_iff, Reqb_false; lra).
    cbn [negb]. rewrite (mean_repeat (0 + -20) 29), repeat_length.
    cbn [Nat.leb]. rewrite (standardDeviation_repeat (0 + -20) 29).
    eexists. split; [reflexivity|].
    cbn [expectedEndingBalance meanDailyNet stdDailyNet probabilityOfOverdraft].
    repeat split.
    + cbn [Num.add Num.mul]. f_equal. lra.
    + f_equal. lra.
    + num_eval.
Qed.

Lemma C6_cashflow_witness :
  existsb (fun v => v !== 0)
          (toDailyNetFlows Samples.clockNow Samples.dailyExpenses 30) = true
  /\ exists r,
       forecastCashflow Samples.clockNow (Fin 500) Samples.dailyExpenses (Fin 7) 30 (Fin 0.95)
       = Some r
       /\ expectedEndingBalance r
          = Fin 500 + Fin 7 * mean (toDailyNetFlows Samples.clockNow Samples.dailyExpenses 30).
Proof.
  assert (Hsome : existsb (fun v => v !== 0)
                    (toDailyNetFlows Samples.clockNow Samples.dailyExpenses 30) = true).
  { rewrite thirtyDaysOfExpenses. cbn [repeat existsb]. apply orb_true_iff; left.
    cbn [Num.neqb Num.eqb]. apply negb_true_iff, Reqb_false. lra. }
  split; [exact Hsome|].
  destruct (proj1 C6_cashflow_forecast Samples.clockNow (Fin 500) Samples.dailyExpenses
              (Fin 7) 30%nat (Fin 0.95) Hsome) as (r & Hr & Hexp & _).
  exists r. split; [exact Hr | exact Hexp].
Defined.

End CashflowProofs.

(** ** The risk engine: the portfolio aggregate *)

Section PortfolioProofs.
Import SimpleStatistics marketHistory riskMetrics PortfolioSpec.

(** The loop over the positions accumulates the three weighted sums. *)
Lemma portfolio_loop (mh : gmap string AssetTimeSeries) (totalValue : number)
    (positions : list Position) (a b c : number) :
  let share := fun (metric : RiskMetrics -> number) (p : Position) =>
    metric (calculateRiskMetrics mh (pos_symbol p) (value p) 0) * (value p / totalValue) in
  fold_left (portfolioStep mh totalValue) positions (a, b, c)
  = (fold_left Num.add (map (share var95) positions) a,
     fold_left Num.add (map (share volatility) positions) b,
     fold_left Num.add (map (share relativeUncertainty) positions) c).
Proof.
  cbv zeta. revert a b c. induction positions as [|p positions IH]; intros a b c.
  - reflexivity.
  - cbn [fold_left map]. unfold portfolioStep at 2. apply IH.
Qed.

(** C7 (as amended): for a non-empty list of positions with a positive
    total value, the portfolio volatility and VaR95 are the value-weighted
    averages of the positions' own volatility and VaR95 times the
    diversification factor (0.85 with more than one position, otherwise
    1.0); the relative uncertainty is the weighted average without the
    factor; the daily volatility is the portfolio volatility over the
    square root of 365; VaR99, CVaR95 and CVaR99 are 1.5, 1.2 and 1.8 times
    the weighted VaR95, times the factor; the maximal drawdown is twice the
    weighted VaR95 and the current drawdown is 0. *)
Theorem C7_portfolio_aggregate :
  forall (mh : gmap string AssetTimeSeries) (positions : list Position),
    positions <> [] ->
    (sum (map value positions) >? 0) = true ->
    let r := metrics (calculatePortfolioRisk mh positions) in
    let factor := discount positions in
    let avgVar95 := weightedAverage mh positions var95 in
    let avgVol := weightedAverage mh positions volatility in
    diversification (calculatePortfolioRisk mh positions) = factor
    /\ volatility r = avgVol * factor
    /\ var95 r = avgVar95 * factor
    /\ relativeUncertainty r = weightedAverage mh positions relativeUncertainty
    /\ volatilityDaily r = avgVol * factor / Math.sqrt 365
    /\ var99 r = avgVar95 * 1.5 * factor
    /\ cvar95 r = avgVar95 * 1.2 * factor
    /\ cvar99 r = avgVar95 * 1.8 * factor
    /\ maxDrawdown r = avgVar95 * 2
    /\ currentDrawdown r = Fin 0.
Proof.
  intros mh positions Hne Hpos. cbv zeta.
  unfold calculatePortfolioRisk, weightedAverage, discount.
  rewrite (gtb_zero_not_eqb _ Hpos).
  replace (List.length positions =? 0)%nat with false
    by (symmetry; apply Nat.eqb_neq; destruct positions; [congruence | discriminate]).
  cbn [orb]. rewrite portfolio_loop.
  cbn [metrics diversification volatility volatilityDaily var95 var99 cvar95 cvar99
       maxDrawdown currentDrawdown relativeUncertainty].
  repeat split.
Qed.

Lemma C7_portfolio_witness :
  Samples.solAndEth <> []
  /\ (sum (map value Samples.solAndEth) >? 0) = true
  /\ var95 (metrics (calculatePortfolioRisk Samples.tenDayHistory Samples.solAndEth))
     = weightedAverage Samples.tenDayHistory Samples.solAndEth var95 * Fin 0.85
  /\ currentDrawdown (metrics (calculatePortfolioRisk Samples.tenDayHistory Samples.solAndEth))
     = Fin 0.
Proof.
  assert (Hne : Samples.solAndEth <> []) by discriminate.
  assert (Hpos : (sum (map value Samples.solAndEth) >? 0) = true)
    by (unfold sum, Samples.solAndEth; cbn [map value fold_left]; num_eval).
  split; [exact Hne | split; [exact Hpos|]].
  destruct (C7_portfolio_aggregate Samples.tenDayHistory Samples.solAndEth Hne Hpos)
    as (_ & _ & Hvar & _ & _ & _ & _ & _ & _ & Hcd).
  split; [exact Hvar | exact Hcd].
Defined.

Lemma halved_currentDrawdown (positionValue relativeUncertainty : number) :
  currentDrawdown
    (calculateRiskMetrics Samples.halvedHistory "SOL" positionValue relativeUncertainty)
  = Fin ((100 + - 50) / 100).
Proof.
  unfold calculateRiskMetrics. cbn [currentDrawdown].
  unfold getStatistics, getDrawdown, Samples.halvedHistory.
  rewrite !lookup_singleton_eq.
  cbn [Samples.seriesOf Samples.point prices map price snd fst
       marketHistory.currentDrawdown marketHistory.maxDrawdown fold_left drawdownStep].
  num_eval.
Qed.

Lemma C7_counterexample :
  Samples.onlySol <> []
  /\ (sum (map value Samples.onlySol) >? 0) = true
  /\ ~ averagesEveryMetric Samples.halvedHistory Samples.onlySol.
Proof.
  split; [discriminate | split].
  - unfold sum, Samples.onlySol. cbn [map value fold_left]. num_eval.
  - intros Hall. unfold averagesEveryMetric, riskMetricFields in Hall.
    pose proof (proj1 (List.Forall_forall _ _) Hall currentDrawdown
                  ltac:(do 7 right; left; reflexivity)) as Hcd.
    cbv beta in Hcd.
    unfold weightedAverage, discount, calculatePortfolioRisk, sum, Samples.onlySol in Hcd.
    cbn [map value pos_symbol fold_left List.length Nat.ltb Nat.leb Nat.eqb] in Hcd.
    rewrite halved_currentDrawdown in Hcd.
    cbn [Num.add Num.eqb] in Hcd.
    replace (Reqb (0 + 1000) 0) with false in Hcd
      by (symmetry; apply Reqb_false; lra).
    cbn [orb] in Hcd.
    destruct (portfolioStep _ _ _ _) as [[wVar wVol] wUnc] in Hcd.
    cbn [metrics currentDrawdown Num.div] in Hcd.
    replace (Reqb (0 + 1000) 0) with false in Hcd
      by (symmetry; apply Reqb_false; lra).
    cbn [Num.mul Num.add] in Hcd.
    injection Hcd as Hcd. lra.
Qed.

End PortfolioProofs.

(** ** The risk engine: parametric VaR *)

Section ParametricVaRProofs.
Import SimpleStatistics marketHistory riskMetrics.




Lemma getZScore_095 : getZScore (Fin 0.95) = Fin 1.645.
Proof. unfold getZScore. num_eval. Qed.

Lemma getZScore_099 : getZScore (Fin 0.99) = Fin 2.326.
Proof. unfold getZScore. num_eval. Qed.




Lemma logReturns_step (a b : number) (l : list number) :
  logReturns (a :: b :: l) = Math.log (b / a) :: logReturns (b :: l).
Proof. reflexivity. Qed.





End ParametricVaRProofs.

(** ** The risk engine: historical VaR and CVaR *)

Section HistoricalVaRProofs.
Import SimpleStatistics marketHistory riskMetrics.

Lemma varRelative_no_position (mh : gmap string AssetTimeSeries) (sym : string)
    (confidenceLevel positionValue positionValue' : number) :
  varRelative (calculateVaRHistorical mh sym confidenceLevel positionValue)
  = varRelative (calculateVaRHistorical mh sym confidenceLevel positionValue').
Proof.
  unfold calculateVaRHistorical.
  now destruct (List.length (getPriceArray mh sym) <? 10)%nat.
Qed.

(** The historical VaR is NaN, +Infinity or a finite value that is not
    negative. *)
Lemma varRelative_shape (mh : gmap string AssetTimeSeries) (sym : string)
    (confidenceLevel positionValue : number) :
  let var := varRelative (calculateVaRHistorical mh sym confidenceLevel positionValue) in
  var = NaN \/ var = PInf \/ exists v : R, var = Fin v /\ (0 <= v)%R.
Proof.
  cbv zeta. unfold calculateVaRHistorical.
  destruct (List.length (getPriceArray mh sym) <? 10)%nat; cbn [varRelative].
  - right; right. exists 0%R. split; [reflexivity | lra].
  - destruct (array_get _ _) as [[a| | |]|]; cbn [Math.abs]; auto.
    right; right. exists (Rabs a). split; [reflexivity | apply Rabs_pos].
Qed.

(** C9: for every store, symbol, confidence level and position value
    the historical CVaR is never below the historical VaR, and where the
    VaR is a number the CVaR is greater than or equal to it; with fewer
    than ten prices both are 0, and when no return lies below the negated
    VaR the CVaR is the VaR itself. *)
Theorem C9_cvar_at_least_var :
  forall (mh : gmap string AssetTimeSeries) (sym : string)
         (confidenceLevel positionValue : number),
    let var := varRelative (calculateVaRHistorical mh sym confidenceLevel positionValue) in
    let cvar := cvarRelative (calculateCVaR mh sym confidenceLevel positionValue) in
    let returns := logReturns (getPriceArray mh sym) in
    (cvar <? var) = false
    /\ (Num.is_nan var = false -> (cvar >=? var) = true)
    /\ ((List.length (getPriceArray mh sym) < 10)%nat -> var = Fin 0 /\ cvar = Fin 0)
    /\ ((10 <= List.length (getPriceArray mh sym))%nat ->
        List.filter (fun r => r <? - var) returns = [] -> cvar = var).
Proof.
  intros mh sym confidenceLevel positionValue var cvar returns.
  assert (Hshape := varRelative_shape mh sym confidenceLevel positionValue).
  cbv zeta in Hshape. fold var in Hshape.
  assert (Hcvar :
    cvar = if (List.length (getPriceArray mh sym) <? 10)%nat then Fin 0
           else match List.filter (fun r => r <? - var) returns with
                | [] => var
                | tail => Math.abs (mean tail)
                end).
  { subst cvar var returns. unfold calculateCVaR.
    rewrite (varRelative_no_position mh sym confidenceLevel 1 positionValue).
    destruct (List.length (getPriceArray mh sym) <? 10)%nat; [reflexivity|].
    now destruct (List.filter _ _). }
  assert (Hshort : (List.length (getPriceArray mh sym) <? 10)%nat = true -> var = Fin 0).
  { intros H. subst var. unfold calculateVaRHistorical. now rewrite H. }
  assert (Hge : Num.is_nan var = false -> (var <=? cvar) = true).
  { intros Hnum. rewrite Hcvar.
    destruct (List.length (getPriceArray mh sym) <? 10)%nat eqn:Hlen.
    - rewrite (Hshort eq_refl). now apply leb_fin_true, Rle_refl.
    - destruct (List.filter (fun r => r <? - var) returns) as [|r0 rest] eqn:Htail;
        [now apply leb_refl|].
      destruct Hshape as [Hv | [Hv | (v & Hv & Hpos)]].
      + rewrite Hv in Hnum. discriminate.
      + rewrite Hv in Htail. rewrite filter_none in Htail; [discriminate|].
        intros x. now destruct x.
      + rewrite Hv in *. apply tail_mean_above; [exact Hpos | congruence |].
        rewrite <- Htail. apply (filter_all (fun r => r <? Fin (- v))). }
  split; [| split; [exact Hge | split]].
  - destruct (Num.is_nan var) eqn:Hnan.
    + destruct var; try discriminate. now destruct cvar.
    + now apply leb_ltb_false, Hge.
  - intros Hlt. apply Nat.ltb_lt in Hlt. split; [now apply Hshort|].
    rewrite Hcvar. now rewrite Hlt.
  - intros Hlen Htail. rewrite Hcvar, Htail.
    now replace (List.length (getPriceArray mh sym) <? 10)%nat with false
      by (symmetry; apply Nat.ltb_ge; lia).
Qed.

(** *** Sorting and the percentile index *)
Example sortAscending_example :
  sortAscending [Fin 3; Fin 1; Fin 2] = [Fin 1; Fin 2; Fin 3].
Proof. unfold sortAscending. repeat (cbn [fold_right sort_insert]; num_eval). Qed.

(** For a confidence level above 0 the percentile index lies within an
    array of [n > 0] elements. *)
Lemma percentile_index (c : R) (n : nat) :
  (0 < c)%R -> (0 < n)%nat ->
  exists z : Z,
    Math.max 0 (Math.floor ((1 - Fin c) * Fin (INR n))) = Fin (IZR z)
    /\ (0 <= z < Z.of_nat n)%Z.
Proof.
  intros Hc Hn. cbn [Num.sub Num.neg Num.add Num.mul Math.floor].
  set (r := ((1 + - c) * INR n)%R).
  assert (HnR : (0 < INR n)%R) by now apply lt_0_INR.
  assert (Hr : (r < INR n)%R) by (subst r; nra).
  destruct (base_Int_part r) as [Hlo Hhi].
  assert (Hz : (Int_part r < Z.of_nat n)%Z).
  { apply lt_IZR. rewrite <- INR_IZR_INZ. lra. }
  unfold Math.max. cbn [Num.is_nan orb Num.ltb].
  destruct (Rltb 0 (IZR (Int_part r))) eqn:Hpos.
  - exists (Int_part r). split; [reflexivity|]. split; [|exact Hz].
    apply Rltb_true in Hpos. apply lt_IZR in Hpos. lia.
  - exists 0%Z. split; [reflexivity | lia].
Qed.

(** *** The sample history at the confidence level 0.8 *)

Lemma tenDayHistory_returns :
  logReturns (map Fin Samples.tenPrices)
  = map Fin [ln (102 / 100); ln (101 / 102); ln (105 / 101); ln (103 / 105); ln (108 / 103);
             ln (104 / 108); ln (110 / 104); ln (107 / 110); ln (112 / 107)].
Proof.
  unfold Samples.tenPrices. cbn [map]. rewrite !logReturns_step.
  repeat match goal with
         | |- context [Math.log (Fin ?a / Fin ?b)] =>
             replace (Math.log (Fin a / Fin b)) with (Fin (ln (a / b))) by (symmetry; num_eval)
         end.
  reflexivity.
Qed.

(** The order of the nine returns: that of the nine price ratios. *)
Lemma tenDayHistory_order :
  (ln (104 / 108) < ln (107 / 110) < ln (103 / 105))%R
  /\ (ln (103 / 105) < ln (101 / 102) < 0)%R
  /\ (0 < ln (102 / 100) < ln (105 / 101))%R
  /\ (ln (105 / 101) < ln (112 / 107) < ln (108 / 103))%R
  /\ (ln (108 / 103) < ln (110 / 104))%R.
Proof.
  rewrite <- ln_1.
  repeat split; apply ln_increasing; lra.
Qed.

(** Settle the comparisons of reals in the goal from the hypotheses. *)
Ltac decide_order :=
  repeat (num_cbn; unfold Rltb, Reqb;
          match goal with
          | |- context [Rlt_dec ?a ?b] => destruct (Rlt_dec a b); [try lra | try lra]
          | |- context [Req_dec_T ?a ?b] => destruct (Req_dec_T a b); [try lra | try lra]
          end);
  num_cbn.

Lemma tenDayHistory_sorted :
  sortAscending (logReturns (map Fin Samples.tenPrices))
  = map Fin [ln (104 / 108); ln (107 / 110); ln (103 / 105); ln (101 / 102); ln (102 / 100);
             ln (105 / 101); ln (112 / 107); ln (108 / 103); ln (110 / 104)].
Proof.
  rewrite tenDayHistory_returns.
  destruct tenDayHistory_order as ([H1 H2] & [H3 H4] & [H5 H6] & [H7 H8] & H9).
  unfold sortAscending. cbn [map fold_right].
  repeat (cbn [sort_insert]; decide_order).
  reflexivity.
Qed.


(** At the level 0.8 the index into the nine sorted returns is
    [floor(0.2 * 9) = 1]: the VaR is the second lowest return, as a
    loss. *)
Lemma tenDayHistory_var80 (positionValue : number) :
  varRelative (calculateVaRHistorical Samples.tenDayHistory "SOL" (Fin 0.8) positionValue)
  = Fin (- ln (107 / 110)).
Proof.
  destruct tenDayHistory_order as ([H1 H2] & [H3 H4] & _).
  unfold calculateVaRHistorical. rewrite tenDayHistory_prices.
  replace (List.length (map Fin Samples.tenPrices) <? 10)%nat with false by reflexivity.
  cbn [varRelative]. rewrite tenDayHistory_sorted.
  unfold len. cbn [map List.length].
  replace (INR 9) with 9%R by (rewrite INR_IZR_INZ; reflexivity).
  cbn [Num.sub Num.neg Num.add Num.mul Math.floor].
  match goal with
  | |- context [Int_part ?r] => replace (Int_part r) with 1%Z by (apply Int_part_spec; lra)
  end.
  replace (Math.max 0 (Fin 1)) with (Fin (IZR 1)) by (symmetry; unfold Math.max; num_eval).
  rewrite array_get_in_range by lia.
  change (Z.to_nat 1) with 1%nat. cbn [nth_error Math.abs].
  f_equal. apply Rabs_left. lra.
Qed.

Lemma tenDayHistory_tail80 :
  List.filter (fun r => r <? - Fin (- ln (107 / 110)))
              (logReturns (map Fin Samples.tenPrices))
  = [Fin (ln (104 / 108))].
Proof.
  destruct tenDayHistory_order as ([H1 H2] & [H3 H4] & [H5 H6] & [H7 H8] & H9).
  rewrite tenDayHistory_returns. cbn [map List.filter Num.neg].
  decide_order. reflexivity.
Qed.

Lemma tenDayHistory_cvar80 (positionValue : number) :
  cvarRelative (calculateCVaR Samples.tenDayHistory "SOL" (Fin 0.8) positionValue)
  = Fin (- ln (104 / 108)).
Proof.
  destruct tenDayHistory_order as ([H1 H2] & [H3 H4] & _).
  unfold calculateCVaR. rewrite tenDayHistory_var80, tenDayHistory_prices.
  replace (List.length (map Fin Samples.tenPrices) <? 10)%nat with false by reflexivity.
  rewrite tenDayHistory_tail80.
  cbn [cvarRelative]. unfold mean, sum, len. cbn [fold_left List.length Num.add].
  replace (INR 1) with 1%R by reflexivity.
  cbn [Num.div]. replace (Reqb 1 0) with false by (symmetry; apply Reqb_false; lra).
  cbn [Math.abs]. f_equal. rewrite Rabs_left by lra. lra.
Qed.

(** *** The confidence level 0 *)

(** At the level 0 the index is the length of the sorted returns, one
    past their end: the VaR is the magnitude of [undefined]. *)
Lemma calculateVaRHistorical_level_zero (mh : gmap string AssetTimeSeries) (sym : string)
    (positionValue : number) :
  (10 <= List.length (getPriceArray mh sym))%nat ->
  varRelative (calculateVaRHistorical mh sym (Fin 0) positionValue) = NaN.
Proof.
  intros Hlen. unfold calculateVaRHistorical.
  replace (List.length (getPriceArray mh sym) <? 10)%nat with false
    by (symmetry; apply Nat.ltb_ge; lia).
  cbn [varRelative].
  set (sorted := sortAscending (logReturns (getPriceArray mh sym))).
  unfold len. cbn [Num.sub Num.neg Num.add Num.mul Math.floor].
  replace ((1 + - 0) * INR (List.length sorted))%R with (IZR (Z.of_nat (List.length sorted)))
    by (rewrite <- INR_IZR_INZ; lra).
  rewrite Int_part_IZR.
  assert (Hmax : Math.max 0 (Fin (IZR (Z.of_nat (List.length sorted))))
                 = Fin (IZR (Z.of_nat (List.length sorted)))).
  { unfold Math.max. cbn [Num.is_nan orb Num.ltb].
    destruct (Rltb 0 (IZR (Z.of_nat (List.length sorted)))) eqn:Hpos; [reflexivity|].
    apply Rltb_false in Hpos. f_equal.
    assert (0 <= IZR (Z.of_nat (List.length sorted)))%R by (apply IZR_le; lia). lra. }
  rewrite Hmax, array_get_in_range by lia. rewrite Nat2Z.id.
  now replace (nth_error sorted (List.length sorted)) with (@None number)
    by (symmetry; now apply nth_error_None).
Qed.


Lemma calculateCVaR_level_zero (mh : gmap string AssetTimeSeries) (sym : string)
    (positionValue : number) :
  (10 <= List.length (getPriceArray mh sym))%nat ->
  cvarRelative (calculateCVaR mh sym (Fin 0) positionValue) = NaN.
Proof.
  intros Hlen. unfold calculateCVaR.
  replace (List.length (getPriceArray mh sym) <? 10)%nat with false
    by (symmetry; apply Nat.ltb_ge; lia).
  rewrite (calculateVaRHistorical_level_zero mh sym 1 Hlen).
  rewrite filter_none; [reflexivity|]. intros r. now destruct r.
Qed.

Lemma C9_cvar_witness :
  Num.is_nan
    (varRelative (calculateVaRHistorical Samples.tenDayHistory "SOL" (Fin 0.8) (Fin 1000)))
  = false
  /\ List.filter
       (fun r => r <? - varRelative (calculateVaRHistorical Samples.tenDayHistory "SOL"
                                       (Fin 0.8) (Fin 1000)))
       (logReturns (getPriceArray Samples.tenDayHistory "SOL"))
     = [Fin (ln (104 / 108))]
  /\ (varRelative (calculateVaRHistorical Samples.tenDayHistory "SOL" (Fin 0.8) (Fin 1000))
      <? cvarRelative (calculateCVaR Samples.tenDayHistory "SOL" (Fin 0.8) (Fin 1000)))
     = true
  /\ (cvarRelative (calculateCVaR Samples.tenDayHistory "SOL" (Fin 0.8) (Fin 1000))
      >=? varRelative (calculateVaRHistorical Samples.tenDayHistory "SOL" (Fin 0.8) (Fin 1000)))
     = true.
Proof.
  assert (Hnum : Num.is_nan
            (varRelative (calculateVaRHistorical Samples.tenDayHistory "SOL"
                            (Fin 0.8) (Fin 1000))) = false)
    by (now rewrite tenDayHistory_var80).
  split; [exact Hnum|].
  split; [rewrite tenDayHistory_var80, tenDayHistory_prices; exact tenDayHistory_tail80|].
  split.
  - rewrite tenDayHistory_var80, tenDayHistory_cvar80.
    destruct tenDayHistory_order as ([H1 H2] & _). apply Rltb_true. lra.
  - exact (proj1 (proj2 (C9_cvar_at_least_var Samples.tenDayHistory "SOL" (Fin 0.8) (Fin 1000)))
                 Hnum).
Defined.

(** At the confidence level 0, on the ten prices of the sample history,
    the VaR and the CVaR are both NaN, and NaN is not greater than or
    equal to NaN. *)
Lemma C9_counterexample :
  varRelative (calculateVaRHistorical Samples.tenDayHistory "SOL" (Fin 0) (Fin 1000)) = NaN
  /\ cvarRelative (calculateCVaR Samples.tenDayHistory "SOL" (Fin 0) (Fin 1000)) = NaN
  /\ (cvarRelative (calculateCVaR Samples.tenDayHistory "SOL" (Fin 0) (Fin 1000))
      >=? varRelative (calculateVaRHistorical Samples.tenDayHistory "SOL" (Fin 0) (Fin 1000)))
     = false.
Proof.
  assert (Hlen : (10 <= List.length (getPriceArray Samples.tenDayHistory "SOL"))%nat)
    by (rewrite tenDayHistory_prices; cbn; lia).
  rewrite (calculateVaRHistorical_level_zero _ _ _ Hlen),
          (calculateCVaR_level_zero _ _ _ Hlen).
  repeat split.
Qed.

End HistoricalVaRProofs.

(** ** The decision engine: a position of value zero *)

Section ProbabilityOfLossProofs.
Import forecastEngine riskMetrics decisionEngine.

(** C10: with a position value of zero the probability of loss is 0
    for every forecast, the recommendation reports that 0 and takes its
    urgency from it; on a position that is not zero, a forecast with no
    error margin and a negative expected value has probability 1. *)
Theorem C10_zero_position_probability :
  forall (now : Z) (sym : string) (forecast : ForecastResult) (risk : RiskMetrics)
         (positionValue : number) (priceData : MarketData.ProcessedPriceData),
    (positionValue === 0) = true ->
    calculateProbabilityOfLoss forecast positionValue = Fin 0
    /\ probabilityOfLoss
         (riskAssessment (generateDecision now sym forecast risk positionValue priceData))
       = Fin 0
    /\ urgency (generateDecision now sym forecast risk positionValue priceData)
       = determineUrgency risk (Fin 0)
    /\ (forall otherValue : number,
          (otherValue === 0) = false ->
          errorMargin forecast = Fin 0 ->
          (expectedValue forecast <? 0) = true ->
          calculateProbabilityOfLoss forecast otherValue = Fin 1).
Proof.
  intros now sym forecast risk positionValue priceData Hzero.
  assert (Hp : calculateProbabilityOfLoss forecast positionValue = Fin 0)
    by (unfold calculateProbabilityOfLoss; now rewrite Hzero).
  split; [exact Hp | split; [cbn; exact Hp | split]].
  - cbn. now rewrite Hp.
  - intros otherValue Hnz Hmargin Hneg.
    unfold calculateProbabilityOfLoss.
    rewrite Hnz, Hmargin, Hneg.
    replace (Fin 0 / 1.96 === 0) with true; [reflexivity|].
    symmetry. num_eval.
Qed.

Lemma C10_zero_position_witness :
  (Fin 0 === 0) = true
  /\ calculateProbabilityOfLoss Samples.certainLoss (Fin 0) = Fin 0
  /\ calculateProbabilityOfLoss Samples.certainLoss (Fin 1000) = Fin 1.
Proof.
  assert (H0 : (Fin 0 === 0) = true) by (cbn; apply Reqb_true; reflexivity).
  pose proof (C10_zero_position_probability 0%Z "SOL" Samples.certainLoss
                Samples.stressedRisk (Fin 0) Samples.freshPrice H0) as (Hp & _ & _ & Hother).
  split; [exact H0 | split; [exact Hp |]].
  apply Hother.
  - cbn. apply Reqb_false. lra.
  - reflexivity.
  - cbn. apply Rltb_true. lra.
Defined.

End ProbabilityOfLossProofs.

(** ** The store: the window of a series *)

Section StoreProofs.
Import marketHistory StoreSpec.

Lemma addPrice_lookup (mh : gmap string AssetTimeSeries) (sym : string)
    (p : number) (ts : Z) (conf : option number) :
  let old := match mh !! sym with Some series => prices series | None => [] end in
  let pushed := old ++ [{| price := p; timestamp := ts; confidence := conf |}] in
  fst (addPrice mh sym p ts conf) !! sym
  = Some {| symbol := match mh !! sym with Some series => symbol series | None => sym end;
            prices := if (windowOf mh sym <? List.length pushed)%nat then tl pushed else pushed;
            maxWindowSize := windowOf mh sym |}.
Proof.
  unfold addPrice, windowOf, initializeSeries.
  destruct (mh !! sym) as [series|]; cbn [fst]; rewrite lookup_insert_eq; reflexivity.
Qed.

Lemma addPrice_lookup_other (mh : gmap string AssetTimeSeries) (sym sym' : string)
    (p : number) (ts : Z) (conf : option number) :
  sym' <> sym -> fst (addPrice mh sym p ts conf) !! sym' = mh !! sym'.
Proof.
  intros Hne. unfold addPrice, initializeSeries.
  destruct (mh !! sym) as [series|]; cbn [fst];
    repeat (rewrite lookup_insert_ne by congruence); reflexivity.
Qed.

Lemma addPrice_windowBounded (mh : gmap string AssetTimeSeries) (sym : string)
    (p : number) (ts : Z) (conf : option number) :
  windowBounded mh -> windowBounded (fst (addPrice mh sym p ts conf)).
Proof.
  intros Hb sym' series' Hl.
  destruct (decide (sym' = sym)) as [->|Hne].
  - rewrite addPrice_lookup in Hl. injection Hl as <-. cbn [prices maxWindowSize].
    unfold windowOf. specialize (Hb sym).
    destruct (mh !! sym) as [series|].
    + specialize (Hb series eq_refl).
      destruct (Nat.ltb_spec (maxWindowSize series)
                  (List.length (prices series ++ [{| price := p; timestamp := ts; confidence := conf |}]))) as [Hlt|Hge].
      * destruct (prices series) as [|x l]; cbn in *; [lia|].
        rewrite length_app in *; cbn in *; lia.
      * exact Hge.
    + cbn. unfold DEFAULT_WINDOW_SIZE. lia.
  - rewrite addPrice_lookup_other in Hl by exact Hne. exact (Hb _ _ Hl).
Qed.

Lemma replay_windowBounded (ticks : list Tick) (mh : gmap string AssetTimeSeries) :
  windowBounded mh -> windowBounded (replay ticks mh).
Proof.
  revert mh. induction ticks as [|t ticks IH]; intros mh Hb; [exact Hb|].
  cbn. apply IH. now apply addPrice_windowBounded.
Qed.

Lemma addPrice_default_window (mh : gmap string AssetTimeSeries) (sym : string)
    (p : number) (ts : Z) (conf : option number) :
  (forall s series, mh !! s = Some series -> maxWindowSize series = DEFAULT_WINDOW_SIZE) ->
  forall s series, fst (addPrice mh sym p ts conf) !! s = Some series ->
                   maxWindowSize series = DEFAULT_WINDOW_SIZE.
Proof.
  intros Hd s series' Hl.
  destruct (decide (s = sym)) as [->|Hne].
  - rewrite addPrice_lookup in Hl. injection Hl as <-. cbn [maxWindowSize].
    unfold windowOf. specialize (Hd sym).
    destruct (mh !! sym) as [series|]; [now apply Hd|reflexivity].
  - rewrite addPrice_lookup_other in Hl by exact Hne. now apply (Hd s).
Qed.

Lemma replay_default_window (ticks : list Tick) (mh : gmap string AssetTimeSeries) :
  (forall s series, mh !! s = Some series -> maxWindowSize series = DEFAULT_WINDOW_SIZE) ->
  forall s series, replay ticks mh !! s = Some series ->
                   maxWindowSize series = DEFAULT_WINDOW_SIZE.
Proof.
  revert mh. induction ticks as [|t ticks IH]; intros mh Hd; [exact Hd|].
  cbn. apply IH. now apply addPrice_default_window.
Qed.

(** X1.  Whatever prices are added to an empty store, and however many,
    no symbol ever has more than 50 prices on record (the default window
    of the series that [addPrice] creates). *)
Theorem X1_store_window_bound :
  forall (ticks : list Tick) (sym : string),
    (List.length (getPriceArray (replay ticks ∅) sym) <= 50)%nat
    /\ (List.length (getTimestampArray (replay ticks ∅) sym) <= 50)%nat.
Proof.
  intros ticks sym. unfold getPriceArray, getTimestampArray.
  destruct (replay ticks ∅ !! sym) as [series|] eqn:Hl; [|cbn; lia].
  rewrite !length_map.
  assert (Hb : windowBounded (replay ticks ∅)).
  { apply replay_windowBounded. intros s series' H. rewrite lookup_empty in H. discriminate. }
  assert (Hd : maxWindowSize series = DEFAULT_WINDOW_SIZE).
  { apply (replay_default_window ticks ∅) with (s := sym); [|exact Hl].
    intros s series' H. rewrite lookup_empty in H. discriminate. }
  specialize (Hb sym series Hl). rewrite Hd in Hb. unfold DEFAULT_WINDOW_SIZE in Hb. lia.
Qed.

(** X2.  Adding a price below the window size and reading the prices
    back: the new price is appended to the prices of its symbol, and the
    prices of every other symbol are as before. *)
Theorem X2_addPrice_then_getPriceArray :
  forall (mh : gmap string AssetTimeSeries) (sym : string)
         (p : number) (ts : Z) (conf : option number),
    (List.length (getPriceArray mh sym) < windowOf mh sym)%nat ->
    let mh' := fst (addPrice mh sym p ts conf) in
    getPriceArray mh' sym = getPriceArray mh sym ++ [p]
    /\ (forall sym', sym' <> sym -> getPriceArray mh' sym' = getPriceArray mh sym').
Proof.
  intros mh sym p ts conf Hlt mh'. subst mh'. split.
  - revert Hlt. unfold getPriceArray at 2. rewrite addPrice_lookup. cbn [prices].
    unfold getPriceArray, windowOf.
    destruct (mh !! sym) as [series|]; rewrite ?length_map; intros Hlt.
    + rewrite length_app. cbn [List.length].
      destruct (Nat.ltb_spec (maxWindowSize series) (List.length (prices series) + 1)); [lia|].
      now rewrite map_app.
    + reflexivity.
  - intros sym' Hne. unfold getPriceArray. now rewrite addPrice_lookup_other.
Qed.

Lemma X2_addPrice_witness :
  (List.length (getPriceArray Samples.halvedHistory "SOL")
   < windowOf Samples.halvedHistory "SOL")%nat
  /\ getPriceArray (fst (addPrice Samples.halvedHistory "SOL" (Fin 75) 172800000 None)) "SOL"
     = [Fin 100; Fin 50; Fin 75]
  /\ getPriceArray (fst (addPrice Samples.halvedHistory "SOL" (Fin 75) 172800000 None)) "ETH"
     = [].
Proof.
  assert (H : (List.length (getPriceArray Samples.halvedHistory "SOL")
               < windowOf Samples.halvedHistory "SOL")%nat) by (vm_compute; lia).
  destruct (X2_addPrice_then_getPriceArray Samples.halvedHistory "SOL" (Fin 75)
              172800000%Z None H) as [Hsol Hother].
  split; [exact H | split].
  - rewrite Hsol. reflexivity.
  - rewrite (Hother "ETH"%string) by discriminate. reflexivity.
Defined.

(** X3.  Adding a price to a series that is at its window size drops
    the oldest price: the prices read back are the old ones without the
    first, followed by the new one. *)
Theorem X3_addPrice_evicts_oldest :
  forall (mh : gmap string AssetTimeSeries) (sym : string)
         (p : number) (ts : Z) (conf : option number),
    (0 < windowOf mh sym)%nat ->
    List.length (getPriceArray mh sym) = windowOf mh sym ->
    getPriceArray (fst (addPrice mh sym p ts conf)) sym = tl (getPriceArray mh sym) ++ [p].
Proof.
  intros mh sym p ts conf. unfold getPriceArray at 2. rewrite addPrice_lookup. cbn [prices].
  unfold getPriceArray, windowOf.
  destruct (mh !! sym) as [series|]; rewrite ?length_map; intros Hpos Hfull.
  - rewrite length_app. cbn [List.length].
    destruct (Nat.ltb_spec (maxWindowSize series) (List.length (prices series) + 1)); [|lia].
    destruct (prices series) as [|x l]; [cbn in Hfull; lia|].
    cbn. now rewrite map_app.
  - cbn in Hfull. unfold DEFAULT_WINDOW_SIZE in Hfull. lia.
Qed.

Lemma X3_addPrice_evicts_witness :
  (0 < windowOf Scenarios.fullWindow "SOL")%nat
  /\ List.length (getPriceArray Scenarios.fullWindow "SOL") = windowOf Scenarios.fullWindow "SOL"
  /\ getPriceArray (fst (addPrice Scenarios.fullWindow "SOL" (Fin 103) 259200000 None)) "SOL"
     = [Fin 101; Fin 102; Fin 103].
Proof.
  assert (Hpos : (0 < windowOf Scenarios.fullWindow "SOL")%nat) by (vm_compute; lia).
  assert (Hfull : List.length (getPriceArray Scenarios.fullWindow "SOL")
                  = windowOf Scenarios.fullWindow "SOL") by (vm_compute; reflexivity).
  split; [exact Hpos | split; [exact Hfull |]].
  rewrite (X3_addPrice_evicts_oldest Scenarios.fullWindow "SOL" (Fin 103) 259200000%Z None
             Hpos Hfull).
  reflexivity.
Defined.

End StoreProofs.

(** ** The store: drawdowns *)

Section DrawdownProofs.
Import SimpleStatistics marketHistory.

Lemma peak_ratio (pk p : R) :
  (0 < p <= pk)%R -> (0 <= (pk + - p) / pk < 1)%R.
Proof.
  intros [Hp Hle]. assert (Hpk : (0 < pk)%R) by lra. split.
  - unfold Rdiv. apply Rmult_le_pos; [lra | left; now apply Rinv_0_lt_compat].
  - apply (Rmult_lt_reg_r pk); [exact Hpk|].
    unfold Rdiv. rewrite Rmult_assoc, Rinv_l by lra. lra.
Qed.

(** The drawdown pass over positive prices keeps a positive peak and
    drawdowns in [0, 1), the current one at most the largest one. *)
Lemma drawdown_pass (ps : list R) (pk m d : R) :
  Forall (fun p => 0 < p)%R ps -> (0 < pk)%R -> (0 <= d <= m)%R -> (m < 1)%R ->
  exists pk' m' d' : R,
    fold_left drawdownStep (map Fin ps) (Fin pk, Fin m, Fin d) = (Fin pk', Fin m', Fin d')
    /\ (0 < pk')%R /\ (0 <= d' <= m')%R /\ (m' < 1)%R.
Proof.
  intros Hps. revert pk m d.
  induction Hps as [|p ps Hp Hps IH]; intros pk m d Hpk Hd Hm.
  - exists pk, m, d. cbn. auto.
  - cbn [map fold_left drawdownStep].
    set (pk1 := if Fin p >? Fin pk then Fin p else Fin pk).
    assert (Hpk1 : exists q : R, pk1 = Fin q /\ (0 < p <= q)%R).
    { subst pk1. cbn [Num.gtb Num.ltb]. destruct (Rltb pk p) eqn:Hc.
      - exists p. split; [reflexivity | lra].
      - apply Rltb_false in Hc. exists pk. split; [reflexivity | lra]. }
    destruct Hpk1 as (q & -> & Hq).
    pose proof (peak_ratio q p Hq) as Hr.
    cbn [Num.sub Num.neg Num.add Num.div].
    replace (Reqb q 0) with false by (symmetry; apply Reqb_false; lra).
    cbn [Num.gtb Num.ltb].
    destruct (Rltb m ((q + - p) / q)) eqn:Hc.
    + apply Rltb_true in Hc. apply IH; lra.
    + apply Rltb_false in Hc. apply IH; lra.
Qed.

(** X4.  On a series of positive prices the drawdowns are fractions:
    the current drawdown is at least 0 and at most the maximum drawdown,
    which is at most 1. *)
Theorem X4_drawdown_bounds :
  forall (mh : gmap string AssetTimeSeries) (sym : string) (ps : list R),
    getPriceArray mh sym = map Fin ps ->
    Forall (fun p => 0 < p)%R ps ->
    exists m c : R,
      getDrawdown mh sym = (Fin m, Fin c) /\ (0 <= c <= m)%R /\ (m <= 1)%R.
Proof.
  intros mh sym ps Hps Hpos. unfold getPriceArray in Hps. unfold getDrawdown.
  destruct (mh !! sym) as [series|].
  - rewrite Hps. destruct ps as [|a [|b l]]; cbn [map].
    + exists 0%R, 0%R. split; [reflexivity | lra].
    + exists 0%R, 0%R. split; [reflexivity | lra].
    + change (Fin a :: Fin b :: map Fin l) with (map Fin (a :: b :: l)).
      assert (Ha : (0 < a)%R) by now inversion Hpos.
      destruct (drawdown_pass (a :: b :: l) a 0 0 Hpos Ha ltac:(lra) ltac:(lra))
        as (pk' & m' & d' & -> & _ & Hd & Hm).
      exists m', d'. split; [reflexivity | lra].
  - exists 0%R, 0%R. split; [reflexivity | lra].
Qed.

Lemma X4_drawdown_witness :
  getPriceArray Samples.tenDayHistory "SOL" = map Fin Samples.tenPrices
  /\ Forall (fun p => 0 < p)%R Samples.tenPrices
  /\ exists m c : R,
       getDrawdown Samples.tenDayHistory "SOL" = (Fin m, Fin c)
       /\ (0 <= c <= m)%R /\ (m <= 1)%R.
Proof.
  split; [exact tenDayHistory_prices | split; [exact tenPrices_positive |]].
  exact (X4_drawdown_bounds Samples.tenDayHistory "SOL" Samples.tenPrices
           tenDayHistory_prices tenPrices_positive).
Defined.

End DrawdownProofs.

(** ** The risk engine: signs and missing history *)

Section RiskEdgeProofs.
Import SimpleStatistics marketHistory riskMetrics RiskSpec.

(** What [getPriceArray] returning [l] says about the store. *)
Lemma getPriceArray_inv (mh : gmap string AssetTimeSeries) (sym : string) (l : list number) :
  getPriceArray mh sym = l ->
  (mh !! sym = None /\ l = [])
  \/ exists series, mh !! sym = Some series /\ map price (prices series) = l.
Proof.
  unfold getPriceArray. destruct (mh !! sym) as [series|]; intros <-.
  - right. now exists series.
  - now left.
Qed.

Lemma shape_nanOrNotNegative (x : number) :
  (x = NaN \/ x = PInf \/ exists v : R, x = Fin v /\ (0 <= v)%R) ->
  nanOrNotNegative x = true.
Proof.
  intros [-> | [-> | (v & -> & Hv)]]; try reflexivity.
  unfold nanOrNotNegative. cbn [Num.is_nan orb]. now apply leb_fin_true.
Qed.

Lemma max0_nanOrNotNegative (x : number) : nanOrNotNegative (Math.max 0 x) = true.
Proof.
  destruct x as [a| | |]; try reflexivity.
  - unfold Math.max. cbn [Num.is_nan orb Num.ltb].
    destruct (Rltb 0 a) eqn:Hc; unfold nanOrNotNegative; cbn [Num.is_nan orb].
    + apply Rltb_true in Hc. apply leb_fin_true. lra.
    + apply leb_fin_true. lra.
  - unfold Math.max, nanOrNotNegative. cbn [Num.is_nan orb Num.ltb].
    apply leb_fin_true. lra.
Qed.

Lemma abs_nanOrNotNegative (x : number) : nanOrNotNegative (Math.abs x) = true.
Proof.
  destruct x as [a| | |]; try reflexivity.
  unfold nanOrNotNegative. cbn [Math.abs Num.is_nan orb]. apply leb_fin_true, Rabs_pos.
Qed.

Lemma scaled_nanOrNotNegative (x : number) (k : R) :
  (0 < k)%R -> nanOrNotNegative x = true -> nanOrNotNegative (x * Fin k) = true.
Proof.
  intros Hk. destruct x as [a| | |]; unfold nanOrNotNegative; cbn [Num.is_nan orb Num.mul].
  - intros Ha. apply leb_fin_true in Ha. apply leb_fin_true. nra.
  - intros _. unfold Num.scale_inf.
    replace (Reqb k 0) with false by (symmetry; apply Reqb_false; lra).
    replace (Rltb 0 k) with true by (symmetry; now apply Rltb_true).
    reflexivity.
  - discriminate.
  - reflexivity.
Qed.

Lemma sqrt_const (k : R) : (0 < k)%R -> Math.sqrt (Fin k) = Fin (sqrt k).
Proof.
  intros Hk. cbn [Math.sqrt].
  now replace (Rltb k 0) with false by (symmetry; apply Rltb_false; lra).
Qed.

Lemma cvarRelative_nanOrNotNegative (mh : gmap string AssetTimeSeries) (sym : string)
    (confidenceLevel positionValue : number) :
  nanOrNotNegative (cvarRelative (calculateCVaR mh sym confidenceLevel positionValue)) = true.
Proof.
  unfold calculateCVaR.
  destruct (List.length (getPriceArray mh sym) <? 10)%nat; cbn [cvarRelative].
  - unfold nanOrNotNegative. cbn [Num.is_nan orb]. apply leb_fin_true. lra.
  - destruct (List.filter _ _); cbn [cvarRelative].
    + apply shape_nanOrNotNegative.
      exact (varRelative_shape mh sym confidenceLevel 1).
    + apply abs_nanOrNotNegative.
Qed.

(** X5.  Whatever the store holds (zero, negative or non-numeric prices
    included), the volatility, VaR and CVaR figures of
    [calculateRiskMetrics] are never negative: each is NaN, [+Infinity] or
    a finite value of at least 0. *)
Theorem X5_risk_figures_not_negative :
  forall (mh : gmap string AssetTimeSeries) (sym : string)
         (positionValue relativeUncertainty : number),
    let r := calculateRiskMetrics mh sym positionValue relativeUncertainty in
    Forall (fun figure : RiskMetrics -> number => nanOrNotNegative (figure r) = true)
           [volatility; volatilityDaily; var95; var99; cvar95; cvar99].
Proof.
  intros mh sym positionValue relativeUncertainty r. subst r.
  assert (Hdaily : nanOrNotNegative (daily (calculateVolatility mh sym)) = true
                   /\ nanOrNotNegative (annualized (calculateVolatility mh sym)) = true).
  { unfold calculateVolatility.
    destruct (List.length (getPriceArray mh sym) <? 2)%nat; cbn [daily annualized].
    - split; unfold nanOrNotNegative; cbn [Num.is_nan orb]; apply leb_fin_true; lra.
    - pose proof (shape_nanOrNotNegative _
                    (standardDeviation_shape (logReturns (getPriceArray mh sym)))) as Hs.
      split; [exact Hs|].
      rewrite sqrt_const by lra. apply scaled_nanOrNotNegative; [|exact Hs].
      apply sqrt_lt_R0. lra. }
  assert (Hvar : forall c,
            nanOrNotNegative (varRelative (calculateVaRParametric mh sym c positionValue 1))
            = true).
  { intros c. unfold calculateVaRParametric.
    destruct (List.length (getPriceArray mh sym) <? 10)%nat; cbn [varRelative].
    - unfold nanOrNotNegative. cbn [Num.is_nan orb]. apply leb_fin_true. lra.
    - apply max0_nanOrNotNegative. }
  unfold calculateRiskMetrics.
  repeat constructor; cbn [volatility volatilityDaily var95 var99 cvar95 cvar99];
    try apply Hdaily; try apply Hvar; apply cvarRelative_nanOrNotNegative.
Qed.

(** X6.  With fewer than two prices on record (an unknown symbol
    included) every computed risk figure is 0; the uncertainty and the
    position value are passed through. *)
Theorem X6_risk_metrics_without_history :
  forall (mh : gmap string AssetTimeSeries) (sym : string)
         (positionValue relativeUncertainty : number),
    (List.length (getPriceArray mh sym) < 2)%nat ->
    calculateRiskMetrics mh sym positionValue relativeUncertainty
    = {| volatility := Fin 0; volatilityDaily := Fin 0;
         var95 := Fin 0; var99 := Fin 0; cvar95 := Fin 0; cvar99 := Fin 0;
         maxDrawdown := Fin 0; currentDrawdown := Fin 0;
         relativeUncertainty := relativeUncertainty;
         totalValue := positionValue; atRiskAmount := Fin 0 |}.
Proof.
  intros mh sym positionValue relativeUncertainty Hlen.
  unfold calculateRiskMetrics, calculateVolatility, calculateVaRParametric, calculateCVaR.
  replace (List.length (getPriceArray mh sym) <? 2)%nat with true
    by (symmetry; apply Nat.ltb_lt; lia).
  replace (List.length (getPriceArray mh sym) <? 10)%nat with true
    by (symmetry; apply Nat.ltb_lt; lia).
  assert (Hstats : getStatistics mh sym = None).
  { unfold getStatistics. unfold getPriceArray in Hlen.
    destruct (mh !! sym) as [series|]; [|reflexivity].
    destruct (map price (prices series)) as [|a [|b l]]; try reflexivity.
    cbn in Hlen. lia. }
  rewrite Hstats. reflexivity.
Qed.

Lemma X6_risk_metrics_witness :
  (List.length (getPriceArray Samples.emptyHistory "SOL") < 2)%nat
  /\ var95 (calculateRiskMetrics Samples.emptyHistory "SOL" (Fin 1000) (Fin 0.001)) = Fin 0
  /\ totalValue (calculateRiskMetrics Samples.emptyHistory "SOL" (Fin 1000) (Fin 0.001))
     = Fin 1000.
Proof.
  assert (H : (List.length (getPriceArray Samples.emptyHistory "SOL") < 2)%nat)
    by (vm_compute; lia).
  split; [exact H|].
  rewrite (X6_risk_metrics_without_history Samples.emptyHistory "SOL" (Fin 1000) (Fin 0.001) H).
  split; reflexivity.
Defined.

End RiskEdgeProofs.

(** ** The risk engine: a flat series *)

Section FlatSeriesProofs.
Import SimpleStatistics marketHistory riskMetrics.

Lemma logReturns_flat (p : R) (n : nat) :
  p <> 0%R -> logReturns (repeat (Fin p) n) = repeat (Fin 0) (Nat.pred n).
Proof.
  intros Hp. induction n as [|[|n] IH]; try reflexivity.
  change (repeat (Fin p) (S (S n))) with (Fin p :: Fin p :: repeat (Fin p) n).
  rewrite logReturns_step. change (Fin p :: repeat (Fin p) n) with (repeat (Fin p) (S n)).
  rewrite IH. cbn [Nat.pred repeat]. f_equal.
  cbn [Num.div]. replace (Reqb p 0) with false by (symmetry; now apply Reqb_false).
  replace (p / p)%R with 1%R by (field; exact Hp).
  cbn [Math.log].
  replace (Rltb 1 0) with false by (symmetry; apply Rltb_false; lra).
  replace (Reqb 1 0) with false by (symmetry; apply Reqb_false; lra).
  now rewrite ln_1.
Qed.

Lemma filter_flat {A : Type} (f : A -> bool) (c : A) (n : nat) :
  f c = false -> List.filter f (repeat c n) = [].
Proof.
  intros Hc. induction n as [|n IH]; [reflexivity|]. cbn [repeat List.filter].
  now rewrite Hc.
Qed.

Lemma sort_insert_flat (c : R) (n : nat) :
  sort_insert (Fin c) (repeat (Fin c) n) = repeat (Fin c) (S n).
Proof.
  induction n as [|n IH]; [reflexivity|].
  cbn [repeat sort_insert]. cbn [Num.sub Num.neg Num.add Num.gtb Num.ltb].
  replace (Rltb 0 (c + - c)) with false by (symmetry; apply Rltb_false; lra).
  now rewrite IH.
Qed.

Lemma sortAscending_flat (c : R) (n : nat) :
  sortAscending (repeat (Fin c) n) = repeat (Fin c) n.
Proof.
  unfold sortAscending. induction n as [|n IH]; [reflexivity|].
  cbn [repeat fold_right]. rewrite IH. apply sort_insert_flat.
Qed.

Lemma drawdown_flat (p : R) (n : nat) (d : number) :
  p <> 0%R ->
  fold_left drawdownStep (repeat (Fin p) (S n)) (Fin p, Fin 0, d) = (Fin p, Fin 0, Fin 0).
Proof.
  intros Hp. revert d. induction n as [|n IH]; intros d.
  - cbn [repeat fold_left drawdownStep Num.gtb Num.ltb].
    rewrite (proj2 (Rltb_false p p)) by lra.
    cbn [Num.sub Num.neg Num.add Num.div].
    replace (Reqb p 0) with false by (symmetry; now apply Reqb_false).
    replace ((p + - p) / p)%R with 0%R by (field; exact Hp).
    cbn [Num.gtb Num.ltb]. now rewrite (proj2 (Rltb_false 0 0)) by lra.
  - change (repeat (Fin p) (S (S n))) with (Fin p :: repeat (Fin p) (S n)).
    cbn [fold_left]. 
    assert (Hstep : drawdownStep (Fin p, Fin 0, d) (Fin p) = (Fin p, Fin 0, Fin 0)).
    { cbn [drawdownStep Num.gtb Num.ltb].
      rewrite (proj2 (Rltb_false p p)) by lra.
      cbn [Num.sub Num.neg Num.add Num.div].
      replace (Reqb p 0) with false by (symmetry; now apply Reqb_false).
      replace ((p + - p) / p)%R with 0%R by (field; exact Hp).
      cbn [Num.gtb Num.ltb]. now rewrite (proj2 (Rltb_false 0 0)) by lra. }
    rewrite Hstep. apply IH.
Qed.

Lemma getDrawdown_flat (mh : gmap string AssetTimeSeries) (sym : string) (p : R) (n : nat) :
  p <> 0%R -> getPriceArray mh sym = repeat (Fin p) n ->
  getDrawdown mh sym = (Fin 0, Fin 0).
Proof.
  intros Hp Hps. unfold getDrawdown.
  destruct (getPriceArray_inv _ _ _ Hps) as [[-> _] | (series & -> & ->)]; [reflexivity|].
  destruct n as [|[|n]]; try reflexivity.
  change (repeat (Fin p) (S (S n))) with (Fin p :: Fin p :: repeat (Fin p) n).
  cbv iota beta.
  change (Fin p :: Fin p :: repeat (Fin p) n) with (repeat (Fin p) (S (S n))).
  now rewrite drawdown_flat.
Qed.

Lemma varParametric_flat (mh : gmap string AssetTimeSeries) (sym : string) (p : R) (n : nat)
    (c : R) (positionValue : number) :
  p <> 0%R -> getPriceArray mh sym = repeat (Fin p) n ->
  getZScore (Fin c) = Fin 1.645 \/ getZScore (Fin c) = Fin 2.326 ->
  varRelative (calculateVaRParametric mh sym (Fin c) positionValue 1) = Fin 0.
Proof.
  intros Hp Hps Hz. unfold calculateVaRParametric. rewrite Hps, repeat_length.
  destruct (Nat.ltb_spec n 10) as [Hlt|Hge]; [reflexivity|].
  cbn [varRelative]. rewrite logReturns_flat by exact Hp.
  destruct n as [|[|n]]; try lia. cbn [Nat.pred].
  rewrite mean_repeat, standardDeviation_repeat.
  destruct Hz as [-> | ->]; num_eval.
Qed.

Lemma varHistorical_flat (mh : gmap string AssetTimeSeries) (sym : string) (p : R) (n : nat)
    (c : R) (positionValue : number) :
  p <> 0%R -> (0 < c)%R -> getPriceArray mh sym = repeat (Fin p) n ->
  varRelative (calculateVaRHistorical mh sym (Fin c) positionValue) = Fin 0.
Proof.
  intros Hp Hc Hps. unfold calculateVaRHistorical. rewrite Hps, repeat_length.
  destruct (Nat.ltb_spec n 10) as [Hlt|Hge]; [reflexivity|].
  cbn [varRelative]. rewrite logReturns_flat, sortAscending_flat by exact Hp.
  unfold len. rewrite repeat_length.
  destruct (percentile_index c (Nat.pred n) Hc ltac:(lia)) as (z & -> & Hz).
  rewrite array_get_in_range by lia.
  rewrite nth_error_repeat by lia.
  cbn [Math.abs]. now rewrite Rabs_R0.
Qed.

Lemma cvar_flat (mh : gmap string AssetTimeSeries) (sym : string) (p : R) (n : nat)
    (c : R) (positionValue : number) :
  p <> 0%R -> (0 < c)%R -> getPriceArray mh sym = repeat (Fin p) n ->
  cvarRelative (calculateCVaR mh sym (Fin c) positionValue) = Fin 0.
Proof.
  intros Hp Hc Hps. unfold calculateCVaR.
  rewrite (varHistorical_flat mh sym p n c 1 Hp Hc Hps).
  rewrite Hps, repeat_length.
  destruct (Nat.ltb_spec n 10) as [Hlt|Hge]; [reflexivity|].
  rewrite logReturns_flat by exact Hp.
  rewrite filter_flat; [reflexivity|].
  cbn [Num.neg Num.ltb]. apply Rltb_false. lra.
Qed.

(** Every computed figure of a flat series is 0. *)
Lemma flat_series_metrics (mh : gmap string AssetTimeSeries) (sym : string) (p : R) (n : nat)
    (positionValue relativeUncertainty : number) :
  p <> 0%R ->
  getPriceArray mh sym = repeat (Fin p) n ->
  Forall (fun figure : RiskMetrics -> number =>
            figure (calculateRiskMetrics mh sym positionValue relativeUncertainty) = Fin 0)
         [volatility; volatilityDaily; var95; var99; cvar95; cvar99;
          maxDrawdown; currentDrawdown].
Proof.
  intros Hp Hps.
  assert (Hvol : daily (calculateVolatility mh sym) = Fin 0
                 /\ annualized (calculateVolatility mh sym) = Fin 0).
  { unfold calculateVolatility. rewrite Hps, repeat_length.
    destruct (Nat.ltb_spec n 2) as [Hlt|Hge]; [split; reflexivity|].
    cbn [daily annualized]. rewrite logReturns_flat by exact Hp.
    destruct n as [|[|n]]; try lia. cbn [Nat.pred].
    rewrite standardDeviation_repeat. split; [reflexivity|].
    rewrite sqrt_const by lra. cbn [Num.mul]. f_equal. lra. }
  assert (Hdd : (match getStatistics mh sym with
                 | Some stats => (marketHistory.maxDrawdown stats,
                                  marketHistory.currentDrawdown stats)
                 | None => (Fin 0, Fin 0)
                 end) = (Fin 0, Fin 0)).
  { pose proof (getDrawdown_flat mh sym p n Hp Hps) as Hd.
    unfold getStatistics.
    destruct (mh !! sym) as [series|]; [|reflexivity].
    destruct (map price (prices series)) as [|a [|b l]]; try reflexivity.
    cbn [marketHistory.maxDrawdown marketHistory.currentDrawdown]. now rewrite Hd. }
  unfold calculateRiskMetrics. rewrite Hdd.
  repeat constructor;
    cbn [volatility volatilityDaily var95 var99 cvar95 cvar99 maxDrawdown currentDrawdown
         fst snd];
    try apply Hvol.
  - apply (varParametric_flat mh sym p n 0.95); auto using getZScore_095.
  - apply (varParametric_flat mh sym p n 0.99); auto using getZScore_099.
  - apply (cvar_flat mh sym p n 0.95); auto; lra.
  - apply (cvar_flat mh sym p n 0.99); auto; lra.
Qed.

(** X7.  A series that stays at one price carries no risk: whatever its
    length, the volatility, the VaR and CVaR at both levels and both
    drawdowns are exactly 0. *)
Theorem X7_flat_series_no_risk :
  forall (mh : gmap string AssetTimeSeries) (sym : string) (p : R) (n : nat)
         (positionValue relativeUncertainty : number),
    p <> 0%R ->
    getPriceArray mh sym = repeat (Fin p) n ->
    let r := calculateRiskMetrics mh sym positionValue relativeUncertainty in
    Forall (fun figure : RiskMetrics -> number => figure r = Fin 0)
           [volatility; volatilityDaily; var95; var99; cvar95; cvar99;
            maxDrawdown; currentDrawdown].
Proof.
  intros mh sym p n positionValue relativeUncertainty Hp Hps r. subst r.
  now apply (flat_series_metrics mh sym p n).
Qed.

Lemma flatHistory_prices :
  getPriceArray Scenarios.flatHistory "SOL" = repeat (Fin 100) 12.
Proof. reflexivity. Qed.

Lemma X7_flat_series_witness :
  100%R <> 0%R
  /\ getPriceArray Scenarios.flatHistory "SOL" = repeat (Fin 100) 12
  /\ var95 (calculateRiskMetrics Scenarios.flatHistory "SOL" (Fin 1000) (Fin 0)) = Fin 0
  /\ cvar99 (calculateRiskMetrics Scenarios.flatHistory "SOL" (Fin 1000) (Fin 0)) = Fin 0.
Proof.
  assert (Hp : 100%R <> 0%R) by lra.
  pose proof (X7_flat_series_no_risk Scenarios.flatHistory "SOL" 100 12 (Fin 1000) (Fin 0)
                Hp flatHistory_prices) as H.
  cbv zeta in H.
  split; [exact Hp | split; [exact flatHistory_prices | split]].
  - exact (Forall_inv (Forall_inv_tail (Forall_inv_tail H))).
  - exact (Forall_inv (Forall_inv_tail (Forall_inv_tail (Forall_inv_tail
             (Forall_inv_tail (Forall_inv_tail H)))))).
Defined.

End FlatSeriesProofs.

(** ** The risk engine: a portfolio of one position *)

Section SinglePositionProofs.
Import SimpleStatistics marketHistory riskMetrics.

(** The share of a lone position is 1, and the discount for one
    position is 1.0. *)
Lemma lone_share (x : number) (a : R) :
  a <> 0%R -> (Fin 0 + x * (Fin a / Fin (0 + a))) * Fin 1.0 = x.
Proof.
  intros Ha. cbn [Num.div].
  replace (Reqb (0 + a) 0) with false by (symmetry; apply Reqb_false; lra).
  replace (a / (0 + a))%R with 1%R by (field; lra).
  destruct x as [v| | |]; repeat (cbn [Num.mul Num.add]; unfold Num.scale_inf; num_eval).
  f_equal. lra.
Qed.

(** X8.  A portfolio of a single position of finite value other than 0
    has the VaR, the volatility and the value of that position, with
    diversification factor 1: no discount is applied. *)
Theorem X8_single_position_portfolio :
  forall (mh : gmap string AssetTimeSeries) (sym : string) (a : R),
    a <> 0%R ->
    let portfolio := calculatePortfolioRisk mh [{| pos_symbol := sym; value := Fin a |}] in
    let position := calculateRiskMetrics mh sym (Fin a) 0 in
    var95 (metrics portfolio) = var95 position
    /\ volatility (metrics portfolio) = volatility position
    /\ diversification portfolio = Fin 1
    /\ totalValue (metrics portfolio) = Fin a.
Proof.
  intros mh sym a Ha portfolio position. subst portfolio position.
  unfold calculatePortfolioRisk. cbn [map sum fold_left Num.add value List.length Nat.eqb orb].
  cbn [Num.eqb]. replace (Reqb (0 + a) 0) with false by (symmetry; apply Reqb_false; lra).
  cbn [orb Nat.ltb Nat.leb portfolioStep pos_symbol value].
  cbn [metrics diversification var95 volatility totalValue].
  rewrite !lone_share by exact Ha.
  repeat split; f_equal; lra.
Qed.

Lemma X8_single_position_witness :
  1000%R <> 0%R
  /\ var95 (metrics (calculatePortfolioRisk Samples.tenDayHistory Samples.onlySol))
     = var95 (calculateRiskMetrics Samples.tenDayHistory "SOL" (Fin 1000) 0).
Proof.
  assert (Ha : 1000%R <> 0%R) by lra.
  split; [exact Ha|].
  exact (proj1 (X8_single_position_portfolio Samples.tenDayHistory "SOL" 1000 Ha)).
Defined.

End SinglePositionProofs.

(** ** The forecast engine: models and bounds *)

Section ForecastShapeProofs.
Import SimpleStatistics marketHistory forecastEngine RiskSpec.

Lemma deviationShape_mul (x y : number) :
  deviationShape x -> deviationShape y -> deviationShape (x * y).
Proof.
  unfold deviationShape.
  intros [-> | [-> | (a & -> & Ha)]] [-> | [-> | (b & -> & Hb)]];
    cbn [Num.mul]; auto.
  - unfold Num.scale_inf. destruct (Reqb b 0) eqn:Hz; auto.
    apply Reqb_false in Hz.
    replace (Rltb 0 b) with true by (symmetry; apply Rltb_true; lra). auto.
  - unfold Num.scale_inf. destruct (Reqb a 0) eqn:Hz; auto.
    apply Reqb_false in Hz.
    replace (Rltb 0 a) with true by (symmetry; apply Rltb_true; lra). auto.
  - right; right. exists (a * b)%R. split; [reflexivity | nra].
Qed.

Lemma deviationShape_positive (t : R) : (0 < t)%R -> deviationShape (Fin t).
Proof. intros Ht. right; right. exists t. split; [reflexivity | lra]. Qed.

(** The margin of each model is a positive quantile times deviations
    and square roots; the lower bound is cut off at 0. *)
Lemma regression_shape (mh : gmap string AssetTimeSeries) (sym : string)
    (horizon confidenceLevel : number) (r : ForecastResult) :
  forecastRollingRegression mh sym horizon confidenceLevel = Some r ->
  nanOrNotNegative (lowerBound r) = true /\ nanOrNotNegative (errorMargin r) = true.
Proof.
  unfold forecastRollingRegression.
  destruct (List.length (getPriceArray mh sym) <? 10)%nat; [discriminate|].
  intros [= <-]. cbn [lowerBound errorMargin].
  split; [apply max0_nanOrNotNegative|].
  apply shape_nanOrNotNegative.
  match goal with
  | |- context [getTValue ?c ?df] => destruct (getTValue_positive c df) as (t & -> & Ht)
  end.
  apply deviationShape_mul; [now apply deviationShape_positive|].
  apply deviationShape_mul; apply sqrt_shape.
Qed.

Lemma smoothing_shape (mh : gmap string AssetTimeSeries) (sym : string)
    (horizon alpha beta confidenceLevel : number) (r : ForecastResult) :
  forecastExponentialSmoothing mh sym horizon alpha beta confidenceLevel = Some r ->
  nanOrNotNegative (lowerBound r) = true /\ nanOrNotNegative (errorMargin r) = true.
Proof.
  unfold forecastExponentialSmoothing.
  destruct (List.length (getPriceArray mh sym) <? 10)%nat; [discriminate|].
  destruct (fold_left (holtStep _ _) _ _) as [level trend].
  intros [= <-]. cbn [lowerBound errorMargin].
  split; [apply max0_nanOrNotNegative|].
  apply shape_nanOrNotNegative.
  destruct (getZValue_positive confidenceLevel) as (z & -> & Hz).
  apply deviationShape_mul; [|apply sqrt_shape].
  apply deviationShape_mul; [now apply deviationShape_positive|].
  apply standardDeviation_shape.
Qed.

Lemma meanReversion_shape (mh : gmap string AssetTimeSeries) (sym : string)
    (horizon confidenceLevel : number) (r : ForecastResult) :
  forecastMeanReversion mh sym horizon confidenceLevel = Some r ->
  nanOrNotNegative (lowerBound r) = true /\ nanOrNotNegative (errorMargin r) = true.
Proof.
  unfold forecastMeanReversion.
  destruct (List.length (getPriceArray mh sym) <? 20)%nat; [discriminate|].
  destruct (fold_left _ _ (Fin 0, Fin 0)) as [numerator denominator].
  intros [= <-]. cbn [lowerBound errorMargin].
  split; [apply max0_nanOrNotNegative|].
  apply shape_nanOrNotNegative.
  destruct (getZValue_positive confidenceLevel) as (z & -> & Hz).
  apply deviationShape_mul; [now apply deviationShape_positive | apply sqrt_shape].
Qed.

Lemma pushIf_Forall {A : Type} (P : A -> Prop) (x : option A) :
  (forall v, x = Some v -> P v) -> Forall P (pushIf x).
Proof. destruct x as [v|]; intros H; cbn; [constructor; auto | constructor]. Qed.

Lemma min_nanOrNotNegative (x y : number) :
  nanOrNotNegative x = true -> nanOrNotNegative y = true ->
  nanOrNotNegative (Math.min x y) = true.
Proof.
  unfold Math.min. destruct (Num.is_nan x || Num.is_nan y); [reflexivity|].
  now destruct (y <? x).
Qed.

Lemma min_list_nanOrNotNegative (l : list number) :
  Forall (fun x => nanOrNotNegative x = true) l ->
  nanOrNotNegative (Math.min_list l) = true.
Proof.
  intros Hl. unfold Math.min_list. apply fold_left_invariant; [reflexivity|].
  intros a b Ha Hb. apply min_nanOrNotNegative; [exact Ha|].
  exact (proj1 (List.Forall_forall _ _) Hl b Hb).
Qed.

Lemma ensemble_models (mh : gmap string AssetTimeSeries) (sym : string)
    (horizon confidenceLevel : number) :
  List.length (ensembleForecasts mh sym horizon confidenceLevel)
  = (if (List.length (getPriceArray mh sym) <? 10)%nat then 0
     else if (List.length (getPriceArray mh sym) <? 20)%nat then 2 else 3)%nat.
Proof.
  unfold ensembleForecasts, forecastRollingRegression, forecastExponentialSmoothing,
    forecastMeanReversion.
  destruct (Nat.ltb_spec (List.length (getPriceArray mh sym)) 10) as [H10|H10];
    destruct (Nat.ltb_spec (List.length (getPriceArray mh sym)) 20) as [H20|H20];
    try lia; try reflexivity.
  - destruct (fold_left (holtStep _ _) _ _). reflexivity.
  - destruct (fold_left (holtStep _ _) _ _).
    destruct (fold_left _ _ (Fin 0, Fin 0)). reflexivity.
Qed.

Lemma ensemble_inputs (mh : gmap string AssetTimeSeries) (sym : string)
    (horizon confidenceLevel : number) :
  Forall (fun f => inputDataPoints f = len (getPriceArray mh sym))
         (ensembleForecasts mh sym horizon confidenceLevel).
Proof.
  unfold ensembleForecasts. repeat apply Forall_app_2; apply pushIf_Forall; intros r.
  - unfold forecastRollingRegression.
    destruct (List.length (getPriceArray mh sym) <? 10)%nat; [discriminate|].
    now intros [= <-].
  - unfold forecastExponentialSmoothing.
    destruct (List.length (getPriceArray mh sym) <? 10)%nat; [discriminate|].
    destruct (fold_left (holtStep _ _) _ _). now intros [= <-].
  - unfold forecastMeanReversion.
    destruct (List.length (getPriceArray mh sym) <? 20)%nat; [discriminate|].
    destruct (fold_left _ _ (Fin 0, Fin 0)). now intros [= <-].
Qed.

Lemma max_list_constant (a : R) (l : list number) :
  l <> [] -> Forall (fun v => v = Fin a) l -> Math.max_list l = Fin a.
Proof.
  intros Hne Hl. unfold Math.max_list.
  destruct Hl as [|x l -> Hl]; [congruence|]. cbn [fold_left].
  change (Math.max NInf (Fin a)) with (Fin a).
  induction Hl as [|y l -> Hl IH]; [reflexivity|].
  cbn [fold_left]. unfold Math.max at 2. cbn [Num.is_nan orb Num.ltb].
  rewrite (proj2 (Rltb_false a a)) by lra. apply IH. congruence.
Qed.

(** X9.  The ensemble combines no model under 10 prices, two models
    from 10 to 19 prices and three from 20 on, never exactly one: it
    returns nothing under 10 prices and a combined forecast (model
    "ensemble") from 10 prices on, so the branch that hands back a single
    model's forecast is never taken. *)
Theorem X9_ensemble_model_count :
  forall (mh : gmap string AssetTimeSeries) (sym : string)
         (horizon confidenceLevel : number),
    let n := List.length (getPriceArray mh sym) in
    List.length (ensembleForecasts mh sym horizon confidenceLevel)
    = (if (n <? 10)%nat then 0 else if (n <? 20)%nat then 2 else 3)%nat
    /\ option_map model (forecastEnsemble mh sym horizon confidenceLevel)
       = (if (n <? 10)%nat then None else Some "ensemble"%string)
    /\ option_map inputDataPoints (forecastEnsemble mh sym horizon confidenceLevel)
       = (if (n <? 10)%nat then None else Some (Fin (INR n))).
Proof.
  intros mh sym horizon confidenceLevel n.
  pose proof (ensemble_models mh sym horizon confidenceLevel) as Hlen. fold n in Hlen.
  split; [exact Hlen|].
  assert (Hin := ensemble_inputs mh sym horizon confidenceLevel).
  unfold forecastEnsemble.
  destruct (ensembleForecasts mh sym horizon confidenceLevel) as [|f1 [|f2 fs]] eqn:Hfs;
    cbn [List.length] in Hlen;
    destruct (n <? 10)%nat; destruct (n <? 20)%nat; try discriminate; cbn [option_map model];
    try (split; reflexivity).
  - split; [reflexivity|]. cbn [inputDataPoints]. f_equal.
    apply max_list_constant; [discriminate|].
    apply Forall_map. exact Hin.
  - split; [reflexivity|]. cbn [inputDataPoints]. f_equal.
    apply max_list_constant; [discriminate|].
    apply Forall_map. exact Hin.
Qed.

(** X10.  No forecast has a negative lower bound or a negative error
    margin: for each of the three models both are NaN, [+Infinity] or a
    finite value of at least 0 (whatever the prices, the horizon, the
    smoothing parameters and the confidence level), and so is the lower
    bound of the ensemble. *)
Theorem X10_forecast_bounds_not_negative :
  forall (mh : gmap string AssetTimeSeries) (sym : string)
         (horizon alpha beta confidenceLevel : number),
    Forall (fun r => nanOrNotNegative (lowerBound r) = true
                     /\ nanOrNotNegative (errorMargin r) = true)
           (pushIf (forecastRollingRegression mh sym horizon confidenceLevel)
            ++ pushIf (forecastExponentialSmoothing mh sym horizon alpha beta confidenceLevel)
            ++ pushIf (forecastMeanReversion mh sym horizon confidenceLevel))
    /\ Forall (fun r => nanOrNotNegative (lowerBound r) = true)
              (pushIf (forecastEnsemble mh sym horizon confidenceLevel)).
Proof.
  intros mh sym horizon alpha beta confidenceLevel.
  assert (Hmodels : forall a b,
    Forall (fun r => nanOrNotNegative (lowerBound r) = true
                     /\ nanOrNotNegative (errorMargin r) = true)
           (pushIf (forecastRollingRegression mh sym horizon confidenceLevel)
            ++ pushIf (forecastExponentialSmoothing mh sym horizon a b confidenceLevel)
            ++ pushIf (forecastMeanReversion mh sym horizon confidenceLevel))).
  { intros a b. repeat apply Forall_app_2; apply pushIf_Forall; intros r.
    - apply regression_shape.
    - apply smoothing_shape.
    - apply meanReversion_shape. }
  split; [apply Hmodels|].
  apply pushIf_Forall. intros r. unfold forecastEnsemble.
  specialize (Hmodels 0.3 0.1). fold (ensembleForecasts mh sym horizon confidenceLevel) in Hmodels.
  destruct (ensembleForecasts mh sym horizon confidenceLevel) as [|f1 [|f2 fs]] eqn:Hfs;
    [discriminate | |]; intros [= <-].
  - exact (proj1 (Forall_inv Hmodels)).
  - change (nanOrNotNegative (Math.min_list (map lowerBound (f1 :: f2 :: fs))) = true).
    apply min_list_nanOrNotNegative.
    apply Forall_map. eapply Forall_impl; [exact Hmodels|]. now intros f [H _].
Qed.

End ForecastShapeProofs.

(** ** The cashflow forecast: buckets, interval and probability *)

Section CashflowBucketProofs.
Import SimpleStatistics cashflowEngine CashflowSpec RiskSpec.

Lemma addAt_length (buckets : list number) (idx : Z) (a : number) :
  List.length (addAt buckets idx a) = List.length buckets.
Proof. unfold addAt. destruct (idx <? 0)%Z; [reflexivity | apply length_alter]. Qed.

Lemma toDailyNetFlows_length (now : Z) (events : list CashflowEvent) (days : nat) :
  List.length (toDailyNetFlows now events days) = days.
Proof.
  unfold toDailyNetFlows. apply fold_left_invariant; [apply repeat_length|].
  intros buckets e Hb _. destruct (_ || _); [exact Hb|]. now rewrite addAt_length.
Qed.

(** X11.  The daily buckets: there is one bucket per day of the
    lookback, and events dated before the window or after [now] do not
    count: the buckets of all the events are the buckets of the events
    dated within the window. *)
Theorem X11_daily_buckets_window :
  forall (now : Z) (events : list CashflowEvent) (days : nat),
    List.length (toDailyNetFlows now events days) = days
    /\ toDailyNetFlows now (List.filter (inWindow now days) events) days
       = toDailyNetFlows now events days.
Proof.
  intros now events days. split; [apply toDailyNetFlows_length|].
  unfold toDailyNetFlows. generalize (repeat (Fin 0) days) as buckets.
  induction events as [|e events IH]; intros buckets; [reflexivity|].
  assert (Hin : inWindow now days e
                = negb ((timestamp e <? now - Z.of_nat days * dayMs)%Z
                        || (now <? timestamp e)%Z)) by reflexivity.
  cbn [List.filter]. rewrite Hin.
  destruct ((timestamp e <? now - Z.of_nat days * dayMs)%Z || (now <? timestamp e)%Z) eqn:Hskip;
    cbn [negb fold_left]; rewrite Hskip; apply IH.
Qed.

(** X12.  When no event is dated within the lookback window (no event
    at all included) there is no forecast. *)
Theorem X12_no_forecast_without_events :
  forall (now : Z) (startingBalance : number) (events : list CashflowEvent)
         (horizonDays : number) (lookbackDays : nat) (confidenceLevel : number),
    Forall (fun e => inWindow now lookbackDays e = false) events ->
    forecastCashflow now startingBalance events horizonDays lookbackDays confidenceLevel
    = None.
Proof.
  intros now startingBalance events horizonDays lookbackDays confidenceLevel Hout.
  assert (Hdaily : toDailyNetFlows now events lookbackDays = repeat (Fin 0) lookbackDays).
  { unfold toDailyNetFlows. generalize (repeat (Fin 0) lookbackDays) as buckets.
    induction Hout as [|e events He Hout IH]; intros buckets; [reflexivity|].
    cbn [fold_left]. unfold inWindow in He. apply negb_false_iff in He. rewrite He.
    apply IH. }
  unfold forecastCashflow. rewrite Hdaily.
  replace (existsb (fun v => v !== 0) (repeat (Fin 0) lookbackDays)) with false; [reflexivity|].
  symmetry. clear. induction lookbackDays as [|n IH]; [reflexivity|].
  cbn [repeat existsb]. rewrite IH. unfold Num.neqb. cbn [Num.eqb].
  now rewrite (proj2 (Reqb_true 0 0)).
Qed.

Lemma X12_no_forecast_witness :
  Forall (fun e => inWindow Samples.clockNow 30 e = false)
         [{| timestamp := (Samples.clockNow + 1)%Z; amount := Fin (-20);
             category := None; description := None |}]
  /\ forecastCashflow Samples.clockNow (Fin 500)
       [{| timestamp := (Samples.clockNow + 1)%Z; amount := Fin (-20);
           category := None; description := None |}]
       (Fin 7) 30 (Fin 0.95) = None.
Proof.
  assert (H : Forall (fun e => inWindow Samples.clockNow 30 e = false)
                [{| timestamp := (Samples.clockNow + 1)%Z; amount := Fin (-20);
                    category := None; description := None |}])
    by (repeat constructor).
  split; [exact H|].
  exact (X12_no_forecast_without_events Samples.clockNow (Fin 500) _ (Fin 7) 30 (Fin 0.95) H).
Defined.

Lemma cashflow_getZValue_positive (confidenceLevel : number) :
  exists z : R, getZValue confidenceLevel = Fin z /\ (0 < z)%R.
Proof.
  unfold getZValue.
  repeat match goal with |- context [if ?c then _ else _] => destruct c end;
    eexists; (split; [reflexivity | lra]).
Qed.

(** The error margin of the cashflow forecast is a positive quantile
    times a deviation times a square root. *)
Lemma cashflow_margin_shape (daily : list number) (horizonDays confidenceLevel : number) :
  deviationShape
    (getZValue confidenceLevel
     * (if (2 <=? List.length daily)%nat then standardDeviation daily else Fin 0)
     * Math.sqrt horizonDays).
Proof.
  destruct (cashflow_getZValue_positive confidenceLevel) as (z & -> & Hz).
  apply deviationShape_mul; [|apply sqrt_shape].
  apply deviationShape_mul; [now apply deviationShape_positive|].
  destruct (2 <=? List.length daily)%nat; [apply standardDeviation_shape|].
  right; right. exists 0%R. split; [reflexivity | lra].
Qed.

(** X13.  The interval of a cashflow forecast is never inverted: the
    error margin is NaN, [+Infinity] or at least 0, the upper bound is
    never below the lower bound, and the expected ending balance is never
    below the lower bound nor above the upper bound. *)
Theorem X13_cashflow_interval :
  forall (now : Z) (startingBalance : number) (events : list CashflowEvent)
         (horizonDays : number) (lookbackDays : nat) (confidenceLevel : number)
         (r : CashflowForecastResult),
    forecastCashflow now startingBalance events horizonDays lookbackDays confidenceLevel
    = Some r ->
    nanOrNotNegative (errorMargin r) = true
    /\ (upperBound r <? lowerBound r) = false
    /\ (expectedEndingBalance r <? lowerBound r) = false
    /\ (upperBound r <? expectedEndingBalance r) = false.
Proof.
  intros now startingBalance events horizonDays lookbackDays confidenceLevel r.
  unfold forecastCashflow.
  destruct (negb _); [discriminate|]. intros [= <-].
  cbn [errorMargin upperBound lowerBound expectedEndingBalance].
  pose proof (cashflow_margin_shape (toDailyNetFlows now events lookbackDays)
                horizonDays confidenceLevel) as Hshape.
  set (err := getZValue confidenceLevel * _ * _) in *.
  set (E := startingBalance + _).
  split; [now apply shape_nanOrNotNegative|].
  clearbody err E.
  destruct Hshape as [-> | [-> | (v & -> & Hv)]]; destruct E as [e| | |];
    repeat split; num_cases.
Qed.

Lemma dailyExpenses_forecast (confidenceLevel : number) :
  exists r,
    forecastCashflow Samples.clockNow (Fin 500) Samples.dailyExpenses (Fin 7) 30
      confidenceLevel
    = Some r.
Proof.
  unfold forecastCashflow. rewrite thirtyDaysOfExpenses.
  replace (existsb (fun v => v !== 0) (repeat (Fin (0 + -20)) 30)) with true
    by (symmetry; cbn [repeat existsb]; apply orb_true_iff; left;
        cbn [Num.neqb Num.eqb]; apply negb_true_iff, Reqb_false; lra).
  cbn [negb]. eexists. reflexivity.
Qed.

Lemma X13_cashflow_interval_witness :
  exists r,
    forecastCashflow Samples.clockNow (Fin 500) Samples.dailyExpenses (Fin 7) 30 (Fin 0.95)
    = Some r
    /\ (upperBound r <? lowerBound r) = false.
Proof.
  destruct (dailyExpenses_forecast (Fin 0.95)) as [r Hr]. exists r. split; [exact Hr|].
  exact (proj1 (proj2 (X13_cashflow_interval _ _ _ _ _ _ r Hr))).
Defined.

End CashflowBucketProofs.

Section NormalCdfProofs.
Import SimpleStatistics cashflowEngine CashflowSpec RiskSpec.

(** The polynomial of the Abramowitz and Stegun approximation on
    [[0, 1]]. *)
Lemma cdf_polynomial (t : R) :
  (0 <= t <= 1)%R ->
  (0 <= 0.3193815 + t * (-0.3565638 + t * (1.781478 + t * (-1.821256 + t * 1.330274)))
   <= 1.75)%R.
Proof.
  intros Ht.
  set (a := (-1.821256 + t * 1.330274)%R).
  assert (Ha : (a <= -0.49)%R) by (subst a; lra).
  assert (Hta : (-0.6235 <= t * a <= 0)%R).
  { subst a. pose proof (Rle_0_sqr (t - 0.6845)) as Hs. unfold Rsqr in Hs. split; nra. }
  set (b := (1.781478 + t * a)%R).
  assert (Hb : (1.157 <= b <= 1.781478)%R) by (subst b; lra).
  assert (Htb : (0 <= t * b <= 1.781478)%R) by (split; nra).
  split; [|nra].
  assert (Hq : (0 <= 0.3193815 - 0.3565638 * t + 1.157 * (t * t))%R).
  { pose proof (Rle_0_sqr (t - 0.154)) as Hs. unfold Rsqr in Hs. nra. }
  nra.
Qed.

Lemma exp_unit (x : R) : (x <= 0)%R -> (0 < exp x <= 1)%R.
Proof.
  intros Hx. split; [apply exp_pos|].
  rewrite <- exp_0. destruct Hx as [Hlt | ->]; [left; now apply exp_increasing | right; reflexivity].
Qed.

Lemma unit_fraction (u : R) : (0 <= u)%R -> (0 < 1 / (1 + u) <= 1)%R.
Proof.
  intros Hu. assert (H1 : (0 < 1 + u)%R) by lra. split.
  - apply Rdiv_lt_0_compat; lra.
  - apply (Rmult_le_reg_r (1 + u)); [exact H1|].
    unfold Rdiv. rewrite Rmult_assoc, Rinv_l by lra. lra.
Qed.

(** On a finite argument the approximation of the normal CDF is a
    finite value from 0 to 1. *)
Lemma normalCdf_finite (x : R) :
  exists p : R, normalCdf (Fin x) = Fin p /\ (0 <= p <= 1)%R.
Proof.
  unfold normalCdf. cbn [Math.abs Num.mul Num.add Num.neg].
  assert (Hu : (0 <= 0.2316419 * Rabs x)%R) by (pose proof (Rabs_pos x); nra).
  pose proof (unit_fraction _ Hu) as Ht.
  cbn [Num.div].
  replace (Reqb (1 + 0.2316419 * Rabs x) 0) with false by (symmetry; apply Reqb_false; lra).
  replace (Reqb 2 0) with false by (symmetry; apply Reqb_false; lra).
  set (t := (1 / (1 + 0.2316419 * Rabs x))%R) in *.
  assert (He : (0 < exp (- x * x / 2) <= 1)%R) by (apply exp_unit; nra).
  cbn [Math.exp Num.mul Num.add].
  set (e := exp (- x * x / 2)) in *.
  pose proof (cdf_polynomial t ltac:(lra)) as Hp.
  set (poly := (0.3193815 + t * (-0.3565638 + t * (1.781478 + t * (-1.821256 + t * 1.330274))))%R) in *.
  assert (Hprod : (0 <= 0.3989423 * e * t * poly <= 0.7)%R).
  { assert (0 <= e * t <= 1)%R by nra.
    assert (0 <= (e * t) * poly <= 1.75)%R by nra. nra. }
  destruct (Fin x >? 0); cbn [Num.sub Num.neg Num.add];
    eexists; (split; [reflexivity | lra]).
Qed.

(** The approximation of the normal CDF is a probability at every
    finite or infinite argument. *)
Lemma normalCdf_probability (z : number) : probabilityOrNaN (normalCdf z) = true.
Proof.
  destruct z as [x| | |].
  - destruct (normalCdf_finite x) as (p & -> & Hp). unfold probabilityOrNaN.
    cbn [Num.is_nan orb]. apply andb_true_iff; split; apply leb_fin_true; lra.
  - unfold normalCdf, probabilityOrNaN. num_cases.
  - unfold normalCdf, probabilityOrNaN. num_cases.
  - reflexivity.
Qed.

Lemma unit_probability (b : bool) :
  exists p : R, (if b then Fin 1 else Fin 0) = Fin p /\ (0 <= p <= 1)%R.
Proof. destruct b; eexists; (split; [reflexivity | lra]). Qed.

(** X14.  The overdraft probability of a cashflow forecast is a
    probability, on every input: NaN or a value from 0 to 1. *)
Theorem X14_overdraft_probability :
  forall (now : Z) (startingBalance : number) (events : list CashflowEvent)
         (horizonDays : number) (lookbackDays : nat) (confidenceLevel : number)
         (r : CashflowForecastResult),
    forecastCashflow now startingBalance events horizonDays lookbackDays confidenceLevel
    = Some r ->
    probabilityOrNaN (probabilityOfOverdraft r) = true.
Proof.
  intros now startingBalance events horizonDays lookbackDays confidenceLevel r.
  unfold forecastCashflow.
  destruct (negb _) eqn:Hsome; [discriminate|].
  set (sigma := if (2 <=? _)%nat then _ else _).
  intros [= <-]. cbn [probabilityOfOverdraft].
  match goal with
  | |- context [if ?c then normalCdf _ else _] => destruct c
  end; [apply normalCdf_probability|].
  match goal with
  | |- context [if ?c then Fin 1 else Fin 0] => destruct c
  end; unfold probabilityOrNaN; num_cases.
Qed.

Lemma X14_overdraft_witness :
  exists r,
    forecastCashflow Samples.clockNow (Fin 500) Samples.dailyExpenses (Fin 7) 30 (Fin 0.95)
    = Some r
    /\ probabilityOrNaN (probabilityOfOverdraft r) = true.
Proof.
  destruct (dailyExpenses_forecast (Fin 0.95)) as [r Hr]. exists r. split; [exact Hr|].
  exact (X14_overdraft_probability _ _ _ _ _ _ r Hr).
Defined.

End NormalCdfProofs.

(** ** The cashflow forecast: the confidence level *)

Section CashflowConfidenceProofs.
Import SimpleStatistics cashflowEngine RiskSpec.

Lemma geb_monotone (x y : number) (c : R) :
  (x <=? y) = true -> (x >=? Fin c) = true -> (y >=? Fin c) = true.
Proof. unfold Num.geb. intros Hxy Hc. exact (leb_trans _ _ _ Hc Hxy). Qed.

(** The quantile does not go down when the confidence level goes up. *)
Lemma cashflow_getZValue_monotone (c c' : number) :
  (c <=? c') = true ->
  exists z z' : R,
    getZValue c = Fin z /\ getZValue c' = Fin z' /\ (0 < z <= z')%R.
Proof.
  intros Hc. unfold getZValue.
  pose proof (geb_monotone _ _ 0.99 Hc) as H1.
  pose proof (geb_monotone _ _ 0.95 Hc) as H2.
  pose proof (geb_monotone _ _ 0.90 Hc) as H3.
  destruct (c >=? 0.99); [rewrite H1 by reflexivity|];
    [| destruct (c >=? 0.95); [rewrite ?H2 by reflexivity|];
       [| destruct (c >=? 0.90); [rewrite ?H3 by reflexivity|]]];
    repeat match goal with |- context [if ?b then _ else _] => destruct b end;
    do 2 eexists; (split; [reflexivity | split; [reflexivity | lra]]).
Qed.

Lemma margin_monotone (z z' : R) (sigma scale : number) :
  (0 < z <= z')%R -> deviationShape sigma -> deviationShape scale ->
  (Fin z' * sigma * scale <? Fin z * sigma * scale) = false
  /\ (Num.is_nan (Fin z * sigma * scale) = false ->
      (Fin z * sigma * scale <=? Fin z' * sigma * scale) = true).
Proof.
  intros Hz [-> | [-> | (s & -> & Hs)]] [-> | [-> | (k & -> & Hk)]];
    try (assert (0 <= s * k)%R by nra);
    (split; [| intros Hnan; revert Hnan]); num_cases.
Qed.

(** X30.  A higher confidence level never narrows the interval of the
    cashflow forecast: with everything else the same, the error margin at
    the higher level is not below the margin at the lower level (and is at
    least that margin when the margin is a number), while the expected
    ending balance is the same. *)
Theorem X30_cashflow_margin_monotone :
  forall (now : Z) (startingBalance : number) (events : list CashflowEvent)
         (horizonDays : number) (lookbackDays : nat) (level level' : number)
         (r r' : CashflowForecastResult),
    (level <=? level') = true ->
    forecastCashflow now startingBalance events horizonDays lookbackDays level = Some r ->
    forecastCashflow now startingBalance events horizonDays lookbackDays level' = Some r' ->
    (errorMargin r' <? errorMargin r) = false
    /\ (Num.is_nan (errorMargin r) = false -> (errorMargin r <=? errorMargin r') = true)
    /\ expectedEndingBalance r' = expectedEndingBalance r.
Proof.
  intros now startingBalance events horizonDays lookbackDays level level' r r' Hlevel.
  unfold forecastCashflow.
  destruct (negb _); [discriminate|].
  set (sigma := if (2 <=? _)%nat then _ else _).
  intros [= <-] [= <-]. cbn [errorMargin expectedEndingBalance].
  destruct (cashflow_getZValue_monotone level level' Hlevel) as (z & z' & -> & -> & Hz).
  assert (Hsigma : deviationShape sigma).
  { subst sigma. destruct (2 <=? _)%nat; [apply standardDeviation_shape|].
    right; right. exists 0%R. split; [reflexivity | lra]. }
  destruct (margin_monotone z z' sigma (Math.sqrt horizonDays) Hz Hsigma (sqrt_shape _))
    as [Hlt Hle].
  split; [exact Hlt | split; [exact Hle | reflexivity]].
Qed.

Lemma X30_cashflow_margin_witness :
  (Fin 0.90 <=? Fin 0.95) = true
  /\ exists r r',
       forecastCashflow Samples.clockNow (Fin 500) Samples.dailyExpenses (Fin 7) 30 (Fin 0.90)
       = Some r
       /\ forecastCashflow Samples.clockNow (Fin 500) Samples.dailyExpenses (Fin 7) 30 (Fin 0.95)
          = Some r'
       /\ (errorMargin r' <? errorMargin r) = false.
Proof.
  assert (Hlevel : (Fin 0.90 <=? Fin 0.95) = true) by (apply leb_fin_true; lra).
  split; [exact Hlevel|].
  destruct (dailyExpenses_forecast (Fin 0.90)) as [r Hr].
  destruct (dailyExpenses_forecast (Fin 0.95)) as [r' Hr'].
  exists r, r'. split; [exact Hr | split; [exact Hr'|]].
  exact (proj1 (X30_cashflow_margin_monotone _ _ _ _ _ _ _ r r' Hlevel Hr Hr')).
Defined.

End CashflowConfidenceProofs.

(** ** The decision engine: the probability of loss *)

Section DecisionRangeProofs.
Import forecastEngine riskMetrics decisionEngine RiskSpec DecisionSpec.

(** The polynomial of the error-function approximation on [[0, 1]]. *)
Lemma erf_polynomial (t : R) :
  (0 <= t <= 1)%R ->
  (0 <= (((((1.061405429 * t + -1.453152027) * t) + 1.421413741) * t + -0.284496736) * t
         + 0.254829592) * t <= 1.4)%R.
Proof.
  intros Ht.
  set (a := (1.061405429 * t + -1.453152027)%R).
  assert (Ha : (a <= -0.39)%R) by (subst a; lra).
  assert (Hta : (-0.4975 <= a * t <= 0)%R).
  { subst a. pose proof (Rle_0_sqr (t - 0.6845)) as Hs. unfold Rsqr in Hs. split; nra. }
  set (b := (a * t + 1.421413741)%R).
  assert (Hb : (0.9239 <= b <= 1.421413741)%R) by (subst b; lra).
  assert (Hbt : (0 <= b * t <= 1.421413741)%R) by (split; nra).
  set (c := (b * t + -0.284496736)%R).
  assert (Hct : (c * t + 0.254829592 <= 1.4)%R) by (subst c; nra).
  assert (Hq : (0 <= 0.254829592 - 0.284496736 * t + 0.9239 * (t * t))%R).
  { pose proof (Rle_0_sqr (t - 0.154)) as Hs. unfold Rsqr in Hs. nra. }
  assert (Hc0 : (0 <= c * t + 0.254829592)%R) by (subst c; nra).
  split; nra.
Qed.

Lemma sqrt2_positive : (0 < sqrt 2)%R.
Proof. apply sqrt_lt_R0. lra. Qed.

Lemma normalCDF_finite (x : R) :
  exists p : R, normalCDF (Fin x) = Fin p /\ (0 <= p <= 1)%R.
Proof.
  unfold normalCDF. pose proof sqrt2_positive as H2.
  rewrite sqrt_const by lra. cbn [Math.abs Num.div].
  replace (Reqb (sqrt 2) 0) with false by (symmetry; apply Reqb_false; lra).
  set (u := (Rabs x / sqrt 2)%R).
  assert (Hu : (0 <= u)%R).
  { subst u. apply Rmult_le_pos; [apply Rabs_pos | left; now apply Rinv_0_lt_compat]. }
  cbn [Num.mul Num.add].
  assert (Hpu : (0 <= 0.3275911 * u)%R) by nra.
  pose proof (unit_fraction _ Hpu) as Ht.
  cbn [Num.div].
  replace (Reqb (1 + 0.3275911 * u) 0) with false by (symmetry; apply Reqb_false; lra).
  set (t := (1 / (1 + 0.3275911 * u))%R) in *.
  cbn [Num.neg Num.mul Num.add Math.exp Num.sub].
  assert (He : (0 < exp (- u * u) <= 1)%R) by (apply exp_unit; nra).
  set (e := exp (- u * u)) in *.
  pose proof (erf_polynomial t ltac:(lra)) as Hp.
  set (poly := ((((((1.061405429 * t + -1.453152027) * t) + 1.421413741) * t + -0.284496736) * t
                + 0.254829592) * t)%R) in *.
  assert (Hprod : (0 <= poly * e <= 1.4)%R) by nra.
  destruct (Fin x <? 0); cbn [Num.mul Num.add]; eexists; (split; [reflexivity | lra]).
Qed.

Lemma normalCDF_probability (z : number) : probabilityOrNaN (normalCDF z) = true.
Proof.
  destruct z as [x| | |].
  - destruct (normalCDF_finite x) as (p & -> & Hp). unfold probabilityOrNaN.
    cbn [Num.is_nan orb]. apply andb_true_iff; split; apply leb_fin_true; lra.
  - unfold normalCDF. pose proof sqrt2_positive as H2. rewrite sqrt_const by lra.
    unfold probabilityOrNaN. num_cases.
  - unfold normalCDF. pose proof sqrt2_positive as H2. rewrite sqrt_const by lra.
    unfold probabilityOrNaN. num_cases.
  - reflexivity.
Qed.

(** X15.  The probability of loss is a probability: NaN or a value from
    0 to 1 for every forecast and position value, and a finite value from
    0 to 1 when the expected value and the error margin of the forecast
    are finite. *)
Theorem X15_probability_of_loss_range :
  forall (forecast : ForecastResult) (positionValue : number),
    probabilityOrNaN (calculateProbabilityOfLoss forecast positionValue) = true
    /\ (Num.is_finite (expectedValue forecast) = true ->
        Num.is_finite (errorMargin forecast) = true ->
        exists p : R,
          calculateProbabilityOfLoss forecast positionValue = Fin p /\ (0 <= p <= 1)%R).
Proof.
  intros forecast positionValue. unfold calculateProbabilityOfLoss. split.
  - destruct (positionValue === 0); [unfold probabilityOrNaN; num_cases|].
    destruct (_ === 0); [|apply normalCDF_probability].
    destruct (_ <? 0); unfold probabilityOrNaN; num_cases.
  - intros HE Hm.
    destruct (expectedValue forecast) as [E| | |]; try discriminate.
    destruct (errorMargin forecast) as [m| | |]; try discriminate.
    destruct (positionValue === 0); [exists 0%R; split; [reflexivity | lra]|].
    cbn [Num.div]. replace (Reqb 1.96 0) with false by (symmetry; apply Reqb_false; lra).
    cbn [Num.eqb]. destruct (Reqb (m / 1.96) 0) eqn:Hz; [apply unit_probability|].
    cbn [Num.sub Num.neg Num.add Num.div]. rewrite Hz. apply normalCDF_finite.
Qed.

Lemma X15_probability_of_loss_witness :
  Num.is_finite (expectedValue Samples.forecast100) = true
  /\ Num.is_finite (errorMargin Samples.forecast100) = true
  /\ exists p : R,
       calculateProbabilityOfLoss Samples.forecast100 (Fin 1000) = Fin p /\ (0 <= p <= 1)%R.
Proof.
  split; [reflexivity | split; [reflexivity|]].
  exact (proj2 (X15_probability_of_loss_range Samples.forecast100 (Fin 1000)) eq_refl eq_refl).
Defined.

End DecisionRangeProofs.

(** ** The decision engine: scores, urgency and alternatives *)

Section DecisionShapeProofs.
Import forecastEngine riskMetrics decisionEngine RiskSpec DecisionSpec.

(** X16.  The confidence score is a percentage whatever goes in: NaN or
    a value from 0 to 100, for every data quality, forecast and risk
    record. *)
Theorem X16_confidence_score_range :
  forall (dataQuality : number) (forecast : ForecastResult) (risk : RiskMetrics),
    percentOrNaN (calculateConfidenceScore dataQuality forecast risk) = true.
Proof.
  intros dataQuality forecast risk. unfold calculateConfidenceScore.
  set (score := dataQuality - _ - _). clearbody score.
  unfold percentOrNaN. destruct score as [s| | |]; num_cases.
Qed.

Lemma capped_loss (cap : R) (x : number) :
  (0 <= cap)%R -> nanOrNotNegative x = true ->
  Math.min (Fin cap) x = NaN
  \/ exists v : R, Math.min (Fin cap) x = Fin v /\ (0 <= v <= cap)%R.
Proof.
  intros Hcap. destruct x as [a| | |]; unfold nanOrNotNegative; cbn [Num.is_nan orb].
  - intros Ha. apply leb_fin_true in Ha. right.
    unfold Math.min. cbn [Num.is_nan orb Num.ltb].
    destruct (Rltb a cap) eqn:Hc.
    + apply Rltb_true in Hc. exists a. split; [reflexivity | lra].
    + exists cap. split; [reflexivity | lra].
  - intros _. right. exists cap. split; [reflexivity | lra].
  - discriminate.
  - intros _. now left.
Qed.

(** X17.  For an uncertainty and a volatility that are not negative the
    data quality is a percentage: NaN or a value from 0 to 100. *)
Theorem X17_data_quality_range :
  forall (forecast : ForecastResult) (risk : RiskMetrics)
         (priceData : MarketData.ProcessedPriceData),
    nanOrNotNegative (MarketData.relativeUncertainty priceData) = true ->
    nanOrNotNegative (volatility risk) = true ->
    percentOrNaN (calculateDataQuality forecast risk priceData) = true.
Proof.
  intros forecast risk priceData Hu Hv. unfold calculateDataQuality.
  assert (Hu' : nanOrNotNegative (MarketData.relativeUncertainty priceData * 3000) = true)
    by (apply scaled_nanOrNotNegative; [lra | exact Hu]).
  assert (Hv' : nanOrNotNegative (volatility risk * 40) = true)
    by (apply scaled_nanOrNotNegative; [lra | exact Hv]).
  destruct (capped_loss 30 _ ltac:(lra) Hu') as [-> | (a & -> & Ha)];
    destruct (capped_loss 20 _ ltac:(lra) Hv') as [-> | (b & -> & Hb)];
    destruct (MarketData.isStale priceData); destruct (inputDataPoints forecast <? 20);
    unfold percentOrNaN; num_cases.
Qed.

Lemma X17_data_quality_witness :
  nanOrNotNegative (MarketData.relativeUncertainty Samples.freshPrice) = true
  /\ nanOrNotNegative (volatility Samples.stressedRisk) = true
  /\ percentOrNaN (calculateDataQuality Samples.forecast100 Samples.stressedRisk
                     Samples.freshPrice) = true.
Proof.
  assert (Hu : nanOrNotNegative (MarketData.relativeUncertainty Samples.freshPrice) = true)
    by (apply shape_nanOrNotNegative; right; right; exists 0.0005%R;
        split; [reflexivity | lra]).
  assert (Hv : nanOrNotNegative (volatility Samples.stressedRisk) = true)
    by (apply shape_nanOrNotNegative; right; right; exists 0.6%R;
        split; [reflexivity | lra]).
  split; [exact Hu | split; [exact Hv|]].
  exact (X17_data_quality_range Samples.forecast100 Samples.stressedRisk Samples.freshPrice
           Hu Hv).
Defined.

Lemma gtb_monotone (x y : number) (c : R) :
  (x <=? y) = true -> (x >? Fin c) = true -> (y >? Fin c) = true.
Proof. destruct x as [a| | |], y as [b| | |]; num_cases. Qed.

(** X18.  The urgency is monotone: when neither the VaR nor the
    probability of loss goes down, the urgency does not go down. *)
Theorem X18_urgency_monotone :
  forall (risk risk' : RiskMetrics) (probLoss probLoss' : number),
    (var95 risk <=? var95 risk') = true ->
    (probLoss <=? probLoss') = true ->
    (urgencyRank (determineUrgency risk probLoss)
     <= urgencyRank (determineUrgency risk' probLoss'))%nat.
Proof.
  intros risk risk' probLoss probLoss' Hv Hp. unfold determineUrgency.
  pose proof (gtb_monotone _ _ 0.15 Hv) as Hv1.
  pose proof (gtb_monotone _ _ 0.1 Hv) as Hv2.
  pose proof (gtb_monotone _ _ 0.05 Hv) as Hv3.
  pose proof (gtb_monotone _ _ 0.3 Hp) as Hp1.
  pose proof (gtb_monotone _ _ 0.2 Hp) as Hp2.
  pose proof (gtb_monotone _ _ 0.1 Hp) as Hp3.
  destruct (var95 risk >? 0.15); [rewrite Hv1 by reflexivity; cbn; lia|].
  destruct (probLoss >? 0.3); [rewrite Hp1 by reflexivity; rewrite !orb_true_r; cbn; lia|].
  cbn [orb].
  destruct (var95 risk >? 0.1).
  { rewrite Hv2 by reflexivity. cbn [orb]. destruct (_ || _); cbn; lia. }
  destruct (probLoss >? 0.2).
  { rewrite Hp2 by reflexivity. rewrite !orb_true_r. destruct (_ || _); cbn; lia. }
  cbn [orb].
  destruct (var95 risk >? 0.05).
  { rewrite Hv3 by reflexivity. cbn [orb].
    repeat match goal with |- context [if ?c then _ else _] => destruct c end; cbn; lia. }
  destruct (probLoss >? 0.1).
  { rewrite Hp3 by reflexivity. rewrite !orb_true_r.
    repeat match goal with |- context [if ?c then _ else _] => destruct c end; cbn; lia. }
  cbn. lia.
Qed.

Lemma X18_urgency_witness :
  (var95 Scenarios.leveragedRisk <=? var95 Samples.stressedRisk) = true
  /\ (Fin 0.05 <=? Fin 0.25) = true
  /\ (urgencyRank (determineUrgency Scenarios.leveragedRisk (Fin 0.05))
      <= urgencyRank (determineUrgency Samples.stressedRisk (Fin 0.25)))%nat.
Proof.
  assert (Hv : (var95 Scenarios.leveragedRisk <=? var95 Samples.stressedRisk) = true)
    by (apply leb_fin_true; lra).
  assert (Hp : (Fin 0.05 <=? Fin 0.25) = true) by (apply leb_fin_true; lra).
  split; [exact Hv | split; [exact Hp|]].
  exact (X18_urgency_monotone Scenarios.leveragedRisk Samples.stressedRisk
           (Fin 0.05) (Fin 0.25) Hv Hp).
Defined.

(** X19.  The alternatives never repeat the recommendation itself and
    never offer a type twice; they are drawn from hold, reduce exposure
    and increase stable only, and holding is offered exactly when the
    recommendation is not to hold. *)
Theorem X19_alternatives_exclude_recommendation :
  forall (currentType : DecisionType) (forecast : ForecastResult) (risk : RiskMetrics)
         (positionValue : number),
    let types := offered (generateAlternatives currentType forecast risk positionValue) in
    existsb (isType currentType) types = false
    /\ List.NoDup types
    /\ existsb (isType take_profit) types = false
    /\ existsb (isType add_collateral) types = false
    /\ existsb (isType hold) types = negb (isType currentType hold).
Proof.
  intros currentType forecast risk positionValue. unfold generateAlternatives, offered.
  destruct currentType; destruct (var95 risk >? 0.05); destruct (volatility risk >? 0.3);
    cbn; (split; [reflexivity | split; [| repeat split]]); try reflexivity;
    repeat (apply List.NoDup_cons; [cbn; intuition discriminate|]); apply List.NoDup_nil.
Qed.

(** X20.  A recommendation to add collateral is never of low or medium
    urgency: it asks for a deposit of 1.5 times the position's VaR, and its
    urgency is high or critical. *)
Theorem X20_add_collateral_is_urgent :
  forall (now : Z) (sym : string) (forecast : ForecastResult) (risk : RiskMetrics)
         (positionValue : number) (priceData : MarketData.ProcessedPriceData),
    let d := generateDecision now sym forecast risk positionValue priceData in
    type d = add_collateral ->
    (2 <= urgencyRank (urgency d))%nat
    /\ action_type (suggestedAction d) = "deposit"%string
    /\ action_amount (suggestedAction d) = positionValue * var95 risk * 1.5.
Proof.
  intros now sym forecast risk positionValue priceData d. subst d.
  unfold generateDecision. cbn [type urgency suggestedAction]. intros Htype. rewrite Htype.
  cbn [buildSuggestedAction action_type action_amount].
  split; [|split; reflexivity].
  assert (Hvar : (var95 risk >? 0.1) = true).
  { revert Htype. unfold determineDecisionType.
    destruct (_ && _); [discriminate|].
    destruct (var95 risk >? 0.1); [reflexivity|].
    destruct (currentDrawdown risk >? 0.15); [discriminate|].
    destruct (relativeUncertainty risk >? 0.02); [discriminate|].
    destruct (_ && _); discriminate. }
  unfold determineUrgency. rewrite Hvar. cbn [orb].
  destruct (_ || _); cbn; lia.
Qed.

Lemma X20_add_collateral_witness :
  type (generateDecision 0 "SOL" Samples.forecast100 Scenarios.leveragedRisk (Fin 1000)
          Samples.freshPrice) = add_collateral
  /\ (2 <= urgencyRank
             (urgency (generateDecision 0 "SOL" Samples.forecast100 Scenarios.leveragedRisk
                         (Fin 1000) Samples.freshPrice)))%nat.
Proof.
  assert (Htype : type (generateDecision 0 "SOL" Samples.forecast100 Scenarios.leveragedRisk
                          (Fin 1000) Samples.freshPrice) = add_collateral).
  { unfold generateDecision. cbn [type].
    unfold determineDecisionType, Scenarios.leveragedRisk, Samples.forecast100.
    cbn [volatility var95]. num_eval. }
  split; [exact Htype|].
  exact (proj1 (X20_add_collateral_is_urgent 0 "SOL" Samples.forecast100
                  Scenarios.leveragedRisk (Fin 1000) Samples.freshPrice Htype)).
Defined.

End DecisionShapeProofs.

(** ** The allocator: the candidate fractions *)

Section SearchProofs.
Import riskMetrics portfolioOptimizer AllocationSpec SearchSpec.

(** From a start that the loop accepts, the steps taken fit between the
    start and the end of the loop. *)
Lemma candidatesFrom_length (n : nat) (st : R) :
  (0 < st)%R ->
  forall (x : R) (l : list number),
    candidatesFrom n (Fin x) (Fin st) = Some l ->
    l = [] \/ ((INR (List.length l) - 1) * st <= 1 + 1e-9 - x)%R.
Proof.
  intros Hst. induction n as [|n IH]; intros x l; [discriminate|].
  change (candidatesFrom (S n) (Fin x) (Fin st))
    with (if Fin x <=? 1 + 1e-9 then
            match candidatesFrom n (Fin x + Fin st) (Fin st) with
            | Some rest => Some (Math.min 1 (Math.max 0 (toFixed4 (Fin x))) :: rest)
            | None => None
            end
          else Some []).
  destruct (Fin x <=? 1 + 1e-9) eqn:Hx; [|intros [= <-]; now left].
  change (Fin x + Fin st) with (Fin (x + st)).
  destruct (candidatesFrom n (Fin (x + st)) (Fin st)) as [rest|] eqn:Hrest; [|discriminate].
  intros [= <-]. right.
  cbn [Num.add] in Hx. apply leb_fin_true in Hx.
  change (List.length (_ :: rest)) with (S (List.length rest)). rewrite S_INR.
  destruct (IH _ _ Hrest) as [-> | Hlen].
  - change (INR (List.length [])) with 0%R. lra.
  - lra.
Qed.

(** X21.  The candidate fractions of the search, for every input: the
    loop that builds them ends, whatever [stepPct] is (absent, NaN and
    infinite included), the first candidate is 0, every candidate is a
    number from 0 to 1, and there are at most 101 of them. *)
Theorem X21_search_candidates :
  forall input : AllocationInputs,
    exists rest : list number,
      searchCandidates input = Some (Fin 0 :: rest)
      /\ Forall isFraction rest
      /\ (List.length rest <= 100)%nat.
Proof.
  intros input. unfold searchCandidates.
  set (s := match stepPct input with Some s => s | None => Fin 5 end).
  destruct (candidates_head s) as (rest & Hrest & Hok).
  exists rest. split; [exact Hrest|]. split; [exact Hok|].
  destruct (step_shape s) as [Hnan | (st & Hst & Hrange)]; cbv zeta in *.
  - rewrite Hnan in Hrest. unfold candidateFuel in Hrest.
    cbn [candidatesFrom Num.add] in Hrest.
    replace (Fin 0 <=? Fin (1 + 1e-9)) with true in Hrest
      by (symmetry; apply leb_fin_true; lra).
    injection Hrest as _ <-. cbn. lia.
  - rewrite Hst in Hrest.
    destruct (candidatesFrom_length _ st ltac:(lra) _ _ Hrest) as [[=] | Hlen].
    change (List.length (_ :: rest)) with (S (List.length rest)) in Hlen.
    rewrite S_INR in Hlen.
    destruct (le_lt_dec (List.length rest) 100) as [Hle | Hgt]; [exact Hle|].
    apply (le_INR 101) in Hgt.
    replace (INR 101) with 101%R in Hgt by (rewrite INR_IZR_INZ; reflexivity).
    nra.
Qed.

End SearchProofs.

(** ** The price oracle *)

Section OracleProofs.
Import MarketData pyth.

(** X23.  For every feed, whatever its strings convert to, the safety
    check on the processed data agrees with its [isValid] flag except on
    an uncertainty that is NaN, which is not valid but passes the check;
    data that is stale or has a price of exactly 0 is neither valid nor
    safe. *)
Theorem X23_price_safety_and_validity :
  forall (toNumber : string -> number) (now : Z) (feed : PythPriceFeed),
    let d := processPriceFeed toNumber now feed in
    isPriceDataSafe d
    = (isValid d || (negb (isStale d) && Num.is_nan (relativeUncertainty d)))
    /\ isStale d && (isValid d || isPriceDataSafe d) = false
    /\ (price d === 0) && (isValid d || isPriceDataSafe d) = false.
Proof.
  intros toNumber now feed d. subst d. unfold processPriceFeed, isPriceDataSafe.
  cbn [isStale isValid relativeUncertainty price].
  set (priceValue := toNumber _ * pow10 _).
  set (confidenceValue := toNumber _ * pow10 _).
  set (stale := Fin (IZR _) >? STALE_THRESHOLD_MS).
  unfold MAX_ACCEPTABLE_UNCERTAINTY.
  split; [|split].
  - destruct stale; [reflexivity|]. cbn [negb andb].
    destruct (if priceValue !== 0 then confidenceValue / Math.abs priceValue else PInf)
      as [u| | |]; num_cases.
  - destruct stale; reflexivity.
  - unfold Num.neqb. destruct (priceValue === 0); [|reflexivity].
    cbn [negb andb]. destruct stale; reflexivity.
Qed.

(** X24.  The table of supported tokens works as a one-to-one
    dictionary: a symbol or a feed id that is not in the table gives no
    feed id (the source throws) and the symbol "UNKNOWN", and for each
    entry of the table the feed id found for its symbol and the symbol
    found for its feed id are the entry's own. *)
Theorem X24_feed_id_round_trip :
  forall sym feedId : string,
    existsb (fun t => String.eqb (token_symbol t) sym) SUPPORTED_TOKENS = false ->
    existsb (fun t => String.eqb (pythFeedId t) feedId) SUPPORTED_TOKENS = false ->
    getFeedIdForSymbol sym = None
    /\ getSymbolForFeedId feedId = "UNKNOWN"%string
    /\ Forall (fun t => getFeedIdForSymbol (token_symbol t) = Some (pythFeedId t)
                        /\ getSymbolForFeedId (pythFeedId t) = token_symbol t)
              SUPPORTED_TOKENS.
Proof.
  intros sym feedId Hsym Hfeed. split; [|split; [|repeat constructor]].
  - unfold getFeedIdForSymbol.
    destruct (List.find _ _) as [t|] eqn:Hfind; [|reflexivity].
    apply find_some in Hfind. destruct Hfind as [Hin Heq].
    assert (Hex : existsb (fun t => String.eqb (token_symbol t) sym) SUPPORTED_TOKENS = true)
      by (apply existsb_exists; now exists t).
    congruence.
  - unfold getSymbolForFeedId.
    destruct (List.find _ _) as [t|] eqn:Hfind; [|reflexivity].
    apply find_some in Hfind. destruct Hfind as [Hin Heq].
    assert (Hex : existsb (fun t => String.eqb (pythFeedId t) feedId) SUPPORTED_TOKENS = true)
      by (apply existsb_exists; now exists t).
    congruence.
Qed.

Lemma X24_feed_id_witness :
  existsb (fun t => String.eqb (token_symbol t) "DOGE") SUPPORTED_TOKENS = false
  /\ existsb (fun t => String.eqb (pythFeedId t) "00") SUPPORTED_TOKENS = false
  /\ getFeedIdForSymbol "DOGE" = None
  /\ getSymbolForFeedId "00" = "UNKNOWN"%string.
Proof.
  split; [reflexivity | split; [reflexivity|]].
  destruct (X24_feed_id_round_trip "DOGE" "00" eq_refl eq_refl) as (Hsym & Hfeed & _).
  split; [exact Hsym | exact Hfeed].
Defined.

End OracleProofs.

(** ** The policy engine *)

Section PolicyProofs.
Import policyEngine.

(** Whatever decides, it is the default action or the action of an
    active rule whose condition holds. *)
Lemma firstApplicable_origin (toNumber : string -> number) (hour : number)
    (policies : list PolicyRule) (context : Context) (r : PolicyAction) :
  firstApplicable toNumber hour policies context = Some r ->
  r = defaultAction
  \/ exists policy,
       In policy policies
       /\ evaluateCondition toNumber hour (condition policy) context = Some true
       /\ action policy = r.
Proof.
  induction policies as [|policy rest IH]; cbn [firstApplicable].
  - intros [= <-]. now left.
  - destruct (evaluateCondition toNumber hour (condition policy) context) as [[|]|] eqn:Hc;
      [| |discriminate].
    + intros [= <-]. right. exists policy. split; [now left | auto].
    + intros Hr. destruct (IH Hr) as [-> | (p & Hin & Hp)]; [now left|].
      right. exists p. split; [now right | exact Hp].
Qed.

(** X25.  The action that [applyPolicies] returns is never made up and
    never taken from a rule that is switched off: it is the default
    (require approval) or the action of an active rule of the list whose
    condition holds in the context. *)
Theorem X25_policy_action_origin :
  forall (toNumber : string -> number) (hour : number) (policies : list PolicyRule)
         (context : Context) (r : PolicyAction),
    applyPolicies toNumber hour policies context = Some r ->
    r = defaultAction
    \/ exists policy,
         In policy policies
         /\ isActive policy = true
         /\ evaluateCondition toNumber hour (condition policy) context = Some true
         /\ action policy = r.
Proof.
  intros toNumber hour policies context r Hr. unfold applyPolicies in Hr.
  destruct (firstApplicable_origin _ _ _ _ _ Hr) as [-> | (p & Hin & Hc & Ha)]; [now left|].
  right. exists p. apply List.filter_In in Hin. destruct Hin as [Hin Hact]. auto.
Qed.

Lemma X25_policy_action_witness :
  exists r,
    applyPolicies (fun _ => NaN) (Fin 12) (createDefaultPolicies 0) Scenarios.smallPayment
    = Some r
    /\ (r = defaultAction
        \/ exists policy,
             In policy (createDefaultPolicies 0)
             /\ isActive policy = true
             /\ evaluateCondition (fun _ => NaN) (Fin 12) (condition policy)
                  Scenarios.smallPayment = Some true
             /\ action policy = r).
Proof.
  assert (Hr : applyPolicies (fun _ => NaN) (Fin 12) (createDefaultPolicies 0)
                 Scenarios.smallPayment
               = Some {| act_type := block;
                         message := Some "Transaction blocked: Price uncertainty exceeds 5%"%string |}).
  { unfold applyPolicies, createDefaultPolicies. cbn [List.filter isActive].
    cbn [firstApplicable evaluateCondition condition cond_type params action].
    replace (uncertainty Scenarios.smallPayment <=? toNumeric (fun _ => NaN) _) with true;
      [reflexivity|].
    symmetry. apply leb_fin_true. lra. }
  eexists. split; [exact Hr|].
  exact (X25_policy_action_origin _ _ _ _ _ Hr).
Defined.

Lemma default_max :
  ({[ "max"%string := PNum (Fin 0.05) ]} : gmap string ParamValue) !! "max"%string
  = Some (PNum (Fin 0.05)).
Proof. reflexivity. Qed.

Lemma default_threshold :
  ({[ "threshold"%string := PNum (Fin 100); "operator"%string := PStr "gte" ]}
   : gmap string ParamValue) !! "threshold"%string
  = Some (PNum (Fin 100)).
Proof. reflexivity. Qed.

Lemma default_operator :
  ({[ "threshold"%string := PNum (Fin 100); "operator"%string := PStr "gte" ]}
   : gmap string ParamValue) !! "operator"%string
  = Some (PStr "gte").
Proof. reflexivity. Qed.

(** X26.  Under the default policies a transaction is blocked exactly
    when the price uncertainty is at most 0.05, and needs approval
    otherwise: no amount, token, hour or uncertainty is ever allowed or
    merely notified. *)
Theorem X26_default_policies_outcome :
  forall (toNumber : string -> number) (hour : number) (now : Z) (context : Context),
    option_map act_type (applyPolicies toNumber hour (createDefaultPolicies now) context)
    = Some (if uncertainty context <=? 0.05 then block else require_approval).
Proof.
  intros toNumber hour now context.
  unfold applyPolicies, createDefaultPolicies. cbn [List.filter isActive].
  cbn [firstApplicable evaluateCondition condition cond_type params action].
  rewrite default_max. cbn [toNumeric].
  destruct (uncertainty context <=? 0.05); [reflexivity|].
  rewrite default_threshold, default_operator.
  destruct (compareValues _ _ _ _); reflexivity.
Qed.

End PolicyProofs.

(** ** The store: the reported volatility *)

Section FrequencyProofs.
Import SimpleStatistics marketHistory RiskSpec.

(** X27.  The annualised volatility that the store reports is never
    negative: for every store and symbol it is NaN, [+Infinity] or a
    finite value of at least 0. *)
Theorem X27_store_volatility_not_negative :
  forall (mh : gmap string AssetTimeSeries) (sym : string),
    nanOrNotNegative (getVolatility mh sym) = true.
Proof.
  intros mh sym. unfold getVolatility.
  destruct (mh !! sym) as [s|]; [|unfold nanOrNotNegative; num_cases].
  destruct (List.length (prices s) <? 2)%nat; [unfold nanOrNotNegative; num_cases|].
  destruct (List.length (logReturns _) <? 2)%nat; [unfold nanOrNotNegative; num_cases|].
  apply shape_nanOrNotNegative.
  apply deviationShape_mul; [apply standardDeviation_shape | apply sqrt_shape].
Qed.

End FrequencyProofs.

(** ** From the store to the recommendation *)

Section FlatForecastProofs.
Import SimpleStatistics marketHistory riskMetrics forecastEngine decisionEngine DecisionSpec.

(** X29.  From the store to the recommendation: on a series that stays
    at one price other than 0, with the risk metrics of that series and a
    price uncertainty that is not above 0.02, and whatever the forecast
    is, the recommendation is to take profit when the expected value is
    above 1.05 times the lower bound and to hold otherwise; the urgency
    follows from the probability of loss alone; the one alternative
    offered is to hold, beside a recommendation to take profit; and the
    recommended maximum position, a division by the VaR of 0, is never a
    finite number. *)
Theorem X29_flat_history_recommendation :
  forall (now : Z) (mh : gmap string AssetTimeSeries) (sym : string) (p : R) (n : nat)
         (positionValue relativeUncertainty : number)
         (priceData : MarketData.ProcessedPriceData) (forecast : ForecastResult),
    p <> 0%R ->
    getPriceArray mh sym = repeat (Fin p) n ->
    (relativeUncertainty >? 0.02) = false ->
    let d := generateDecision now sym forecast
               (calculateRiskMetrics mh sym positionValue relativeUncertainty)
               positionValue priceData in
    let probLoss := probabilityOfLoss (riskAssessment d) in
    type d = (if expectedValue forecast >? lowerBound forecast * 1.05
              then take_profit else hold)
    /\ urgency d = (if probLoss >? 0.3 then critical
                    else if probLoss >? 0.2 then high
                    else if probLoss >? 0.1 then medium
                    else low)
    /\ offered (alternatives d) = (if isType (type d) hold then [] else [hold])
    /\ Num.is_finite (recommendedMaxPosition (riskAssessment d)) = false.
Proof.
  intros now mh sym p n positionValue relativeUncertainty priceData forecast Hp Hps Hu d.
  subst d. cbv zeta.
  pose proof (flat_series_metrics mh sym p n positionValue relativeUncertainty Hp Hps)
    as Hrisk.
  set (risk := calculateRiskMetrics mh sym positionValue relativeUncertainty) in *.
  assert (Hvol : volatility risk = Fin 0) by exact (Forall_inv Hrisk).
  assert (Hvar : var95 risk = Fin 0)
    by exact (Forall_inv (Forall_inv_tail (Forall_inv_tail Hrisk))).
  assert (Hdd : currentDrawdown risk = Fin 0)
    by exact (Forall_inv (Forall_inv_tail (Forall_inv_tail (Forall_inv_tail
                (Forall_inv_tail (Forall_inv_tail (Forall_inv_tail (Forall_inv_tail Hrisk)))))))).
  assert (Hunc : riskMetrics.relativeUncertainty risk = relativeUncertainty) by reflexivity.
  assert (Htype : determineDecisionType forecast risk positionValue
                  = if expectedValue forecast >? lowerBound forecast * 1.05
                    then take_profit else hold).
  { unfold determineDecisionType. rewrite Hvol, Hvar, Hdd, Hunc, Hu.
    replace (Fin 0 >? 0.5) with false by (symmetry; num_eval).
    replace (Fin 0 >? 0.1) with false by (symmetry; num_eval).
    replace (Fin 0 >? 0.15) with false by (symmetry; num_eval).
    replace (Fin 0 <? 0.05) with true by (symmetry; num_eval).
    cbn [andb]. now rewrite andb_true_r. }
  unfold generateDecision.
  cbn [type urgency riskAssessment probabilityOfLoss recommendedMaxPosition alternatives].
  rewrite Htype. split; [reflexivity|]. split.
  { unfold determineUrgency. rewrite Hvar.
    replace (Fin 0 >? 0.15) with false by (symmetry; num_eval).
    replace (Fin 0 >? 0.1) with false by (symmetry; num_eval).
    replace (Fin 0 >? 0.05) with false by (symmetry; num_eval).
    reflexivity. }
  split.
  { unfold generateAlternatives, offered. rewrite Hvar, Hvol.
    replace (Fin 0 >? 0.05) with false by (symmetry; num_eval).
    replace (Fin 0 >? 0.3) with false by (symmetry; num_eval).
    rewrite !andb_false_r.
    destruct (expectedValue forecast >? lowerBound forecast * 1.05); reflexivity. }
  rewrite Hvar. destruct positionValue as [v| | |]; num_cases.
Qed.

Lemma X29_flat_history_witness :
  100%R <> 0%R
  /\ getPriceArray Scenarios.flatHistory "SOL" = repeat (Fin 100) 12
  /\ (Fin 0.001 >? 0.02) = false
  /\ type (generateDecision 0 "SOL" Samples.forecast100
             (calculateRiskMetrics Scenarios.flatHistory "SOL" (Fin 1000) (Fin 0.001))
             (Fin 1000) Samples.freshPrice)
     = (if expectedValue Samples.forecast100 >? lowerBound Samples.forecast100 * 1.05
        then take_profit else hold).
Proof.
  assert (Hp : 100%R <> 0%R) by lra.
  assert (Hu : (Fin 0.001 >? 0.02) = false) by (apply Rltb_false; lra).
  split; [exact Hp | split; [exact flatHistory_prices | split; [exact Hu|]]].
  exact (proj1 (X29_flat_history_recommendation 0 Scenarios.flatHistory "SOL" 100 12
                  (Fin 1000) (Fin 0.001) Samples.freshPrice Samples.forecast100
                  Hp flatHistory_prices Hu)).
Defined.

End FlatForecastProofs.
